(** * DPA compliance analysis engine: a shallow embedding

    The development follows the Python sources file by file:
    - [Py], [Regex]: the string and [re] primitives the engine calls,
      on ASCII text;
    - [PII]: [pii_detector.py] (categorisation, consent and purpose detectors);
    - [KB]: [enhanced_dpa_knowledge_v2.py]; [KBLegacy]: [enhanced_dpa_knowledge.py];
    - [Checker]: [dpa_compliance_checker.py];
    - [Mistral]: [mistral_analyzer.py] (reconciliation, image analysis).

    Python dictionaries with a fixed set of keys are records; keys that the
    code reads through [.get(key, default)] are [option] fields.  Dictionaries
    that the code iterates over keep their insertion order as association
    lists; those that are only looked up are [gmap]s.  Exceptions are values
    of [result]. *)

From Stdlib Require Import ZArith DecimalString Ascii String.
From Stdlib Require QArith.
From stdpp Require Import base gmap strings list sorting.

Open Scope string_scope.

(** ** Exceptions *)

Record exn := Exn { exn_class : string; exn_msg : string }.

Inductive result (A : Type) : Type :=
| Ok (a : A)
| Raise (e : exn).
Arguments Ok {A} a.
Arguments Raise {A} e.

#[global] Instance result_ret : MRet result := λ A a, Ok a.

#[global] Instance result_bind : MBind result := λ A B k m,
  match m with
  | Ok a => k a
  | Raise e => Raise e
  end.

(** ** Python string primitives, on ASCII text

    A text is a [string] of ASCII characters: [lower] maps [A-Z] to [a-z]
    and leaves every other character alone. *)
Module Py.

Definition is_upper (c : ascii) : bool :=
  let n := nat_of_ascii c in Nat.leb 65 n && Nat.leb n 90.

Definition lower_ascii (c : ascii) : ascii :=
  if is_upper c then ascii_of_nat (nat_of_ascii c + 32) else c.

(** [s.lower()] *)
Fixpoint lower (s : string) : string :=
  match s with
  | "" => ""
  | String c s' => String (lower_ascii c) (lower s')
  end.

(** [sub in s] *)
Fixpoint contains (sub s : string) : bool :=
  String.prefix sub s ||
  match s with
  | "" => false
  | String _ s' => contains sub s'
  end.

(** [s.count(sub)]: occurrences that do not overlap, scanning from the
    left; [skip] is the number of characters still covered by the last
    occurrence. *)
Fixpoint count_from (sub : string) (skip : nat) (s : string) : nat :=
  match s with
  | "" => 0
  | String _ s' =>
      match skip with
      | S k => count_from sub k s'
      | O => if String.prefix sub s
             then S (count_from sub (String.length sub - 1) s')
             else count_from sub 0 s'
      end
  end.

Definition count (s sub : string) : nat :=
  match sub with
  | "" => S (String.length s)
  | _ => count_from sub 0 s
  end.

(** [s[:n]] for a constant [n >= 0] *)
Fixpoint slice_to (n : nat) (s : string) : string :=
  match n, s with
  | S n', String c s' => String c (slice_to n' s')
  | _, _ => ""
  end.

(** [s.split(sep)[0]] for a non-empty [sep] *)
Fixpoint split_head (sep s : string) : string :=
  if String.prefix sep s then ""
  else match s with
       | "" => ""
       | String c s' => String c (split_head sep s')
       end.

(** [str(n)] for an [int] *)
Definition str_int (n : Z) : string := NilZero.string_of_int (Z.to_int n).

(** [l[:n]] on a list, for any [int] [n]: a negative bound counts from
    the end. *)
Definition list_slice_to {A} (n : Z) (l : list A) : list A :=
  if (0 <=? n)%Z then take (Z.to_nat n) l
  else take (length l - Z.to_nat (- n)) l.

(** [l.index(x)] on a list of strings: [ValueError] when absent. *)
Fixpoint index_from (x : string) (l : list string) (i : nat) : result nat :=
  match l with
  | [] => Raise (Exn "ValueError" ("'" +:+ x +:+ "' is not in list"))
  | y :: l' => if String.eqb y x then Ok i else index_from x l' (S i)
  end.

Definition index (l : list string) (x : string) : result nat := index_from x l 0.

(** [s.endswith(suffix)] *)
Fixpoint endswith (s suffix : string) : bool :=
  String.eqb s suffix ||
  match s with
  | "" => false
  | String _ s' => endswith s' suffix
  end.

(** [s.find(c)] for a single character: the first index, or [-1]. *)
Fixpoint find_from (c : ascii) (s : string) (i : Z) : Z :=
  match s with
  | "" => (-1)%Z
  | String x s' => if Ascii.eqb x c then i else find_from c s' (i + 1)%Z
  end.

Definition find (s : string) (c : ascii) : Z := find_from c s 0.

(** [s.rfind(c)]: the last index, or [-1]. *)
Fixpoint rfind_from (c : ascii) (s : string) (i : Z) (last : Z) : Z :=
  match s with
  | "" => last
  | String x s' => rfind_from c s' (i + 1)%Z (if Ascii.eqb x c then i else last)
  end.

Definition rfind (s : string) (c : ascii) : Z := rfind_from c s 0 (-1).

Fixpoint drop_str (n : nat) (s : string) : string :=
  match n, s with
  | S n', String _ s' => drop_str n' s'
  | _, _ => s
  end.

(** [s[a:b]] for two bounds that are not negative *)
Definition slice (a b : Z) (s : string) : string :=
  slice_to (Z.to_nat (b - a)) (drop_str (Z.to_nat a) s).

(** The white space of [str.isspace], [str.strip] and the [\s] of [re],
    among the ASCII characters. *)
Definition is_space (c : ascii) : bool :=
  let n := nat_of_ascii c in
  (Nat.leb 9 n && Nat.leb n 13) || (Nat.leb 28 n && Nat.leb n 32).

Fixpoint lstrip (s : string) : string :=
  match s with
  | String c s' => if is_space c then lstrip s' else s
  | "" => ""
  end.

(** [s.rstrip()]: a character stays when it is no white space or when
    something stays after it. *)
Fixpoint rstrip (s : string) : string :=
  match s with
  | "" => ""
  | String c s' =>
      match rstrip s' with
      | "" => if is_space c then "" else String c ""
      | rest => String c rest
      end
  end.

(** [s.strip()] *)
Definition strip (s : string) : string := rstrip (lstrip s).

(** [s.isascii()]: every character is below 128.  On such a text the
    [re] module, also with [re.IGNORECASE], and [str.lower] know no other
    letters than [A-Z] and [a-z]. *)
Fixpoint isascii (s : string) : bool :=
  match s with
  | "" => true
  | String c s' => Nat.ltb (nat_of_ascii c) 128 && isascii s'
  end.

End Py.

(** ** The fragment of [re] the engine uses

    Every pattern in the sources is a run of literal characters between
    word-boundary assertions, matched with [re.IGNORECASE]; the word
    characters are the ASCII letters, the digits and the underscore. *)
Module Regex.

Inductive tok := Boundary | Lit (c : ascii).

Fixpoint parse (p : string) : list tok :=
  match p with
  | "" => []
  | String "\"%char (String "b"%char r) => Boundary :: parse r
  | String c r => Lit c :: parse r
  end.

Definition is_word (c : ascii) : bool :=
  let n := nat_of_ascii c in
  (Nat.leb 48 n && Nat.leb n 57) || (Nat.leb 65 n && Nat.leb n 90)
  || (Nat.leb 97 n && Nat.leb n 122) || Nat.eqb n 95.

Definition word_opt (c : option ascii) : bool :=
  match c with Some a => is_word a | None => false end.

Definition head_opt (s : string) : option ascii :=
  match s with "" => None | String c _ => Some c end.

(** Does the token list match at the start of [s], the character before
    being [prev]? *)
Fixpoint match_here (ts : list tok) (prev : option ascii) (s : string) : bool :=
  match ts with
  | [] => true
  | Boundary :: ts' =>
      xorb (word_opt prev) (word_opt (head_opt s)) && match_here ts' prev s
  | Lit c :: ts' =>
      match s with
      | "" => false
      | String x s' =>
          Ascii.eqb (Py.lower_ascii x) (Py.lower_ascii c) && match_here ts' (Some x) s'
      end
  end.

Fixpoint search_from (ts : list tok) (prev : option ascii) (s : string) : bool :=
  match_here ts prev s ||
  match s with
  | "" => false
  | String x s' => search_from ts (Some x) s'
  end.

(** [re.search(pattern, text, re.IGNORECASE)], as a truth value *)
Definition search (pattern text : string) : bool :=
  search_from (parse pattern) None text.

Definition width (ts : list tok) : nat :=
  length (List.filter (λ t, match t with Lit _ => true | Boundary => false end) ts).

Record Match := { m_text : string; m_start : nat; m_end : nat }.

(** [re.finditer]: the matches from left to right, none overlapping the
    one before. *)
Fixpoint finditer_from (ts : list tok) (skip pos : nat) (prev : option ascii)
         (s : string) : list Match :=
  match s with
  | "" => []
  | String x s' =>
      match skip with
      | S k => finditer_from ts k (S pos) (Some x) s'
      | O =>
          if match_here ts prev s
          then {| m_text := Py.slice_to (width ts) s; m_start := pos;
                  m_end := pos + width ts |}
               :: finditer_from ts (width ts - 1) (S pos) (Some x) s'
          else finditer_from ts 0 (S pos) (Some x) s'
      end
  end.

Definition finditer (pattern text : string) : list Match :=
  finditer_from (parse pattern) 0 0 None text.

End Regex.

(** A [dict] whose values are strings, read with [.get(key, default)]. *)
Abbreviation sdict := (gmap string string).

Definition get_str (d : sdict) (key dflt : string) : string :=
  default dflt (d !! key).

(** A [dict] in insertion order, for the dictionaries the code iterates. *)
Fixpoint od_get {V} (key : string) (d : list (string * V)) : option V :=
  match d with
  | [] => None
  | (k, v) :: d' => if String.eqb k key then Some v else od_get key d'
  end.

(** [sorted(..., key=key, reverse=True)] and [list.sort]: Python's sort is
    stable, also in reverse, so of two elements with equal keys the one
    that came first stays first.  The element to insert comes from before
    every element of the sorted tail. *)
Fixpoint insert_desc {A} (key : A → Z) (x : A) (l : list A) : list A :=
  match l with
  | [] => [x]
  | y :: l' => if (key x <? key y)%Z then y :: insert_desc key x l'
               else x :: y :: l'
  end.

Definition sort_desc {A} (key : A → Z) (l : list A) : list A :=
  foldr (insert_desc key) [] l.

(** The order of a list sorted this way: no key below a later one. *)
Definition desc {A} (key : A → Z) (a b : A) : Prop := (key b ≤ key a)%Z.

(** ** pii_detector.py *)
Module PII.

(** One detected item; [sensitive] is the key the knowledge base reads
    with [item.get("sensitive", False)], which [detect_pii] never sets. *)
Record Item := {
  entity_type : string;
  text : string;
  start : nat;
  end_ : nat;
  confidence : QArith_base.Q;
  is_sensitive : bool;
  sensitive : option bool
}.

Record Categorized := {
  regular_pii : list Item;
  sensitive_pii : list Item;
  total_pii_count : Z;
  sensitive_count : Z;
  regular_count : Z
}.

Definition mem (x : string) (l : list string) : bool := existsb (String.eqb x) l.

Definition in_sensitive_partition (pii : Item) : bool :=
  is_sensitive pii ||
  mem (entity_type pii)
      ["HEALTH_INFO"; "RELIGIOUS_INFO"; "FINANCIAL_INFO";
       "PH_TIN"; "PH_SSS"; "PH_PHILHEALTH"].

Definition categorize_pii (pii_results : list Item) : Categorized :=
  let sensitive_pii := List.filter in_sensitive_partition pii_results in
  let regular_pii := List.filter (λ pii, negb (in_sensitive_partition pii)) pii_results in
  {| regular_pii := regular_pii;
     sensitive_pii := sensitive_pii;
     total_pii_count := Z.of_nat (length pii_results);
     sensitive_count := Z.of_nat (length sensitive_pii);
     regular_count := Z.of_nat (length regular_pii) |}.

Record Indicator := {
  i_text : string;
  i_start : nat;
  i_end : nat;
  i_pattern : string
}.

Definition indicators_of (patterns : list string) (text : string) : list Indicator :=
  flat_map
    (λ pattern,
       map (λ m, {| i_text := Regex.m_text m; i_start := Regex.m_start m;
                    i_end := Regex.m_end m; i_pattern := pattern |})
           (Regex.finditer pattern text))
    patterns.

Definition consent_patterns : list string :=
  ["\bconsent\b"; "\bagree\b"; "\bauthorize\b"; "\bpermit\b";
   "\ballow\b"; "\bapprove\b"; "\baccept\b"; "\bpayag\b";
   "\bsang-ayon\b"; "\bpahintulot\b"].

Definition detect_consent_indicators (text : string) : list Indicator :=
  indicators_of consent_patterns text.

Definition purpose_patterns : list string :=
  ["\bpurpose\b"; "\bintended for\b"; "\bused for\b";
   "\bprocessed for\b"; "\blayunin\b"; "\bgagamitin\b"].

Definition detect_purpose_statements (text : string) : list Indicator :=
  indicators_of purpose_patterns text.

End PII.

(** ** The records shared by the knowledge base and the reconciliation *)
Module Shape.

(** A violation of the knowledge-base analysis; [details], [confidence]
    and [source] are the keys only merged violations carry. *)
Record Violation := {
  v_section : string;
  v_title : string;
  v_violation : string;
  v_severity : string;
  v_description : string;
  v_dpa_reference : option string;
  v_details : option string;
  v_confidence : option QArith_base.Q;
  v_source : option string
}.

Record Recommendation := {
  r_priority : string;
  r_action : string;
  r_description : string;
  r_section_reference : string;
  r_implementation : option string;
  r_source : option string
}.

Record Metadata := {
  md_document_name : option string;
  md_analysis_date : option string;
  md_ai_model : option string;
  md_knowledge_base_version : option string;
  md_analysis_type : option string;
  md_has_image : option bool;
  md_sections_analyzed : option nat;
  md_total_pii_found : option nat;
  md_error : option string
}.

(** What the external model says about risk: a dictionary, or the empty
    list that [_parse_ai_response] stores for a missing key. *)
Inductive RiskAssessment :=
| RiskDict (overall_risk : option string) (risk_factors : list string)
           (mitigation_priority : option string)
| RiskList.

(** What the external model says under [ai_insights]: a dictionary, the
    empty list that [_parse_ai_response] stores for a missing key, or any
    other JSON value the answer holds there ([null], a string, a number,
    [true] or [false]); [type_name] is the name of its Python type
    ([NoneType], [str], [int], [float], [bool]). *)
Inductive Insights :=
| InsightsDict (document_type processing_purpose data_flow : option string)
               (compliance_gaps : list string)
| InsightsList
| InsightsOther (type_name : string).

(** The report dictionary, from the knowledge-base analysis to the
    result of the image analysis; a key that is not always set is an
    [option]. *)
Record Report := {
  document_name : option string;
  analysis_date : option string;
  compliance_status : string;
  risk_level : string;
  violations : list Violation;
  recommendations : list Recommendation;
  analysis_metadata : Metadata;
  ai_risk_level : option string;
  ai_insights : option Insights;
  ai_risk_assessment : option RiskAssessment;
  pii_summary : option PII.Categorized;
  extracted_text : option string;
  consent_indicators : option (list PII.Indicator);
  purpose_indicators : option (list PII.Indicator)
}.

End Shape.

(** ** enhanced_dpa_knowledge_v2.py *)
Module KB.
Import Shape.

Record Definition_ := {
  d_term : string;
  d_definition : string;
  d_section : string
}.

Record Penalty := {
  p_title : option string;
  p_fines : option (list string);
  p_imprisonment : option (list string)
}.

(** The empty dictionary as a penalty. *)
Definition no_penalty : Penalty :=
  {| p_title := None; p_fines := None; p_imprisonment := None |}.

(** An entry of a search result: an entry of the search index (type
    [section] or [definition], no relevance) or a section found by its
    content. *)
Record Hit := {
  h_type : string;
  h_section : option string;
  h_title : option string;
  h_term : option string;
  h_definition : option string;
  h_relevance : option Z
}.

(** The parsed data file; every top-level key may be missing. *)
Record File := {
  f_sections : option (list (string * sdict));
  f_definitions : option (list (string * Definition_));
  f_penalties : option (gmap string Penalty);
  f_rights : option (gmap string sdict);
  f_functions : option (gmap string sdict);
  f_principles : option (gmap string sdict);
  f_compliance_rules : option (gmap string (list string));
  f_search_index : option (gmap string (list Hit));
  f_metadata : option sdict
}.

Definition empty_file : File :=
  {| f_sections := None; f_definitions := None; f_penalties := None;
     f_rights := None; f_functions := None; f_principles := None;
     f_compliance_rules := None; f_search_index := None; f_metadata := None |}.

Record State := {
  knowledge_base : File;
  sections : list (string * sdict);
  definitions : list (string * Definition_);
  penalties : gmap string Penalty;
  rights : gmap string sdict;
  functions : gmap string sdict;
  principles : gmap string sdict;
  compliance_rules : gmap string (list string);
  search_index : gmap string (list Hit)
}.

(** The attributes as [__init__] sets them before loading. *)
Definition initial : State :=
  {| knowledge_base := empty_file; sections := []; definitions := [];
     penalties := ∅; rights := ∅; functions := ∅; principles := ∅;
     compliance_rules := ∅; search_index := ∅ |}.

(** [kb_file] is [None] when [os.path.exists] is false, else the outcome
    of [json.load]. *)
Definition load_knowledge_base (self : State) (kb_file : option (result File))
  : result State :=
  match kb_file with
  | Some parsed =>
      kb ← parsed;
      Ok {| knowledge_base := kb;
            sections := default [] (f_sections kb);
            definitions := default [] (f_definitions kb);
            penalties := default ∅ (f_penalties kb);
            rights := default ∅ (f_rights kb);
            functions := default ∅ (f_functions kb);
            principles := default ∅ (f_principles kb);
            compliance_rules := default ∅ (f_compliance_rules kb);
            search_index := default ∅ (f_search_index kb) |}
  | None => Ok self
  end.

Definition init (kb_file : option (result File)) : result State :=
  load_knowledge_base initial kb_file.

Definition get_section (self : State) (section_number : string) : sdict :=
  default ∅ (od_get section_number (sections self)).

Definition get_definition (self : State) (term : string) : option Definition_ :=
  let term_lower := Py.lower term in
  snd <$> List.find (λ kd, Py.contains term_lower (fst kd) || Py.contains (fst kd) term_lower)
                    (definitions self).

Definition get_penalty_info (self : State) (section_number : string) : Penalty :=
  default no_penalty (penalties self !! section_number).

Definition relevance_key (x : Hit) : Z := default 1%Z (h_relevance x).

Definition section_hits (self : State) (keyword_lower : string) : list Hit :=
  flat_map
    (λ kv, let section_data := snd kv in
           if Py.contains keyword_lower (Py.lower (get_str section_data "content" ""))
           then [ {| h_type := "section_content";
                     h_section := Some (fst kv);
                     h_title := Some (get_str section_data "title" "");
                     h_term := None; h_definition := None;
                     h_relevance :=
                       Some (Z.of_nat (Py.count (Py.lower (get_str section_data "content" ""))
                                                keyword_lower)) |} ]
           else [])
    (sections self).

(** The list [results] just before it is sorted. *)
Definition search_candidates (self : State) (keyword : string) (limit : Z) : list Hit :=
  let keyword_lower := Py.lower keyword in
  let results :=
    match search_index self !! keyword_lower with
    | Some entries => Py.list_slice_to limit entries
    | None => []
    end in
  if (Z.of_nat (length results) <? limit)%Z
  then results ++ section_hits self keyword_lower
  else results.

Definition search_content (self : State) (keyword : string) (limit : Z) : list Hit :=
  Py.list_slice_to limit (sort_desc relevance_key (search_candidates self keyword limit)).

Definition any_in (keywords : list string) (text : string) : bool :=
  existsb (λ keyword, Py.contains keyword text) keywords.

Definition _has_consent_indicators (text : string) : bool :=
  any_in ["consent"; "agree"; "permission"; "authorize"; "approval";
          "opt-in"; "accept"; "acknowledge"; "voluntary"] text.

Definition _has_explicit_consent (text : string) : bool :=
  any_in ["explicit consent"; "specific consent"; "express consent";
          "written consent"; "informed consent"; "clear consent"] text.

Definition _has_transparency_indicators (text : string) : bool :=
  any_in ["purpose"; "notification"; "inform"; "disclose"; "explain";
          "privacy policy"; "data use"; "processing purpose"] text.

Definition _has_security_measures (text : string) : bool :=
  any_in ["security"; "encryption"; "protection"; "safeguard"; "secure";
          "confidential"; "access control"; "authentication"; "firewall"] text.

Definition dpa_reference (self : State) (section_number : string) : string :=
  Py.slice_to 200 (get_str (get_section self section_number) "content" "") +:+ "...".

Definition baseline_violation (self : State) (section title violation severity description : string)
  : Violation :=
  {| v_section := section; v_title := title; v_violation := violation;
     v_severity := severity; v_description := description;
     v_dpa_reference := Some (dpa_reference self section);
     v_details := None; v_confidence := None; v_source := None |}.

Definition nonempty {A} (l : list A) : bool :=
  match l with [] => false | _ => true end.

Definition check_violation (self : State) (text : string) (pii_data : list PII.Item)
  : list Violation :=
  let text_lower := Py.lower text in
  let sensitive_pii := List.filter (λ item, default false (PII.sensitive item)) pii_data in
  (if nonempty pii_data && negb (_has_consent_indicators text_lower)
   then [baseline_violation self "12"
           "Criteria for Lawful Processing of Personal Information"
           "Processing without consent" "HIGH"
           "Personal information appears to be processed without clear consent from data subjects"]
   else [])
  ++ (if nonempty sensitive_pii && negb (_has_explicit_consent text_lower)
      then [baseline_violation self "13"
              "Sensitive Personal Information and Privileged Information"
              "Processing sensitive information without explicit consent" "CRITICAL"
              "Sensitive personal information detected without explicit consent provisions"]
      else [])
  ++ (if nonempty pii_data && negb (_has_transparency_indicators text_lower)
      then [baseline_violation self "16"
              "Rights of the Data Subject"
              "Lack of transparency in data processing" "MEDIUM"
              "Data subjects may not be adequately informed about data processing"]
      else [])
  ++ (if negb (_has_security_measures text_lower)
      then [baseline_violation self "20"
              "Security of Personal Information"
              "Inadequate security measures" "HIGH"
              "Document does not demonstrate adequate security measures for personal information"]
      else []).

Definition recommendation (priority action description section_reference : string)
  : Recommendation :=
  {| r_priority := priority; r_action := action; r_description := description;
     r_section_reference := section_reference;
     r_implementation := None; r_source := None |}.

Definition generate_recommendations (violations : list Violation) (pii_data : list PII.Item)
  : list Recommendation :=
  let violation_sections := map v_section violations in
  (if PII.mem "12" violation_sections || PII.mem "13" violation_sections
   then [recommendation "CRITICAL" "Implement proper consent mechanisms"
           "Establish clear, specific, and informed consent procedures before collecting personal information"
           "Section 12 - Criteria for Lawful Processing"]
   else [])
  ++ (if PII.mem "16" violation_sections
      then [recommendation "HIGH" "Enhance transparency and data subject notifications"
              "Provide clear information about data processing purposes, methods, and data subject rights"
              "Section 16 - Rights of the Data Subject"]
      else [])
  ++ (if PII.mem "20" violation_sections
      then [recommendation "HIGH" "Implement comprehensive security measures"
              "Deploy organizational, physical, and technical safeguards to protect personal information"
              "Section 20 - Security of Personal Information"]
      else [])
  ++ (if nonempty pii_data
      then [recommendation "MEDIUM" "Conduct data protection impact assessment"
              "Evaluate the risks and implement appropriate measures for personal data processing"
              "Section 11 - General Data Privacy Principles"]
      else []).

Definition with_severity (severity : string) (violations : list Violation) : list Violation :=
  List.filter (λ v, String.eqb (v_severity v) severity) violations.

(** [now] is [datetime.now().isoformat()]. *)
Definition get_comprehensive_analysis (self : State) (now text : string)
           (pii_data : list PII.Item) : Report :=
  let violations := check_violation self text pii_data in
  let recommendations := generate_recommendations violations pii_data in
  let risk_level :=
    if nonempty violations then
      let critical_violations := with_severity "CRITICAL" violations in
      let high_violations := with_severity "HIGH" violations in
      if nonempty critical_violations then "CRITICAL"
      else if (2 <=? length high_violations)%nat then "HIGH"
      else if nonempty high_violations then "MEDIUM"
      else "LOW"
    else "LOW" in
  let compliance_status := if nonempty violations then "NON-COMPLIANT" else "COMPLIANT" in
  {| document_name := None;
     analysis_date := None;
     compliance_status := compliance_status;
     risk_level := risk_level;
     violations := violations;
     recommendations := recommendations;
     analysis_metadata :=
       {| md_document_name := None; md_analysis_date := Some now;
          md_ai_model := None; md_knowledge_base_version := Some "v2";
          md_analysis_type := None; md_has_image := None;
          md_sections_analyzed := Some (length (sections self));
          md_total_pii_found := Some (if nonempty pii_data then length pii_data else 0);
          md_error := None |};
     ai_risk_level := None; ai_insights := None; ai_risk_assessment := None;
     pii_summary := None; extracted_text := None;
     consent_indicators := None; purpose_indicators := None |}.

End KB.

(** ** enhanced_dpa_knowledge.py, the search of the legacy knowledge base *)
Module KBLegacy.

Record Hit := {
  section : string;
  title : string;
  relevance : Z
}.

(** The list [results] just before it is sorted. *)
Definition matching_sections (sections : list (string * sdict)) (keyword : string)
  : list Hit :=
  flat_map
    (λ kv, let section_data := snd kv in
           let content := Py.lower (get_str section_data "content" "") in
           let title := Py.lower (get_str section_data "title" "") in
           if Py.contains (Py.lower keyword) content || Py.contains (Py.lower keyword) title
           then [ {| section := fst kv;
                     title := get_str section_data "title" "";
                     relevance := Z.of_nat (Py.count content (Py.lower keyword))
                                  + Z.of_nat (Py.count title (Py.lower keyword)) * 2 |} ]
           else [])
    sections.

Definition search_sections (sections : list (string * sdict)) (keyword : string) : list Hit :=
  sort_desc relevance (matching_sections sections keyword).

Definition get_section (sections : list (string * sdict)) (section_number : string) : sdict :=
  default ∅ (od_get section_number sections).

(** [rules.append(rule)] under [if keyword in content] *)
Definition rule_if (content keyword rule : string) : list string :=
  if Py.contains keyword content then [rule] else [].

Definition get_compliance_rules (sections : list (string * sdict))
           (section_number : string) : list string :=
  let section := get_section sections section_number in
  if bool_decide (section = ∅) then []
  else
    let content := Py.lower (get_str section "content" "") in
    if String.eqb section_number "12" then
      (rule_if content "consent" "Data subject consent required"
       ++ rule_if content "legal obligation" "Must comply with legal obligations"
       ++ rule_if content "legitimate interest" "Must have legitimate interest"
       ++ rule_if content "contract" "Processing for contract fulfillment allowed"
       ++ rule_if content "vital interest" "Processing to protect vital interests allowed")%list
    else if String.eqb section_number "13" then
      (rule_if content "consent"
               "Explicit consent required for sensitive personal information"
       ++ rule_if content "prohibited"
                  "Processing of SPI generally prohibited except in specific cases"
       ++ rule_if content "medical" "Medical treatment exception applies")%list
    else if String.eqb section_number "11" then
      (rule_if content "transparency" "Transparency principle must be followed"
       ++ rule_if content "legitimate purpose" "Must have legitimate purpose"
       ++ rule_if content "proportionality" "Processing must be proportional"
       ++ rule_if content "specified" "Purposes must be specified")%list
    else if String.eqb section_number "20" then
      (rule_if content "reasonable" "Implement reasonable security measures"
       ++ rule_if content "appropriate" "Use appropriate technical safeguards"
       ++ rule_if content "organizational" "Implement organizational security measures"
       ++ rule_if content "physical" "Implement physical security measures")%list
    else [].

Record Pattern := {
  p_type : string;
  p_description : string;
  p_severity : string;
  p_indicators : list string;
  p_section_reference : string
}.

Definition get_violation_patterns (sections : list (string * sdict))
           (section_number : string) : list Pattern :=
  if String.eqb section_number "12" then
    [ {| p_type := "unauthorized_processing";
         p_description := "Processing personal information without lawful basis";
         p_severity := "HIGH";
         p_indicators := ["no consent"; "no legal basis"; "unauthorized collection"];
         p_section_reference := "Section 12" |} ]
  else if String.eqb section_number "13" then
    [ {| p_type := "inadequate_spi_protection";
         p_description := "Inadequate protection of sensitive personal information";
         p_severity := "CRITICAL";
         p_indicators := ["health data"; "religious info"; "genetic data"; "race";
                          "political affiliation"];
         p_section_reference := "Section 13" |} ]
  else if String.eqb section_number "11" then
    [ {| p_type := "lack_of_transparency";
         p_description := "Failure to inform data subjects about processing";
         p_severity := "MEDIUM";
         p_indicators := ["no privacy notice"; "no purpose statement"];
         p_section_reference := "Section 11" |};
      {| p_type := "excessive_processing";
         p_description := "Processing more data than necessary";
         p_severity := "MEDIUM";
         p_indicators := ["excessive data"; "irrelevant information"];
         p_section_reference := "Section 11" |} ]
  else if String.eqb section_number "20" then
    [ {| p_type := "inadequate_security";
         p_description := "Failure to implement appropriate security measures";
         p_severity := "HIGH";
         p_indicators := ["unencrypted data"; "no access controls"; "insecure storage"];
         p_section_reference := "Section 20" |} ]
  else if PII.mem section_number ["25"; "26"; "27"; "28"; "29"; "30"; "31"; "32"] then
    [ {| p_type := "criminal_violation";
         p_description := "Criminal violation under "
                          +:+ get_str (get_section sections section_number) "title" "DPA";
         p_severity := "CRITICAL";
         p_indicators := ["criminal penalty"; "imprisonment"; "fine"];
         p_section_reference := "Section " +:+ section_number |} ]
  else [].

Definition penalty_sections : list (string * string) :=
  [("unauthorized_processing", "25"); ("negligent_access", "26");
   ("improper_disposal", "27"); ("unauthorized_purposes", "28");
   ("intentional_breach", "29"); ("concealment", "30");
   ("malicious_disclosure", "31"); ("unauthorized_disclosure", "32")].

Record PenaltyInfo := {
  pi_section : string;
  pi_title : string;
  pi_content : string
}.

(** [None] is the empty dictionary. *)
Definition get_penalties_for_violation (sections : list (string * sdict))
           (violation_type : string) : option PenaltyInfo :=
  match od_get violation_type penalty_sections with
  | Some section_num =>
      match od_get section_num sections with
      | Some section =>
          Some {| pi_section := section_num;
                  pi_title := get_str section "title" "";
                  pi_content := get_str section "content" "" |}
      | None => None
      end
  | None => None
  end.

End KBLegacy.

(** ** mistral_analyzer.py *)
Module Mistral.
Import Shape.

(** A violation as the external model reports it, in an answer of the
    form the prompt asks for: any key may be missing, and a key that is
    there holds a string (a number under [confidence]).  An answer with
    another value there, say [null] under [section], is outside this
    type: on it [_is_duplicate_violation] raises AttributeError. *)
Record AIViolation := {
  av_section : option string;
  av_violation_type : option string;
  av_severity : option string;
  av_description : option string;
  av_legal_basis : option string;
  av_confidence : option QArith_base.Q
}.

Record AIRecommendation := {
  ar_priority : option string;
  ar_action : option string;
  ar_description : option string;
  ar_section_reference : option string;
  ar_implementation : option string
}.

(** What [_get_mistral_text_analysis] and [_get_mistral_image_analysis]
    return: the parsed response, or the error dictionary of a failed call. *)
Record AIAnalysis := {
  ai_violations : option (list AIViolation);
  ai_recommendations : option (list AIRecommendation);
  ai_risk : option RiskAssessment;
  ai_insights_ : option Insights;
  ai_error : option string
}.

(** The collaborators outside the engine. *)
Record World := {
  now : string;
  _extract_text_from_image : string → result string;
  detect_pii : string → result (list PII.Item);
  _get_mistral_text_analysis : string → list PII.Item → AIAnalysis;
  _get_mistral_image_analysis : string → string → list PII.Item → AIAnalysis
}.

Definition text_model : string := "mistral-small-latest".
Definition vision_model : string := "pixtral-12b-2409".

Definition overlap (a b : string) : bool := Py.contains a b || Py.contains b a.

(** The test of the loop body of [_is_duplicate_violation]: the sections
    overlap and the types overlap, all in lower case. *)
Definition same_finding (ai_violation : AIViolation) (baseline : Violation) : bool :=
  let ai_section := Py.lower (default "" (av_section ai_violation)) in
  let ai_type := Py.lower (default "" (av_violation_type ai_violation)) in
  let baseline_section := Py.lower (v_section baseline) in
  let baseline_type := Py.lower (v_violation baseline) in
  overlap ai_section baseline_section && overlap ai_type baseline_type.

Definition _is_duplicate_violation (ai_violation : AIViolation)
           (baseline_violations : list Violation) : bool :=
  existsb (same_finding ai_violation) baseline_violations.

Definition _is_duplicate_recommendation (ai_rec : AIRecommendation)
           (baseline_recommendations : list Recommendation) : bool :=
  let ai_action := Py.lower (default "" (ar_action ai_rec)) in
  existsb (λ baseline, overlap ai_action (Py.lower (r_action baseline)))
          baseline_recommendations.

Definition standard_violation (ai_violation : AIViolation) : Violation :=
  {| v_section := default "AI-Detected" (av_section ai_violation);
     v_title := default "AI-Detected Violation" (av_section ai_violation);
     v_violation := default "ai_detected" (av_violation_type ai_violation);
     v_severity := default "MEDIUM" (av_severity ai_violation);
     v_description := default "" (av_description ai_violation);
     v_dpa_reference := None;
     v_details := Some (default "" (av_legal_basis ai_violation));
     v_confidence := Some (default (QArith_base.Qmake 4 5) (av_confidence ai_violation));
     v_source := Some "mistral_ai" |}.

Definition standard_rec (ai_rec : AIRecommendation) : Recommendation :=
  {| r_priority := default "MEDIUM" (ar_priority ai_rec);
     r_action := default "" (ar_action ai_rec);
     r_description := default "" (ar_description ai_rec);
     r_section_reference := default "AI Analysis" (ar_section_reference ai_rec);
     r_implementation := Some (default "" (ar_implementation ai_rec));
     r_source := Some "mistral_ai" |}.

(** The first loop of [_combine_analyses].  [baseline_analysis.copy()] is
    a shallow copy, so [baseline_violations] and [combined["violations"]]
    are one list object: each append is seen by the duplicate test of the
    violations that follow. *)
Definition merge_violations (baseline_violations : list Violation)
           (ai_violations : list AIViolation) : list Violation :=
  fold_left
    (λ violations ai_violation,
       if _is_duplicate_violation ai_violation violations then violations
       else (violations ++ [standard_violation ai_violation])%list)
    ai_violations baseline_violations.

(** The second loop, on the recommendations, shares its list the same way. *)
Definition merge_recommendations (baseline_recommendations : list Recommendation)
           (ai_recommendations : list AIRecommendation) : list Recommendation :=
  fold_left
    (λ recommendations ai_rec,
       if _is_duplicate_recommendation ai_rec recommendations then recommendations
       else (recommendations ++ [standard_rec ai_rec])%list)
    ai_recommendations baseline_recommendations.

Definition risk_levels : list string := ["LOW"; "MEDIUM"; "HIGH"; "CRITICAL"].

(** [ai_risk.get("overall_risk")]: a list has no [get]. *)
Definition get_overall_risk (ai_risk : RiskAssessment) : result (option string) :=
  match ai_risk with
  | RiskDict overall_risk _ _ => Ok overall_risk
  | RiskList => Raise (Exn "AttributeError" "'list' object has no attribute 'get'")
  end.

Definition truthy (s : option string) : bool :=
  match s with
  | Some (String _ _) => true
  | _ => false
  end.

(** The higher of the two risk levels, as the code computes it. *)
Definition higher_risk (baseline_risk overall_risk : string) : result string :=
  baseline_risk_idx ← Py.index risk_levels baseline_risk;
  ai_risk_idx ← Py.index risk_levels overall_risk;
  match risk_levels !! Nat.max baseline_risk_idx ai_risk_idx with
  | Some level => Ok level
  | None => Raise (Exn "IndexError" "list index out of range")
  end.

Definition empty_risk : RiskAssessment := RiskDict None [] None.
Definition empty_insights : Insights := InsightsDict None None None [].

Definition _combine_analyses (baseline_analysis : Report) (ai_analysis : AIAnalysis)
  : result Report :=
  let merged_violations :=
    merge_violations (violations baseline_analysis)
                     (default [] (ai_violations ai_analysis)) in
  let merged_recommendations :=
    merge_recommendations (recommendations baseline_analysis)
                          (default [] (ai_recommendations ai_analysis)) in
  let ai_risk := default empty_risk (ai_risk ai_analysis) in
  overall_risk ← get_overall_risk ai_risk;
  risk ←
    (if truthy overall_risk
     then level ← higher_risk (risk_level baseline_analysis) (default "" overall_risk);
          Ok (level, overall_risk)
     else Ok (risk_level baseline_analysis, ai_risk_level baseline_analysis));
  Ok {| document_name := document_name baseline_analysis;
        analysis_date := analysis_date baseline_analysis;
        compliance_status :=
          if KB.nonempty merged_violations then "NON-COMPLIANT"
          else compliance_status baseline_analysis;
        risk_level := fst risk;
        violations := merged_violations;
        recommendations := merged_recommendations;
        analysis_metadata := analysis_metadata baseline_analysis;
        ai_risk_level := snd risk;
        ai_insights := Some (default empty_insights (ai_insights_ ai_analysis));
        ai_risk_assessment := Some ai_risk;
        pii_summary := pii_summary baseline_analysis;
        extracted_text := extracted_text baseline_analysis;
        consent_indicators := consent_indicators baseline_analysis;
        purpose_indicators := purpose_indicators baseline_analysis |}.

Definition analyze_document_with_ai (w : World) (kb : KB.State) (text : string)
           (pii_data : list PII.Item) (document_name : string)
           (image_path : option string) : result Report :=
  let baseline_analysis := KB.get_comprehensive_analysis kb (now w) text pii_data in
  let '(ai_analysis, model_used, analysis_type) :=
    match image_path with
    | Some path =>
        (_get_mistral_image_analysis w path text pii_data, vision_model,
         "hybrid_ai_vision_enhanced")
    | None =>
        (_get_mistral_text_analysis w text pii_data, text_model, "hybrid_ai_enhanced")
    end in
  enhanced_analysis ← _combine_analyses baseline_analysis ai_analysis;
  Ok {| document_name := Some document_name;
        analysis_date := Some (now w);
        compliance_status := compliance_status enhanced_analysis;
        risk_level := risk_level enhanced_analysis;
        violations := violations enhanced_analysis;
        recommendations := recommendations enhanced_analysis;
        analysis_metadata :=
          {| md_document_name := Some document_name;
             md_analysis_date := Some (now w);
             md_ai_model := Some model_used;
             md_knowledge_base_version := Some "v2";
             md_analysis_type := Some analysis_type;
             md_has_image := Some (bool_decide (image_path ≠ None));
             md_sections_analyzed := None; md_total_pii_found := None;
             md_error := None |};
        ai_risk_level := ai_risk_level enhanced_analysis;
        ai_insights := ai_insights enhanced_analysis;
        ai_risk_assessment := ai_risk_assessment enhanced_analysis;
        pii_summary := pii_summary enhanced_analysis;
        extracted_text := extracted_text enhanced_analysis;
        consent_indicators := consent_indicators enhanced_analysis;
        purpose_indicators := purpose_indicators enhanced_analysis |}.

(** The body of the [try] of [analyze_image_document]. *)
Definition image_analysis (w : World) (kb : KB.State) (image_path document_name : string)
  : result Report :=
  extracted_text ← _extract_text_from_image w image_path;
  pii_results ← detect_pii w extracted_text;
  let pii_categorized := PII.categorize_pii pii_results in
  r ← analyze_document_with_ai w kb extracted_text pii_results document_name
                                (Some image_path);
  Ok {| document_name := Shape.document_name r;
        analysis_date := analysis_date r;
        compliance_status := compliance_status r;
        risk_level := risk_level r;
        violations := violations r;
        recommendations := recommendations r;
        analysis_metadata := analysis_metadata r;
        ai_risk_level := ai_risk_level r;
        ai_insights := ai_insights r;
        ai_risk_assessment := ai_risk_assessment r;
        pii_summary :=
          match pii_summary r with
          | Some summary => Some summary
          | None => Some pii_categorized
          end;
        extracted_text := Some extracted_text;
        consent_indicators := consent_indicators r;
        purpose_indicators := purpose_indicators r |}.

(** The dictionary the [except Exception] branch returns. *)
Definition image_error_report (w : World) (document_name : string) (e : exn) : Report :=
  {| document_name := Some document_name;
     analysis_date := Some (now w);
     compliance_status := "ERROR";
     risk_level := "UNKNOWN";
     violations := [];
     recommendations :=
       [ {| r_priority := "HIGH";
            r_action := "Manual review required";
            r_description := "Image analysis failed: " +:+ exn_msg e;
            r_section_reference := "System Error";
            r_implementation := None; r_source := None |} ];
     analysis_metadata :=
       {| md_document_name := None; md_analysis_date := None; md_ai_model := None;
          md_knowledge_base_version := None;
          md_analysis_type := Some "image_analysis_failed";
          md_has_image := None; md_sections_analyzed := None;
          md_total_pii_found := None; md_error := Some (exn_msg e) |};
     ai_risk_level := None; ai_insights := None; ai_risk_assessment := None;
     pii_summary :=
       Some {| PII.regular_pii := []; PII.sensitive_pii := [];
               PII.total_pii_count := 0; PII.sensitive_count := 0;
               PII.regular_count := 0 |};
     extracted_text := Some "Text extraction failed";
     consent_indicators := None; purpose_indicators := None |}.

Definition analyze_image_document (w : World) (kb : KB.State)
           (image_path document_name : string) : Report :=
  match image_analysis w kb image_path document_name with
  | Ok r => r
  | Raise e => image_error_report w document_name e
  end.

End Mistral.

(** ** dpa_compliance_checker.py *)
Module Checker.

Record Violation := {
  section : string;
  violation_type : string;
  title : string;
  description : string;
  severity : string;
  details : string;
  affected_data : list string;
  dpa_reference : string
}.

Record Recommendation := {
  priority : string;
  action : string;
  r_description : string;
  section_reference : string
}.

Record Report := {
  document_name : string;
  analysis_date : string;
  pii_summary : PII.Categorized;
  consent_indicators : list PII.Indicator;
  purpose_indicators : list PII.Indicator;
  violations : list Violation;
  compliance_status : string;
  risk_level : string;
  recommendations : list Recommendation;
  analysis_type : string
}.

Definition _get_section_summary (section_data : sdict) : string :=
  if bool_decide (section_data = ∅) then "Section content not available"
  else
    let content := get_str section_data "content" "" in
    Py.slice_to 100 (Py.split_head ". " content) +:+ "...".

Definition reference (section_data : sdict) : string :=
  Py.slice_to 200 (get_str section_data "content" "") +:+ "...".

Definition unencrypted_patterns : list string :=
  ["\bunencrypted\b"; "\bplain text\b"; "\bno encryption\b";
   "\bunsecured\b"; "\bno password\b"; "\bno security\b"].

Definition security_violation (pattern : string) (section_20_data : sdict) : Violation :=
  {| section := "Section 20";
     violation_type := "inadequate_security";
     title := get_str section_20_data "title" "Security of Personal Information";
     description := "Inadequate security measures for personal information as required by Section 20";
     severity := "HIGH";
     details := "Security concern detected: " +:+ pattern
                +:+ ". Section 20 requires: " +:+ _get_section_summary section_20_data;
     affected_data := [];
     dpa_reference := reference section_20_data |}.

(** The [for] loop over the patterns, left by [break] at the first match. *)
Fixpoint security_loop (patterns : list string) (text : string) (section_20_data : sdict)
         (violations : list Violation) : list Violation :=
  match patterns with
  | [] => violations
  | pattern :: rest =>
      if Regex.search pattern text
      then (violations ++ [security_violation pattern section_20_data])%list
      else security_loop rest text section_20_data violations
  end.

Definition _check_security_violations (text : string) (section_20_data : sdict)
  : list Violation :=
  security_loop unencrypted_patterns text section_20_data [].

Definition is_empty {A} (l : list A) : bool :=
  match l with [] => true | _ => false end.

Definition unauthorized_processing (section_12 : sdict)
           (pii_categorized : PII.Categorized) : Violation :=
  {| section := "Section 12";
     violation_type := "unauthorized_processing";
     title := get_str section_12 "title"
                "Criteria for Lawful Processing of Personal Information";
     description := "Personal information detected without evidence of consent or other lawful basis as required by Section 12";
     severity := "HIGH";
     details := "Found " +:+ Py.str_int (PII.total_pii_count pii_categorized)
                +:+ " PII instances without consent indicators. Section 12 requires: "
                +:+ _get_section_summary section_12;
     affected_data := map PII.text (take 5 (PII.regular_pii pii_categorized));
     dpa_reference := reference section_12 |}.

Definition inadequate_spi_protection (section_13 : sdict)
           (pii_categorized : PII.Categorized) : Violation :=
  {| section := "Section 13";
     violation_type := "inadequate_spi_protection";
     title := get_str section_13 "title"
                "Sensitive Personal Information and Privileged Information";
     description := "Sensitive personal information detected without adequate protection measures as required by Section 13";
     severity := "CRITICAL";
     details := "Found " +:+ Py.str_int (PII.sensitive_count pii_categorized)
                +:+ " sensitive PII instances. Section 13 states: "
                +:+ _get_section_summary section_13;
     affected_data := map PII.text (take 5 (PII.sensitive_pii pii_categorized));
     dpa_reference := reference section_13 |}.

Definition lack_of_transparency (section_11 : sdict) : Violation :=
  {| section := "Section 11";
     violation_type := "lack_of_transparency";
     title := get_str section_11 "title" "General Data Privacy Principles";
     description := "Personal information processing without clear purpose statement violates transparency principle";
     severity := "MEDIUM";
     details := "No purpose statement found for data processing. Section 11 requires: "
                +:+ _get_section_summary section_11;
     affected_data := [];
     dpa_reference := reference section_11 |}.

Definition excessive_processing (section_11 : sdict)
           (pii_categorized : PII.Categorized) : Violation :=
  {| section := "Section 11";
     violation_type := "excessive_processing";
     title := get_str section_11 "title" "General Data Privacy Principles";
     description := "Potentially excessive personal information processing violates proportionality principle";
     severity := "MEDIUM";
     details := "Large amount of PII detected ("
                +:+ Py.str_int (PII.total_pii_count pii_categorized)
                +:+ " instances) may violate proportionality requirements";
     affected_data := [];
     dpa_reference := reference section_11 |}.

(** The five rules in their fixed order; each appends at most one
    violation. *)
Definition _check_violations (dpa_knowledge : KB.State) (text : string)
           (pii_categorized : PII.Categorized)
           (consent_indicators purpose_indicators : list PII.Indicator)
  : list Violation :=
  let section_12 := KB.get_section dpa_knowledge "12" in
  let section_13 := KB.get_section dpa_knowledge "13" in
  let section_11 := KB.get_section dpa_knowledge "11" in
  let section_20 := KB.get_section dpa_knowledge "20" in
  ((if (0 <? PII.total_pii_count pii_categorized)%Z && is_empty consent_indicators
    then [unauthorized_processing section_12 pii_categorized] else [])
   ++ (if (0 <? PII.sensitive_count pii_categorized)%Z
       then [inadequate_spi_protection section_13 pii_categorized] else [])
   ++ (if (0 <? PII.total_pii_count pii_categorized)%Z && is_empty purpose_indicators
       then [lack_of_transparency section_11] else [])
   ++ (if (10 <? PII.total_pii_count pii_categorized)%Z
       then [excessive_processing section_11 pii_categorized] else [])
   ++ _check_security_violations text section_20)%list.

(** [[v for v in violations if v["violation_type"] == t]] *)
Definition of_type (t : string) (violations : list Violation) : list Violation :=
  List.filter (λ v, String.eqb (violation_type v) t) violations.

Definition count_severity (level : string) (violations : list Violation) : nat :=
  length (List.filter (λ v, String.eqb (severity v) level) violations).

Definition _assess_risk_level (violations : list Violation)
           (pii_categorized : PII.Categorized) : string :=
  if is_empty violations then "LOW"
  else
    let critical_count := count_severity "CRITICAL" violations in
    let high_count := count_severity "HIGH" violations in
    if (0 <? critical_count)%nat || (5 <? PII.sensitive_count pii_categorized)%Z
    then "CRITICAL"
    else if (0 <? high_count)%nat || (10 <? PII.total_pii_count pii_categorized)%Z
    then "HIGH"
    else "MEDIUM".

Definition recommend_if (violation_types : list string) (violation_type : string)
           (r : Recommendation) : list Recommendation :=
  if PII.mem violation_type violation_types then [r] else [].

Definition impact_assessment : Recommendation :=
  {| priority := "LOW";
     action := "Conduct privacy impact assessment";
     r_description := "Perform a comprehensive privacy impact assessment for this document";
     section_reference := "General DPA Compliance" |}.

Definition _generate_recommendations (violations : list Violation)
           (pii_categorized : PII.Categorized) : list Recommendation :=
  let violation_types := map violation_type violations in
  (recommend_if violation_types "unauthorized_processing"
     {| priority := "HIGH"; action := "Obtain proper consent";
        r_description := "Implement consent mechanisms before processing personal information";
        section_reference := "Section 12" |}
   ++ recommend_if violation_types "inadequate_spi_protection"
        {| priority := "CRITICAL"; action := "Enhance SPI protection";
           r_description := "Implement additional security measures for sensitive personal information";
           section_reference := "Section 13, Section 20" |}
   ++ recommend_if violation_types "lack_of_transparency"
        {| priority := "MEDIUM"; action := "Add purpose statements";
           r_description := "Clearly state the purpose for processing personal information";
           section_reference := "Section 11" |}
   ++ recommend_if violation_types "excessive_processing"
        {| priority := "MEDIUM"; action := "Review data minimization";
           r_description := "Ensure only necessary personal information is processed";
           section_reference := "Section 11" |}
   ++ recommend_if violation_types "inadequate_security"
        {| priority := "HIGH"; action := "Implement security measures";
           r_description := "Deploy appropriate technical and organizational security measures";
           section_reference := "Section 20" |}
   ++ (if (0 <? PII.total_pii_count pii_categorized)%Z then [impact_assessment] else []))%list.

Definition _traditional_analysis (dpa_knowledge : KB.State) (now text document_name : string)
           (pii_categorized : PII.Categorized)
           (consent_indicators purpose_indicators : list PII.Indicator) : Report :=
  let violations :=
    _check_violations dpa_knowledge text pii_categorized consent_indicators purpose_indicators in
  {| document_name := document_name;
     analysis_date := now;
     pii_summary := pii_categorized;
     consent_indicators := consent_indicators;
     purpose_indicators := purpose_indicators;
     violations := violations;
     compliance_status := if is_empty violations then "COMPLIANT" else "NON-COMPLIANT";
     risk_level := _assess_risk_level violations pii_categorized;
     recommendations := _generate_recommendations violations pii_categorized;
     analysis_type := "traditional" |}.

(** The two shapes [analyze_document] returns. *)
Inductive Analysis :=
| Enhanced (r : Shape.Report)
| Traditional (r : Report).

Definition analyze_document (w : Mistral.World) (dpa_knowledge : KB.State)
           (use_ai_enhancement : bool) (text document_name : string) : result Analysis :=
  pii_results ← Mistral.detect_pii w text;
  let pii_categorized := PII.categorize_pii pii_results in
  let consent_indicators := PII.detect_consent_indicators text in
  let purpose_indicators := PII.detect_purpose_statements text in
  let fallback :=
    Traditional (_traditional_analysis dpa_knowledge (Mistral.now w) text document_name
                   pii_categorized consent_indicators purpose_indicators) in
  if use_ai_enhancement then
    match Mistral.analyze_document_with_ai w dpa_knowledge text pii_results
            document_name None with
    | Ok r =>
        Ok (Enhanced
              {| Shape.document_name := Shape.document_name r;
                 Shape.analysis_date := Shape.analysis_date r;
                 Shape.compliance_status := Shape.compliance_status r;
                 Shape.risk_level := Shape.risk_level r;
                 Shape.violations := Shape.violations r;
                 Shape.recommendations := Shape.recommendations r;
                 Shape.analysis_metadata := Shape.analysis_metadata r;
                 Shape.ai_risk_level := Shape.ai_risk_level r;
                 Shape.ai_insights := Shape.ai_insights r;
                 Shape.ai_risk_assessment := Shape.ai_risk_assessment r;
                 Shape.pii_summary := Some pii_categorized;
                 Shape.extracted_text := Shape.extracted_text r;
                 Shape.consent_indicators := Some consent_indicators;
                 Shape.purpose_indicators := Some purpose_indicators |})
    | Raise _ => Ok fallback
    end
  else Ok fallback.

End Checker.

(** ** Concrete inputs *)
Module Samples.

Definition item (entity_type text : string) (is_sensitive : bool) : PII.Item :=
  {| PII.entity_type := entity_type; PII.text := text; PII.start := 0;
     PII.end_ := String.length text; PII.confidence := QArith_base.Qmake 17 20;
     PII.is_sensitive := is_sensitive; PII.sensitive := None |}.

Definition person : PII.Item := item "PERSON" "Juan" false.
Definition tin : PII.Item := item "PH_TIN" "123-456-789-000" true.

(** A text without consent, purpose or security language. *)
Definition plain_text : string := "Juan signed the form".

Definition section_of (title content : string) : sdict :=
  <["title" := title]> (<["content" := content]> ∅).

Definition index_entry (section title : string) : KB.Hit :=
  {| KB.h_type := "section"; KB.h_section := Some section; KB.h_title := Some title;
     KB.h_term := None; KB.h_definition := None; KB.h_relevance := None |}.

Definition file (sections : list (string * sdict))
           (search_index : gmap string (list KB.Hit)) : KB.File :=
  {| KB.f_sections := Some sections; KB.f_definitions := None; KB.f_penalties := None;
     KB.f_rights := None; KB.f_functions := None; KB.f_principles := None;
     KB.f_compliance_rules := None; KB.f_search_index := Some search_index;
     KB.f_metadata := None |}.

Definition loaded (f : KB.File) : KB.State :=
  match KB.init (Some (Ok f)) with
  | Ok kb => kb
  | Raise _ => KB.initial
  end.

(** Section 20 names the keyword twice in its title and once in its
    content, section 12 three times in its content. *)
Definition kb_titles : KB.State :=
  loaded (file [("20", section_of "Consent consent" "about consent.");
                ("12", section_of "Lawful" "consent, consent and consent")] ∅).

(** Two sections with the same score, the higher number stored first. *)
Definition kb_ties : KB.State :=
  loaded (file [("20", section_of "Security" "consent is needed");
                ("12", section_of "Lawful" "consent is required")] ∅).

(** Three index entries for one keyword. *)
Definition kb_indexed : KB.State :=
  loaded (file []
            {[ "consent" := [index_entry "12" "Lawful"; index_entry "13" "Sensitive";
                             index_entry "16" "Rights"] ]}).

Definition ai_violation (section violation_type severity : string) : Mistral.AIViolation :=
  {| Mistral.av_section := Some section;
     Mistral.av_violation_type := Some violation_type;
     Mistral.av_severity := Some severity;
     Mistral.av_description := None; Mistral.av_legal_basis := None;
     Mistral.av_confidence := None |}.

Definition accountability : Mistral.AIViolation :=
  ai_violation "Section 21" "lack_of_accountability" "MEDIUM".

Definition answer (ai_violations : list Mistral.AIViolation) (overall_risk : string)
  : Mistral.AIAnalysis :=
  {| Mistral.ai_violations := Some ai_violations;
     Mistral.ai_recommendations := Some [];
     Mistral.ai_risk := Some (Shape.RiskDict (Some overall_risk) [] None);
     Mistral.ai_insights_ := None; Mistral.ai_error := None |}.

(** Every collaborator answers. *)
Definition world (a : Mistral.AIAnalysis) : Mistral.World :=
  {| Mistral.now := "2025-01-01T00:00:00";
     Mistral._extract_text_from_image := λ _, Ok plain_text;
     Mistral.detect_pii := λ _, Ok [person];
     Mistral._get_mistral_text_analysis := λ _ _, a;
     Mistral._get_mistral_image_analysis := λ _ _ _, a |}.

(** The image cannot be read. *)
Definition world_unreadable : Mistral.World :=
  {| Mistral.now := "2025-01-01T00:00:00";
     Mistral._extract_text_from_image :=
       λ _, Raise (Exn "FileNotFoundError" "No such file or directory");
     Mistral.detect_pii := λ _, Ok [];
     Mistral._get_mistral_text_analysis := λ _ _, answer [] "LOW";
     Mistral._get_mistral_image_analysis := λ _ _ _, answer [] "LOW" |}.

End Samples.

(** ** The summaries: [generate_summary] of dpa_compliance_checker.py and
    [get_ai_enhanced_summary] of mistral_analyzer.py *)
Module Summaries.
Import Shape.

Record AIPart := {
  ai_document_type : string;
  ai_processing_purpose : string;
  s_ai_risk_level : string;
  ai_detected_violations : nat;
  ai_recommendations : nat;
  compliance_gaps : list string
}.

Record Summary := {
  document : string;
  status : string;
  s_risk_level : string;
  total_violations : nat;
  pii_found : Z;
  sensitive_pii_found : Z;
  key_issues : list string;
  top_recommendations : list string;
  analysis_type : string;
  ai_part : option AIPart
}.

(** [ai_insights.get(key, default)] on what the report holds under
    [ai_insights]: only a dictionary has [get]. *)
Definition insights_dict (insights : Insights)
  : result (option string * option string * list string) :=
  match insights with
  | InsightsDict document_type processing_purpose _ gaps =>
      Ok (document_type, processing_purpose, gaps)
  | InsightsList => Raise (Exn "AttributeError" "'list' object has no attribute 'get'")
  | InsightsOther type_name =>
      Raise (Exn "AttributeError"
                 ("'" +:+ type_name +:+ "' object has no attribute 'get'"))
  end.

Definition from_ai (source : option string) : bool :=
  match source with
  | Some tag => String.eqb tag "mistral_ai"
  | None => false
  end.

Definition generate_summary (compliance_report : Checker.Analysis) : result Summary :=
  match compliance_report with
  | Checker.Traditional r =>
      Ok {| document := Checker.document_name r;
            status := Checker.compliance_status r;
            s_risk_level := Checker.risk_level r;
            total_violations := length (Checker.violations r);
            pii_found := PII.total_pii_count (Checker.pii_summary r);
            sensitive_pii_found := PII.sensitive_count (Checker.pii_summary r);
            key_issues := map Checker.description (take 3 (Checker.violations r));
            top_recommendations := map Checker.action (take 3 (Checker.recommendations r));
            analysis_type := "Traditional";
            ai_part := None |}
  | Checker.Enhanced r =>
      let base :=
        {| document := default "Unknown Document" (document_name r);
           status := compliance_status r;
           s_risk_level := risk_level r;
           total_violations := length (violations r);
           pii_found :=
             match pii_summary r with
             | Some pii => PII.total_pii_count pii
             | None => 0%Z
             end;
           sensitive_pii_found :=
             match pii_summary r with
             | Some pii => PII.sensitive_count pii
             | None => 0%Z
             end;
           key_issues := map v_description (take 3 (violations r));
           top_recommendations := map r_action (take 3 (recommendations r));
           analysis_type := "Traditional";
           ai_part := None |} in
      match ai_insights r with
      | None => Ok base
      | Some insights =>
          fields ← insights_dict insights;
          Ok {| document := document base;
                status := status base;
                s_risk_level := s_risk_level base;
                total_violations := total_violations base;
                pii_found := pii_found base;
                sensitive_pii_found := sensitive_pii_found base;
                key_issues := key_issues base;
                top_recommendations := top_recommendations base;
                analysis_type := "AI-Enhanced";
                ai_part :=
                  Some {| ai_document_type := default "Unknown" (fields.1.1);
                          ai_processing_purpose := default "Not specified" (fields.1.2);
                          s_ai_risk_level := default "Unknown" (ai_risk_level r);
                          ai_detected_violations :=
                            length (List.filter (λ v, from_ai (v_source v)) (violations r));
                          ai_recommendations :=
                            length (List.filter (λ x, from_ai (r_source x))
                                                (recommendations r));
                          compliance_gaps := fields.2 |} |}
      end
  end.

Record EnhancedSummary := {
  e_document_type : string;
  e_processing_purpose : string;
  e_compliance_status : string;
  e_risk_level : string;
  e_ai_risk_level : string;
  e_total_violations : nat;
  e_ai_detected_violations : nat;
  e_total_recommendations : nat;
  e_ai_recommendations : nat;
  e_key_compliance_gaps : list string;
  e_mitigation_priority : string
}.

Definition get_ai_enhanced_summary (analysis_result : Report) : result EnhancedSummary :=
  fields ← insights_dict (default Mistral.empty_insights (ai_insights analysis_result));
  mitigation_priority ←
    match default Mistral.empty_risk (ai_risk_assessment analysis_result) with
    | RiskDict _ _ priority => Ok (default "medium_term" priority)
    | RiskList => Raise (Exn "AttributeError" "'list' object has no attribute 'get'")
    end;
  Ok {| e_document_type := default "Unknown" (fields.1.1);
        e_processing_purpose := default "Not specified" (fields.1.2);
        e_compliance_status := compliance_status analysis_result;
        e_risk_level := risk_level analysis_result;
        e_ai_risk_level := default "UNKNOWN" (ai_risk_level analysis_result);
        e_total_violations := length (violations analysis_result);
        e_ai_detected_violations :=
          length (List.filter (λ v, from_ai (v_source v)) (violations analysis_result));
        e_total_recommendations := length (recommendations analysis_result);
        e_ai_recommendations :=
          length (List.filter (λ x, from_ai (r_source x)) (recommendations analysis_result));
        e_key_compliance_gaps := fields.2;
        e_mitigation_priority := mitigation_priority |}.

End Summaries.

(** ** The client side of mistral_analyzer.py: parsing the answer *)
Module MistralClient.
Import Shape.

(** The answer as a dictionary: the keys the engine reads, and the raw
    text that [_fallback_parse] adds. *)
Record Parsed := {
  analysis : Mistral.AIAnalysis;
  raw_response : option string
}.

Definition _fallback_parse (ai_response : string) : Parsed :=
  {| analysis :=
       {| Mistral.ai_violations := Some [];
          Mistral.ai_recommendations := Some [];
          Mistral.ai_risk :=
            Some (RiskDict (Some "MEDIUM") ["AI parsing error"] (Some "immediate"));
          Mistral.ai_insights_ :=
            Some (InsightsDict (Some "unknown") (Some "unknown") (Some "unknown")
                               ["AI analysis incomplete"]);
          Mistral.ai_error := None |};
     raw_response := Some ai_response |}.

(** The loop over [required_keys]: a missing key gets the empty list. *)
Definition validate (parsed : Mistral.AIAnalysis) : Mistral.AIAnalysis :=
  {| Mistral.ai_violations := Some (default [] (Mistral.ai_violations parsed));
     Mistral.ai_recommendations := Some (default [] (Mistral.ai_recommendations parsed));
     Mistral.ai_risk := Some (default RiskList (Mistral.ai_risk parsed));
     Mistral.ai_insights_ := Some (default InsightsList (Mistral.ai_insights_ parsed));
     Mistral.ai_error := Mistral.ai_error parsed |}.

(** [json_loads] is [json.loads], read as the dictionary of the keys the
    engine knows; only its [JSONDecodeError] is caught. *)
Definition _parse_ai_response (json_loads : string → result Mistral.AIAnalysis)
           (ai_response : string) : result Parsed :=
  let json_start := Py.find ai_response "{" in
  let json_end := (Py.rfind ai_response "}" + 1)%Z in
  if negb (json_start =? -1)%Z && negb (json_end =? -1)%Z then
    match json_loads (Py.slice json_start json_end ai_response) with
    | Ok parsed => Ok {| analysis := validate parsed; raw_response := None |}
    | Raise e =>
        if String.eqb (exn_class e) "JSONDecodeError"
        then Ok (_fallback_parse ai_response)
        else Raise e
    end
  else Ok (_fallback_parse ai_response).

(** The dictionary of the [except Exception] branch of
    [_get_mistral_text_analysis] and [_get_mistral_image_analysis]. *)
Definition failed_call (e : exn) : Mistral.AIAnalysis :=
  {| Mistral.ai_violations := Some [];
     Mistral.ai_recommendations := Some [];
     Mistral.ai_risk := None;
     Mistral.ai_insights_ := None;
     Mistral.ai_error := Some (exn_msg e) |}.

(** The [try] of [_get_mistral_text_analysis]; [chat] is the outcome of
    [client.chat.complete] and of reading the content of its first choice. *)
Definition _get_mistral_text_analysis (json_loads : string → result Mistral.AIAnalysis)
           (chat : result string) : Mistral.AIAnalysis :=
  match ai_response ← chat; _parse_ai_response json_loads ai_response with
  | Ok parsed => analysis parsed
  | Raise e => failed_call e
  end.

End MistralClient.

(** ** document_processor.py: the kind of a file *)
Module DocumentProcessor.

Definition image_extensions : list string :=
  [".jpg"; ".jpeg"; ".png"; ".gif"; ".bmp"; ".tiff"; ".webp"].

Definition is_image_file (file_path : string) : bool :=
  existsb (λ ext, Py.endswith (Py.lower file_path) ext) image_extensions.

Definition get_file_type (file_path : string) : string :=
  if Py.endswith file_path ".pdf" then "pdf"
  else if Py.endswith file_path ".docx" then "docx"
  else if is_image_file file_path then "image"
  else "unknown".

(** The libraries behind [extract_text]: PyMuPDF on the pages of a PDF,
    python-docx on the paragraphs, joined, and
    [extract_text_with_mistral_ocr], which catches every exception and
    answers the empty string then. *)
Record Readers := {
  pymupdf_text : string → result string;
  docx_text : string → result string;
  extract_text_with_mistral_ocr : string → string → string
}.

Definition extract_text (readers : Readers) (file_path : string) : result string :=
  if Py.endswith file_path ".pdf" then
    match pymupdf_text readers file_path with
    | Ok text =>
        if negb (String.eqb (Py.strip text) "")
           && Nat.ltb 100 (String.length (Py.strip text))
        then Ok text
        else Ok (extract_text_with_mistral_ocr readers file_path "pdf")
    | Raise _ => Ok (extract_text_with_mistral_ocr readers file_path "pdf")
    end
  else if Py.endswith file_path ".docx" then
    match docx_text readers file_path with
    | Ok text => Ok text
    | Raise _ => Ok ""
    end
  else if existsb (Py.endswith file_path) [".jpg"; ".jpeg"; ".png"] then
    Ok (extract_text_with_mistral_ocr readers file_path "image")
  else Raise (Exn "ValueError" "Unsupported file type").

End DocumentProcessor.

(** ** More concrete inputs *)
Module MoreSamples.

(** A [json.loads] that rejects every text. *)
Definition no_json (text : string) : result Mistral.AIAnalysis :=
  Raise (Exn "JSONDecodeError" "Expecting value").

(** A [json.loads] that reads every text as an object with the violations
    and recommendations keys only. *)
Definition bare_json (text : string) : result Mistral.AIAnalysis :=
  Ok {| Mistral.ai_violations := Some []; Mistral.ai_recommendations := Some [];
        Mistral.ai_risk := None; Mistral.ai_insights_ := None;
        Mistral.ai_error := None |}.

Definition baseline : Shape.Report :=
  KB.get_comprehensive_analysis Samples.kb_titles "2025-01-01T00:00:00"
    Samples.plain_text [Samples.person].

Definition readers : DocumentProcessor.Readers :=
  {| DocumentProcessor.pymupdf_text := λ _, Ok "text of the pages";
     DocumentProcessor.docx_text := λ _, Ok "text of the paragraphs";
     DocumentProcessor.extract_text_with_mistral_ocr := λ _ _, "text read by OCR" |}.

End MoreSamples.

(** * Properties *)

(** ** Searching and iterating over matches agree *)
Module RegexFacts.
Import Regex.

Lemma match_here_empty ts prev :
  (0 < width ts)%nat → match_here ts prev "" = false.
Proof.
  unfold width. induction ts as [|[|c] ts IH]; simpl; intros Hw.
  - lia.
  - rewrite IH by done. apply andb_false_r.
  - reflexivity.
Qed.

Lemma finditer_from_nil ts pos prev s :
  (0 < width ts)%nat →
  finditer_from ts 0 pos prev s = [] ↔ search_from ts prev s = false.
Proof.
  intros Hw. revert pos prev.
  induction s as [|x s IH]; intros pos prev.
  - simpl. rewrite match_here_empty by done. done.
  - cbn [finditer_from search_from].
    destruct (match_here ts prev (String x s)); simpl.
    + split; discriminate.
    + apply IH.
Qed.

Lemma finditer_nil pattern text :
  (0 < width (parse pattern))%nat →
  finditer pattern text = [] ↔ search pattern text = false.
Proof. apply finditer_from_nil. Qed.

Lemma indicators_of_nil patterns text :
  Forall (λ p, (0 < width (parse p))%nat) patterns →
  PII.indicators_of patterns text = []
  ↔ Forall (λ p, search p text = false) patterns.
Proof.
  unfold PII.indicators_of.
  induction 1 as [|p ps Hp _ IH]; simpl.
  - split; [constructor | done].
  - rewrite Forall_cons. rewrite <- IH, <- (finditer_nil p text Hp).
    split.
    + intros [Hm Hrest]%app_eq_nil. split; [|done].
      by destruct (finditer p text).
    + intros [-> ->]. done.
Qed.

(** No consent indicator is found exactly when no consent pattern occurs
    in the text. *)
Lemma detect_consent_indicators_nil text :
  PII.detect_consent_indicators text = []
  ↔ Forall (λ p, search p text = false) PII.consent_patterns.
Proof.
  apply indicators_of_nil. unfold PII.consent_patterns.
  repeat constructor; vm_compute; lia.
Qed.

Lemma detect_purpose_statements_nil text :
  PII.detect_purpose_statements text = []
  ↔ Forall (λ p, search p text = false) PII.purpose_patterns.
Proof.
  apply indicators_of_nil. unfold PII.purpose_patterns.
  repeat constructor; vm_compute; lia.
Qed.

End RegexFacts.

(** ** The rule evaluator of dpa_compliance_checker.py *)
Module CheckerFacts.
Import Checker.

Lemma count_severity_pos level vs :
  (0 <? count_severity level vs)%nat
  = bool_decide (Exists (λ v, severity v = level) vs).
Proof.
  unfold count_severity.
  induction vs as [|v vs IH]; simpl.
  - reflexivity.
  - destruct (String.eqb_spec (severity v) level) as [Heq|Hne]; simpl.
    + symmetry. apply bool_decide_eq_true_2. by left.
    + rewrite IH. apply bool_decide_ext.
      rewrite Exists_cons. tauto.
Qed.

Lemma ltb_decide (a b : Z) : (a <? b)%Z = bool_decide (a < b)%Z.
Proof.
  destruct (Z.ltb_spec a b).
  - symmetry. by apply bool_decide_eq_true_2.
  - symmetry. apply bool_decide_eq_false_2. lia.
Qed.

(** The loop reports the first pattern that matches, and nothing else. *)
Lemma security_loop_find patterns text section_20_data acc :
  security_loop patterns text section_20_data acc
  = (acc ++ match List.find (λ p, Regex.search p text) patterns with
            | Some p => [security_violation p section_20_data]
            | None => []
            end)%list.
Proof.
  induction patterns as [|p ps IH]; simpl.
  - by rewrite app_nil_r.
  - destruct (Regex.search p text); [reflexivity | apply IH].
Qed.

Lemma find_first {A} (f : A → bool) l x :
  List.find f l = Some x →
  ∃ before after, l = (before ++ x :: after)%list ∧ f x = true
                  ∧ Forall (λ y, f y = false) before.
Proof.
  induction l as [|y l IH]; simpl; [discriminate|].
  destruct (f y) eqn:Hy.
  - intros [= ->]. exists [], l. by repeat split.
  - intros (before & after & -> & Hx & Hb)%IH.
    exists (y :: before), after. repeat split; [done|]. by constructor.
Qed.

Lemma find_none_forall {A} (f : A → bool) l :
  List.find f l = None ↔ Forall (λ y, f y = false) l.
Proof.
  induction l as [|y l IH]; simpl.
  - split; [constructor | done].
  - destruct (f y) eqn:Hy.
    + split; [discriminate|]. intros H. inversion H; congruence.
    + rewrite IH. split; [by constructor | intros H; by inversion H].
Qed.

Lemma of_type_security kb text pii ci pu :
  of_type "inadequate_security" (_check_violations kb text pii ci pu)
  = _check_security_violations text (KB.get_section kb "20").
Proof.
  unfold _check_violations, of_type. rewrite !List.filter_app.
  unfold _check_security_violations. rewrite security_loop_find.
  destruct (List.find (λ p, Regex.search p text) unencrypted_patterns);
    repeat match goal with |- context [if ?b then _ else _] => destruct b end;
    reflexivity.
Qed.

(** The types of the violations the first four rules build. *)
Lemma check_violations_elem kb text pii ci pu v :
  v ∈ _check_violations kb text pii ci pu ↔
    ((0 < PII.total_pii_count pii)%Z ∧ ci = []
     ∧ v = unauthorized_processing (KB.get_section kb "12") pii)
    ∨ ((0 < PII.sensitive_count pii)%Z
       ∧ v = inadequate_spi_protection (KB.get_section kb "13") pii)
    ∨ ((0 < PII.total_pii_count pii)%Z ∧ pu = []
       ∧ v = lack_of_transparency (KB.get_section kb "11"))
    ∨ ((10 < PII.total_pii_count pii)%Z
       ∧ v = excessive_processing (KB.get_section kb "11") pii)
    ∨ v ∈ _check_security_violations text (KB.get_section kb "20").
Proof.
  unfold _check_violations. rewrite !elem_of_app.
  destruct (Z.ltb_spec 0 (PII.total_pii_count pii));
    destruct (Z.ltb_spec 0 (PII.sensitive_count pii));
    destruct (Z.ltb_spec 10 (PII.total_pii_count pii));
    destruct ci, pu; simpl;
    rewrite ?elem_of_nil, ?list_elem_of_singleton;
    intuition (try discriminate; try lia).
Qed.

Lemma security_violations_type text section_20_data v :
  v ∈ _check_security_violations text section_20_data →
  violation_type v = "inadequate_security".
Proof.
  unfold _check_security_violations. rewrite security_loop_find.
  destruct (List.find (λ p, Regex.search p text) unencrypted_patterns); simpl.
  - by intros ->%list_elem_of_singleton.
  - by rewrite elem_of_nil.
Qed.

(** C2, as stated, fails: six sensitive items and no violation give LOW,
    not CRITICAL.  The function returns LOW for an empty violation list
    before it looks at any count. *)
Lemma assess_risk_level_no_violations_counterexample :
  (5 < PII.sensitive_count (PII.categorize_pii (replicate 6 Samples.tin)))%Z
  ∧ _assess_risk_level [] (PII.categorize_pii (replicate 6 Samples.tin)) = "LOW"
  ∧ _assess_risk_level [] (PII.categorize_pii (replicate 6 Samples.tin)) ≠ "CRITICAL".
Proof. vm_compute. split; [reflexivity | split; [reflexivity | discriminate]]. Qed.

(** C2, amended: the risk level is LOW when there is no violation;
    otherwise CRITICAL if some violation is CRITICAL or the sensitive
    count exceeds 5; else HIGH if some violation is HIGH or the total
    count exceeds 10; else MEDIUM. *)
Theorem assess_risk_level_precedence violations pii_categorized :
  _assess_risk_level violations pii_categorized =
    match violations with
    | [] => "LOW"
    | _ :: _ =>
        if bool_decide (Exists (λ v, severity v = "CRITICAL") violations
                        ∨ (5 < PII.sensitive_count pii_categorized)%Z)
        then "CRITICAL"
        else if bool_decide (Exists (λ v, severity v = "HIGH") violations
                             ∨ (10 < PII.total_pii_count pii_categorized)%Z)
        then "HIGH"
        else "MEDIUM"
    end.
Proof.
  destruct violations as [|v vs]; [reflexivity|].
  unfold _assess_risk_level. cbn [is_empty].
  by rewrite !count_severity_pos, !ltb_decide, !bool_decide_or.
Qed.

(** C3, as stated, fails: one item outside the sensitive partition and
    no consent language fire the rule. *)
Lemma unauthorized_processing_regular_item_counterexample :
  PII.sensitive_pii (PII.categorize_pii [Samples.person]) = []
  ∧ PII.detect_consent_indicators Samples.plain_text = []
  ∧ map violation_type
        (_check_violations KB.initial Samples.plain_text
           (PII.categorize_pii [Samples.person])
           (PII.detect_consent_indicators Samples.plain_text)
           (PII.detect_purpose_statements Samples.plain_text))
    = ["unauthorized_processing"; "lack_of_transparency"].
Proof. vm_compute. by repeat split. Qed.

Lemma unauthorized_processing_fires kb text pii_categorized
      consent_indicators purpose_indicators :
  (∃ v, v ∈ _check_violations kb text pii_categorized consent_indicators
                              purpose_indicators
        ∧ violation_type v = "unauthorized_processing")
  ↔ (0 < PII.total_pii_count pii_categorized)%Z ∧ consent_indicators = [].
Proof.
  split.
  - intros (v & Hin & Hty). apply check_violations_elem in Hin.
    destruct Hin as [(? & ? & _)|[(_ & ->)|[(_ & _ & ->)|[(_ & ->)|Hsec]]]];
      try done.
    apply security_violations_type in Hsec. congruence.
  - intros [Hpos ->].
    exists (unauthorized_processing (KB.get_section kb "12") pii_categorized).
    split; [|reflexivity]. apply check_violations_elem. by left.
Qed.

(** C3, amended: the unauthorized-processing rule (Section 12, HIGH)
    fires if and only if the count of all detected items, sensitive or
    not, is positive and there is no consent indicator; with the
    indicators the engine detects, that is: no consent pattern occurs in
    the text. *)
Theorem unauthorized_processing_trigger kb text pii_categorized
        consent_indicators purpose_indicators :
  ((∃ v, v ∈ _check_violations kb text pii_categorized consent_indicators
                               purpose_indicators
         ∧ violation_type v = "unauthorized_processing")
   ↔ (0 < PII.total_pii_count pii_categorized)%Z ∧ consent_indicators = [])
  ∧ ((∃ v, v ∈ _check_violations kb text pii_categorized
                                 (PII.detect_consent_indicators text) purpose_indicators
           ∧ violation_type v = "unauthorized_processing")
     ↔ (0 < PII.total_pii_count pii_categorized)%Z
       ∧ Forall (λ p, Regex.search p text = false) PII.consent_patterns)
  ∧ (∀ v, v ∈ _check_violations kb text pii_categorized consent_indicators
                                purpose_indicators →
          violation_type v = "unauthorized_processing" →
          section v = "Section 12" ∧ severity v = "HIGH").
Proof.
  split; [apply unauthorized_processing_fires|]. split.
  - rewrite unauthorized_processing_fires.
    by rewrite RegexFacts.detect_consent_indicators_nil.
  - intros v Hin Hty. apply check_violations_elem in Hin.
    destruct Hin as [(_ & _ & ->)|[(_ & ->)|[(_ & _ & ->)|[(_ & ->)|Hsec]]]];
      try done.
    apply security_violations_type in Hsec. congruence.
Qed.

Lemma unauthorized_processing_trigger_witness :
  section (unauthorized_processing (KB.get_section KB.initial "12")
             (PII.categorize_pii [Samples.person])) = "Section 12"
  ∧ severity (unauthorized_processing (KB.get_section KB.initial "12")
                (PII.categorize_pii [Samples.person])) = "HIGH".
Proof.
  apply (proj2 (proj2 (unauthorized_processing_trigger KB.initial Samples.plain_text
                         (PII.categorize_pii [Samples.person]) [] []))).
  - vm_compute. left.
  - reflexivity.
Defined.

(** Several patterns match; the first one, in the order of the list, is
    the one reported. *)
Example security_first_pattern :
  map details (_check_security_violations "No password, all unencrypted plain text" ∅)
  = ["Security concern detected: \bunencrypted\b. Section 20 requires: Section content not available"].
Proof. reflexivity. Qed.

(** C6, as stated, fails: with one item outside the sensitive partition
    and no sensitive item the recommendation is there. *)
Lemma impact_assessment_regular_item_counterexample :
  PII.sensitive_count (PII.categorize_pii [Samples.person]) = 0%Z
  ∧ map action
        (_generate_recommendations
           (_check_violations KB.initial Samples.plain_text
              (PII.categorize_pii [Samples.person])
              (PII.detect_consent_indicators Samples.plain_text)
              (PII.detect_purpose_statements Samples.plain_text))
           (PII.categorize_pii [Samples.person]))
    = ["Obtain proper consent"; "Add purpose statements";
       "Conduct privacy impact assessment"].
Proof. vm_compute. by split. Qed.

(** C6, amended: the "Conduct privacy impact assessment" recommendation
    is in the list, as its last entry, exactly when the count of all
    detected items, sensitive or not, is positive, whatever violations
    fired. *)
Theorem impact_assessment_trigger violations pii_categorized :
  ((∃ r, r ∈ _generate_recommendations violations pii_categorized
         ∧ action r = "Conduct privacy impact assessment")
   ↔ (0 < PII.total_pii_count pii_categorized)%Z)
  ∧ ((0 < PII.total_pii_count pii_categorized)%Z ↔
     ∃ others, _generate_recommendations violations pii_categorized
               = (others ++ [impact_assessment])%list).
Proof.
  unfold _generate_recommendations, recommend_if.
  destruct (Z.ltb_spec 0 (PII.total_pii_count pii_categorized)) as [Hpos|Hle].
  - split; split; try done.
    + intros _. exists impact_assessment. split; [|reflexivity].
      rewrite !elem_of_app. do 5 right. by apply list_elem_of_singleton.
    + intros _. eexists. by rewrite !app_assoc.
  - split; split; try lia.
    + intros (r & Hin & Hact). exfalso. revert Hin. rewrite !elem_of_app.
      repeat match goal with
             | |- context [if ?b then _ else _] => destruct b
             end;
        rewrite ?elem_of_nil, ?list_elem_of_singleton;
        intuition (subst; discriminate).
    + intros [others Heq]. exfalso. revert Heq.
      rewrite app_nil_r.
      repeat match goal with
             | |- context [if ?b then _ else _] => destruct b
             end; simpl;
        intros Heq; apply (f_equal (last)) in Heq;
        rewrite last_snoc in Heq; simpl in Heq; discriminate.
Qed.

(** C7: the evaluator reports at most one inadequate_security violation,
    whatever the number of patterns the text matches, and none only when
    no pattern matches.  The violation is the one of Section 20, of
    severity HIGH, and its details name the first pattern, in the fixed
    order of the six patterns, that the text matches. *)
Theorem at_most_one_security_violation kb text pii_categorized
        consent_indicators purpose_indicators :
  (length (of_type "inadequate_security"
             (_check_violations kb text pii_categorized consent_indicators
                                purpose_indicators)) ≤ 1)%nat
  ∧ (∀ v, v ∈ of_type "inadequate_security"
                (_check_violations kb text pii_categorized consent_indicators
                                   purpose_indicators) →
          section v = "Section 20"
          ∧ violation_type v = "inadequate_security"
          ∧ severity v = "HIGH"
          ∧ title v = get_str (KB.get_section kb "20") "title"
                              "Security of Personal Information"
          ∧ description v
            = "Inadequate security measures for personal information as required by Section 20"
          ∧ affected_data v = []
          ∧ dpa_reference v
            = Py.slice_to 200 (get_str (KB.get_section kb "20") "content" "") +:+ "..."
          ∧ ∃ before pattern after,
              ["\bunencrypted\b"; "\bplain text\b"; "\bno encryption\b";
               "\bunsecured\b"; "\bno password\b"; "\bno security\b"]
              = (before ++ pattern :: after)%list
              ∧ Regex.search pattern text = true
              ∧ Forall (λ p, Regex.search p text = false) before
              ∧ details v
                = "Security concern detected: " +:+ pattern
                  +:+ ". Section 20 requires: "
                  +:+ _get_section_summary (KB.get_section kb "20"))
  ∧ (of_type "inadequate_security"
       (_check_violations kb text pii_categorized consent_indicators
                          purpose_indicators) = []
     ↔ Forall (λ p, Regex.search p text = false)
              ["\bunencrypted\b"; "\bplain text\b"; "\bno encryption\b";
               "\bunsecured\b"; "\bno password\b"; "\bno security\b"]).
Proof.
  change ["\bunencrypted\b"; "\bplain text\b"; "\bno encryption\b";
          "\bunsecured\b"; "\bno password\b"; "\bno security\b"]
    with unencrypted_patterns.
  rewrite of_type_security. unfold _check_security_violations.
  rewrite security_loop_find, app_nil_l.
  destruct (List.find (λ p, Regex.search p text) unencrypted_patterns)
    as [pattern|] eqn:Hfind.
  - split; [simpl; lia|]. split.
    + intros v ->%list_elem_of_singleton.
      cbn [security_violation section violation_type severity title description
           affected_data dpa_reference details].
      do 7 (split; [reflexivity|]).
      destruct (find_first _ _ _ Hfind) as (before & after & ? & ? & ?).
      by exists before, pattern, after.
    + split; [discriminate|]. intros Hnone%find_none_forall. congruence.
  - split; [simpl; lia|]. split.
    + intros v Hin. by apply elem_of_nil in Hin.
    + split; [|done]. intros _. by apply find_none_forall.
Qed.

Lemma at_most_one_security_violation_witness :
  Forall (λ v, details v
               = "Security concern detected: \bunencrypted\b. Section 20 requires: Section content not available")
         (of_type "inadequate_security"
            (_check_violations KB.initial "No password, all unencrypted plain text"
                               (PII.categorize_pii []) [] [])).
Proof.
  apply Forall_forall. intros v Hin.
  destruct (proj1 (proj2 (at_most_one_security_violation KB.initial
                            "No password, all unencrypted plain text"
                            (PII.categorize_pii []) [] [])) v Hin)
    as (_ & _ & _ & _ & _ & _ & _ & before & pattern & after
        & Hsplit & Hmatch & Hbefore & Hdetails).
  rewrite Hdetails. destruct before as [|p before]; simpl in Hsplit.
  - injection Hsplit as <- _. reflexivity.
  - injection Hsplit as <- _. apply Forall_cons in Hbefore as [Hfirst _].
    vm_compute in Hfirst. discriminate.
Defined.

End CheckerFacts.

(** ** The stable descending sort *)
Section sort_desc.
Context {A : Type} (key : A → Z).

Lemma insert_desc_perm x l : insert_desc key x l ≡ₚ x :: l.
Proof.
  induction l as [|y l IH]; simpl; [done|].
  destruct (key x <? key y)%Z; [|done].
  rewrite IH. apply Permutation_swap.
Qed.

Lemma sort_desc_perm l : sort_desc key l ≡ₚ l.
Proof.
  induction l as [|x l IH]; simpl; [done|].
  by rewrite insert_desc_perm, IH.
Qed.

Lemma insert_desc_sorted x l :
  StronglySorted (desc key) l → StronglySorted (desc key) (insert_desc key x l).
Proof.
  induction l as [|y l IH]; simpl; intros Hs.
  - by repeat constructor.
  - apply StronglySorted_cons in Hs as [Hy Hl].
    destruct (Z.ltb_spec (key x) (key y)) as [Hlt|Hge].
    + apply StronglySorted_cons. split; [|by apply IH].
      rewrite insert_desc_perm. constructor; [unfold desc; lia | done].
    + apply StronglySorted_cons. split.
      * constructor; [done|].
        eapply Forall_impl; [exact Hy|]. unfold desc. intros z ?. lia.
      * apply StronglySorted_cons. by split.
Qed.

Lemma sort_desc_sorted l : StronglySorted (desc key) (sort_desc key l).
Proof.
  induction l as [|x l IH]; simpl; [constructor|].
  by apply insert_desc_sorted.
Qed.

(** Stability: among the elements of one key the order is unchanged. *)
Lemma insert_desc_stable k x l :
  filter (λ y, key y = k) (insert_desc key x l)
  = filter (λ y, key y = k) (x :: l).
Proof.
  induction l as [|y l IH]; simpl; [done|].
  destruct (Z.ltb_spec (key x) (key y)) as [Hlt|Hge]; [|done].
  rewrite (filter_cons _ y), IH, !(filter_cons _ x), !(filter_cons _ y).
  repeat case_decide; try done; lia.
Qed.

Lemma sort_desc_stable k l :
  filter (λ y, key y = k) (sort_desc key l) = filter (λ y, key y = k) l.
Proof.
  induction l as [|x l IH]; simpl; [done|].
  by rewrite insert_desc_stable, !filter_cons, IH.
Qed.

Lemma take_sorted n l :
  StronglySorted (desc key) l → StronglySorted (desc key) (take n l).
Proof.
  intros Hs. rewrite <- (take_drop n l) in Hs.
  by apply StronglySorted_app_1_l in Hs.
Qed.

End sort_desc.

(** ** The knowledge base of enhanced_dpa_knowledge_v2.py *)
Module KBFacts.
Import KB.

Lemma od_get_unknown {V} key (d : list (string * V)) :
  key ∉ map fst d → od_get key d = None.
Proof.
  induction d as [|[k v] d IH]; simpl; [done|].
  rewrite not_elem_of_cons. intros [Hne Hnin].
  destruct (String.eqb_spec k key); [congruence | by apply IH].
Qed.

Lemma slice_nonneg {A} (n : Z) (l : list A) :
  (0 ≤ n)%Z → Py.list_slice_to n l = take (Z.to_nat n) l.
Proof.
  intros Hn. unfold Py.list_slice_to.
  by destruct (Z.leb_spec 0 n); [|lia].
Qed.

Lemma section_hits_elem kb keyword_lower x :
  x ∈ section_hits kb keyword_lower →
  ∃ num data,
    (num, data) ∈ sections kb
    ∧ Py.contains keyword_lower (Py.lower (get_str data "content" "")) = true
    ∧ h_type x = "section_content"
    ∧ h_section x = Some num
    ∧ h_title x = Some (get_str data "title" "")
    ∧ relevance_key x
      = Z.of_nat (Py.count (Py.lower (get_str data "content" "")) keyword_lower).
Proof.
  unfold section_hits. rewrite list_elem_of_In, in_flat_map.
  intros ([num data] & Hin & Hx). apply list_elem_of_In in Hin. simpl in Hx.
  destruct (Py.contains _ _) eqn:Hc; [|done].
  destruct Hx as [<-|[]]. by exists num, data.
Qed.

Lemma search_candidates_elem kb keyword limit x :
  x ∈ search_candidates kb keyword limit →
  (∃ entries, search_index kb !! Py.lower keyword = Some entries ∧ x ∈ entries)
  ∨ x ∈ section_hits kb (Py.lower keyword).
Proof.
  unfold search_candidates.
  assert (∀ y, y ∈ match search_index kb !! Py.lower keyword with
                   | Some entries => Py.list_slice_to limit entries
                   | None => []
                   end →
               ∃ entries, search_index kb !! Py.lower keyword = Some entries
                          ∧ y ∈ entries) as Hidx.
  { intros y. destruct (search_index kb !! Py.lower keyword) as [entries|];
      [|by rewrite elem_of_nil].
    intros Hy. exists entries. split; [done|].
    unfold Py.list_slice_to in Hy.
    destruct (0 <=? limit)%Z; by eapply subseteq_take. }
  destruct (_ <? _)%Z.
  - rewrite elem_of_app. intros [Hy|Hy]; [left; by apply Hidx | by right].
  - intros Hy. left. by apply Hidx.
Qed.

Lemma matching_sections_elem sections keyword h :
  h ∈ KBLegacy.matching_sections sections keyword →
  ∃ num data,
    (num, data) ∈ sections
    ∧ KBLegacy.section h = num
    ∧ KBLegacy.relevance h
      = (Z.of_nat (Py.count (Py.lower (get_str data "content" "")) (Py.lower keyword))
         + Z.of_nat (Py.count (Py.lower (get_str data "title" "")) (Py.lower keyword)) * 2)%Z.
Proof.
  unfold KBLegacy.matching_sections. rewrite list_elem_of_In, in_flat_map.
  intros ([num data] & Hin & Hx). apply list_elem_of_In in Hin. simpl in Hx.
  destruct (_ || _); [|done].
  destruct Hx as [<-|[]]. by exists num, data.
Qed.

Remark corrupt_file_raises e : init (Some (Raise e)) = Raise e.
Proof. reflexivity. Qed.

(** C8: [get_section] answers an unknown section id with the empty
    dictionary; without the data file the knowledge base loads as the empty
    one, and there every lookup and every search has an empty answer.  No
    lookup has an error among its results. *)
Theorem lookups_degrade_to_empty kb section_number term keyword limit :
  (section_number ∉ map fst (sections kb) → get_section kb section_number = ∅)
  ∧ init None = Ok initial
  ∧ get_section initial section_number = ∅
  ∧ get_definition initial term = None
  ∧ get_penalty_info initial section_number = no_penalty
  ∧ search_content initial keyword limit = [].
Proof.
  split; [|repeat split].
  - intros Hnew. unfold get_section. by rewrite od_get_unknown.
  - unfold search_content, search_candidates. simpl.
    rewrite lookup_empty. unfold section_hits. simpl.
    destruct (_ <? limit)%Z; simpl; unfold Py.list_slice_to;
      destruct (0 <=? limit)%Z; by rewrite ?take_nil.
Qed.

Lemma lookups_degrade_to_empty_witness :
  ("99" ∉ map fst (sections Samples.kb_titles))
  ∧ get_section Samples.kb_titles "99" = ∅.
Proof.
  assert ("99" ∉ map fst (sections Samples.kb_titles)) as Hnew.
  { simpl. rewrite !not_elem_of_cons. repeat split; [discriminate..|].
    apply not_elem_of_nil. }
  split; [exact Hnew|].
  exact (proj1 (lookups_degrade_to_empty Samples.kb_titles "99" "" "" 0) Hnew).
Defined.

(** C9, as stated, fails.  The search of the knowledge base in use does
    not count the title: section 12 (three occurrences in the content)
    comes before section 20 (one in the content, two in the title), with
    scores 3 and 1.  Equal scores keep the stored order, here 20 before
    12.  A negative limit returns more than [limit] results. *)
Lemma search_content_ranking_counterexample :
  map (λ x, (h_section x, h_relevance x)) (search_content Samples.kb_titles "Consent" 10)
  = [(Some "12", Some 3%Z); (Some "20", Some 1%Z)]
  ∧ map h_section (search_content Samples.kb_ties "consent" 10) = [Some "20"; Some "12"]
  ∧ length (search_content Samples.kb_indexed "consent" (-1)) = 1.
Proof. vm_compute. by repeat split. Qed.

(** C9, amended: for every keyword and every limit that is not negative,
    [search_content] returns at most [limit] results, the first [limit] of
    the collected ones in the order of their scores, highest first.  A
    section found by its content scores the number of occurrences of the
    keyword in the content, both in lower case; the title is not counted;
    an index entry without a relevance scores 1.  Results of equal score
    keep the order in which they were collected: the index entries, then
    the sections in the order the knowledge base stores them.  The legacy
    [search_sections] has no limit, scores the occurrences in the content
    plus twice those in the title, and keeps the stored order among equal
    scores. *)
Theorem search_content_ranked kb keyword limit legacy_sections :
  (0 ≤ limit)%Z →
  (length (search_content kb keyword limit) ≤ Z.to_nat limit)%nat
  ∧ StronglySorted (desc relevance_key) (search_content kb keyword limit)
  ∧ (∃ rest, (search_content kb keyword limit ++ rest)%list
             ≡ₚ search_candidates kb keyword limit
             ∧ ∀ x y, x ∈ search_content kb keyword limit → y ∈ rest →
                      (relevance_key y ≤ relevance_key x)%Z)
  ∧ (∀ k, filter (λ x, relevance_key x = k) (search_content kb keyword limit)
          `prefix_of` filter (λ x, relevance_key x = k)
                             (search_candidates kb keyword limit))
  ∧ (∀ x, x ∈ search_content kb keyword limit →
          (∃ entries, search_index kb !! Py.lower keyword = Some entries ∧ x ∈ entries)
          ∨ (∃ num data,
               (num, data) ∈ sections kb
               ∧ h_section x = Some num
               ∧ relevance_key x
                 = Z.of_nat (Py.count (Py.lower (get_str data "content" ""))
                                      (Py.lower keyword))))
  ∧ StronglySorted (desc KBLegacy.relevance)
                   (KBLegacy.search_sections legacy_sections keyword)
  ∧ (∀ k, filter (λ h, KBLegacy.relevance h = k)
                 (KBLegacy.search_sections legacy_sections keyword)
          = filter (λ h, KBLegacy.relevance h = k)
                   (KBLegacy.matching_sections legacy_sections keyword))
  ∧ (∀ h, h ∈ KBLegacy.search_sections legacy_sections keyword →
          ∃ num data,
            (num, data) ∈ legacy_sections
            ∧ KBLegacy.section h = num
            ∧ KBLegacy.relevance h
              = (Z.of_nat (Py.count (Py.lower (get_str data "content" ""))
                                    (Py.lower keyword))
                 + Z.of_nat (Py.count (Py.lower (get_str data "title" ""))
                                      (Py.lower keyword)) * 2)%Z).
Proof.
  intros Hlimit. unfold search_content. rewrite slice_nonneg by done.
  set (candidates := search_candidates kb keyword limit).
  set (sorted := sort_desc relevance_key candidates).
  repeat split.
  - rewrite length_take. lia.
  - apply take_sorted, sort_desc_sorted.
  - exists (drop (Z.to_nat limit) sorted). split.
    + rewrite take_drop. apply sort_desc_perm.
    + intros x y Hx Hy.
      apply (StronglySorted_app_1_elem_of (desc relevance_key)
               (take (Z.to_nat limit) sorted) (drop (Z.to_nat limit) sorted));
        [|done..].
      rewrite take_drop. apply sort_desc_sorted.
  - intros k. rewrite <- (sort_desc_stable relevance_key k candidates).
    fold sorted. rewrite <- (take_drop (Z.to_nat limit) sorted) at 2.
    rewrite filter_app. by apply prefix_app_r.
  - intros x Hx. apply subseteq_take in Hx.
    assert (x ∈ candidates) as Hc by (by rewrite <- (sort_desc_perm relevance_key)).
    apply search_candidates_elem in Hc as [Hidx|Hsec]; [by left|right].
    apply section_hits_elem in Hsec as (num & data & ? & _ & _ & ? & _ & ?).
    by exists num, data.
  - apply sort_desc_sorted.
  - intros k. apply sort_desc_stable.
  - intros h Hh. apply matching_sections_elem.
    unfold KBLegacy.search_sections in Hh. by rewrite sort_desc_perm in Hh.
Qed.

Lemma search_content_ranked_witness :
  (0 ≤ 10)%Z
  ∧ (length (search_content Samples.kb_titles "Consent" 10) ≤ Z.to_nat 10)%nat
  ∧ StronglySorted (desc relevance_key) (search_content Samples.kb_titles "Consent" 10).
Proof.
  assert (0 ≤ 10)%Z as Hlimit by lia.
  split; [exact Hlimit|].
  destruct (search_content_ranked Samples.kb_titles "Consent" 10
              (sections Samples.kb_titles) Hlimit) as (Hlen & Hsorted & _).
  split; [exact Hlen | exact Hsorted].
Defined.

End KBFacts.

(** ** The reconciliation of mistral_analyzer.py *)
Module MistralFacts.
Import Shape Mistral.

Lemma is_duplicate_iff ai_violation violations :
  _is_duplicate_violation ai_violation violations = true
  ↔ ∃ b, b ∈ violations ∧ same_finding ai_violation b = true.
Proof.
  unfold _is_duplicate_violation. rewrite existsb_exists.
  by setoid_rewrite list_elem_of_In.
Qed.

Lemma merge_violations_snoc baseline earlier ai_violation :
  merge_violations baseline (earlier ++ [ai_violation])
  = if _is_duplicate_violation ai_violation (merge_violations baseline earlier)
    then merge_violations baseline earlier
    else (merge_violations baseline earlier ++ [standard_violation ai_violation])%list.
Proof. unfold merge_violations. by rewrite fold_left_app. Qed.

(** The merged list is the baseline followed by the standard form of
    some of the secondary violations, in their order. *)
Lemma merge_violations_kept baseline ai_violations :
  ∃ kept, kept `sublist_of` ai_violations
          ∧ merge_violations baseline ai_violations
            = (baseline ++ map standard_violation kept)%list.
Proof.
  revert baseline.
  induction ai_violations as [|a rest IH]; intros baseline.
  - exists []. split; [done|]. simpl. by rewrite app_nil_r.
  - unfold merge_violations. simpl.
    destruct (_is_duplicate_violation a baseline).
    + destruct (IH baseline) as (kept & Hsub & Heq).
      exists kept. split; [by apply sublist_cons | exact Heq].
    + destruct (IH (baseline ++ [standard_violation a])%list) as (kept & Hsub & Heq).
      exists (a :: kept). split; [by apply sublist_skip|].
      unfold merge_violations in Heq. rewrite Heq. simpl.
      by rewrite <- app_assoc.
Qed.

Lemma higher_risk_max i j baseline_risk overall_risk :
  risk_levels !! i = Some baseline_risk →
  risk_levels !! j = Some overall_risk →
  ∃ level, risk_levels !! Nat.max i j = Some level
           ∧ higher_risk baseline_risk overall_risk = Ok level
           ∧ higher_risk overall_risk baseline_risk = Ok level
           ∧ truthy (Some overall_risk) = true.
Proof.
  intros Hi Hj.
  destruct i as [|[|[|[|i]]]]; simpl in Hi; try discriminate;
    destruct j as [|[|[|[|j]]]]; simpl in Hj; try discriminate;
    injection Hi as <-; injection Hj as <-;
    eexists; repeat split; reflexivity.
Qed.

Lemma combine_ok baseline_analysis ai_analysis overall_risk risk_factors
      mitigation_priority level :
  ai_risk ai_analysis = Some (RiskDict (Some overall_risk) risk_factors mitigation_priority) →
  truthy (Some overall_risk) = true →
  higher_risk (risk_level baseline_analysis) overall_risk = Ok level →
  ∃ combined, _combine_analyses baseline_analysis ai_analysis = Ok combined
              ∧ risk_level combined = level
              ∧ ai_risk_level combined = Some overall_risk.
Proof.
  intros Hrisk Htruthy Hlevel. unfold _combine_analyses.
  rewrite Hrisk. cbn [default id get_overall_risk mbind result_bind].
  rewrite Htruthy. cbn [default id]. rewrite Hlevel.
  cbn [mbind result_bind fst snd]. eexists. by repeat split.
Qed.

(** What a successful [_combine_analyses] leaves in the status and in the
    violation list. *)
Lemma combine_status baseline_analysis ai_analysis combined :
  _combine_analyses baseline_analysis ai_analysis = Ok combined →
  violations combined
  = merge_violations (violations baseline_analysis)
                     (default [] (ai_violations ai_analysis))
  ∧ compliance_status combined
    = if KB.nonempty (violations combined) then "NON-COMPLIANT"
      else compliance_status baseline_analysis.
Proof.
  unfold _combine_analyses.
  destruct (get_overall_risk _) as [overall|e]; [|discriminate].
  cbn [mbind result_bind].
  destruct (if truthy overall then _ else _) as [risk|e]; [|discriminate].
  cbn [mbind result_bind]. by intros [= <-].
Qed.

(** What the turn of one secondary violation does: it is suppressed
    exactly when it matches a violation the merged list holds by then. *)
Lemma merge_violations_turn baseline earlier ai_violation :
  ((∃ b, b ∈ merge_violations baseline earlier ∧ same_finding ai_violation b = true)
   ↔ merge_violations baseline (earlier ++ [ai_violation])
     = merge_violations baseline earlier)
  ∧ ((¬ ∃ b, b ∈ merge_violations baseline earlier ∧ same_finding ai_violation b = true)
     ↔ merge_violations baseline (earlier ++ [ai_violation])
       = (merge_violations baseline earlier ++ [standard_violation ai_violation])%list).
Proof.
  rewrite <- is_duplicate_iff, merge_violations_snoc.
  assert (∀ (l : list Violation) x, (l ++ [x])%list ≠ l) as Hgrow.
  { intros l x Heq. apply (f_equal length) in Heq.
    rewrite length_app in Heq. simpl in Heq. lia. }
  destruct (_is_duplicate_violation ai_violation (merge_violations baseline earlier)).
  - repeat split; try done.
    intros Heq. symmetry in Heq. by apply Hgrow in Heq.
  - repeat split; try done.
    intros Heq. by apply Hgrow in Heq.
Qed.

(** C4, as stated, fails.  The baseline of this text has the violations of
    sections 12, 16 and 20, and the secondary violation of Section 21
    duplicates none of them; sent twice, its second copy is suppressed all
    the same, as a duplicate of the first copy, which the merged list
    already holds.  The survivor carries the tag [mistral_ai], not
    [external_model]. *)
Lemma duplicate_of_merged_secondary_counterexample :
  map v_section
      (violations (KB.get_comprehensive_analysis Samples.kb_titles "2025-01-01T00:00:00"
                     Samples.plain_text [Samples.person]))
  = ["12"; "16"; "20"]
  ∧ _is_duplicate_violation Samples.accountability
      (violations (KB.get_comprehensive_analysis Samples.kb_titles "2025-01-01T00:00:00"
                     Samples.plain_text [Samples.person]))
    = false
  ∧ merge_violations
      (violations (KB.get_comprehensive_analysis Samples.kb_titles "2025-01-01T00:00:00"
                     Samples.plain_text [Samples.person]))
      [Samples.accountability; Samples.accountability]
    = (violations (KB.get_comprehensive_analysis Samples.kb_titles "2025-01-01T00:00:00"
                     Samples.plain_text [Samples.person])
       ++ [standard_violation Samples.accountability])%list
  ∧ v_source (standard_violation Samples.accountability) = Some "mistral_ai"
  ∧ v_source (standard_violation Samples.accountability) ≠ Some "external_model".
Proof. vm_compute. by repeat split. Qed.

(** C4, amended: the secondary violations are taken in their order, and
    the merged list at the turn of one is the baseline followed by the
    secondary violations appended before it.  The violation is suppressed
    if and only if that list holds a violation, a baseline one or one
    appended before it, such that the section of the one is a substring
    of, or contains, the section of the other and its violation_type is a
    substring of, or contains, the violation field of the other, all in
    lower case; so a match with a baseline violation always suppresses it,
    and a match with a secondary violation that was itself suppressed does
    not.  Otherwise it is appended at the end, in its standard form tagged
    [source = "mistral_ai"]. *)
Theorem merge_violations_dedup baseline earlier ai_violation later :
  (∃ kept, kept `sublist_of` earlier
           ∧ merge_violations baseline earlier
             = (baseline ++ map standard_violation kept)%list)
  ∧ (merge_violations baseline (earlier ++ [ai_violation])
     = merge_violations baseline earlier
     ↔ ∃ b, b ∈ merge_violations baseline earlier
            ∧ (Py.contains (Py.lower (default "" (av_section ai_violation)))
                           (Py.lower (v_section b)) = true
               ∨ Py.contains (Py.lower (v_section b))
                             (Py.lower (default "" (av_section ai_violation))) = true)
            ∧ (Py.contains (Py.lower (default "" (av_violation_type ai_violation)))
                           (Py.lower (v_violation b)) = true
               ∨ Py.contains (Py.lower (v_violation b))
                             (Py.lower (default "" (av_violation_type ai_violation)))
                 = true))
  ∧ (merge_violations baseline (earlier ++ [ai_violation])
     = (merge_violations baseline earlier ++ [standard_violation ai_violation])%list
     ↔ ¬ ∃ b, b ∈ merge_violations baseline earlier
              ∧ (Py.contains (Py.lower (default "" (av_section ai_violation)))
                             (Py.lower (v_section b)) = true
                 ∨ Py.contains (Py.lower (v_section b))
                               (Py.lower (default "" (av_section ai_violation))) = true)
              ∧ (Py.contains (Py.lower (default "" (av_violation_type ai_violation)))
                             (Py.lower (v_violation b)) = true
                 ∨ Py.contains (Py.lower (v_violation b))
                               (Py.lower (default "" (av_violation_type ai_violation)))
                   = true))
  ∧ ((∃ b, b ∈ baseline
           ∧ (Py.contains (Py.lower (default "" (av_section ai_violation)))
                          (Py.lower (v_section b)) = true
              ∨ Py.contains (Py.lower (v_section b))
                            (Py.lower (default "" (av_section ai_violation))) = true)
           ∧ (Py.contains (Py.lower (default "" (av_violation_type ai_violation)))
                          (Py.lower (v_violation b)) = true
              ∨ Py.contains (Py.lower (v_violation b))
                            (Py.lower (default "" (av_violation_type ai_violation)))
                = true)) →
     merge_violations baseline (earlier ++ [ai_violation])
     = merge_violations baseline earlier)
  ∧ standard_violation ai_violation
    = {| v_section := default "AI-Detected" (av_section ai_violation);
         v_title := default "AI-Detected Violation" (av_section ai_violation);
         v_violation := default "ai_detected" (av_violation_type ai_violation);
         v_severity := default "MEDIUM" (av_severity ai_violation);
         v_description := default "" (av_description ai_violation);
         v_dpa_reference := None;
         v_details := Some (default "" (av_legal_basis ai_violation));
         v_confidence :=
           Some (default (QArith_base.Qmake 4 5) (av_confidence ai_violation));
         v_source := Some "mistral_ai" |}
  ∧ (∃ kept, kept `sublist_of` (earlier ++ ai_violation :: later)%list
             ∧ merge_violations baseline (earlier ++ ai_violation :: later)
               = (baseline ++ map standard_violation kept)%list).
Proof.
  assert (∀ b, same_finding ai_violation b = true
               ↔ (Py.contains (Py.lower (default "" (av_section ai_violation)))
                              (Py.lower (v_section b)) = true
                  ∨ Py.contains (Py.lower (v_section b))
                                (Py.lower (default "" (av_section ai_violation))) = true)
                 ∧ (Py.contains (Py.lower (default "" (av_violation_type ai_violation)))
                                (Py.lower (v_violation b)) = true
                    ∨ Py.contains (Py.lower (v_violation b))
                                  (Py.lower (default "" (av_violation_type ai_violation)))
                      = true)) as Hrule.
  { intros b. unfold same_finding, overlap. cbv zeta.
    by rewrite andb_true_iff, !orb_true_iff. }
  destruct (merge_violations_kept baseline earlier) as (kept & Hsub & Hmerged).
  destruct (merge_violations_turn baseline earlier ai_violation) as [Hdup Hnew].
  split; [by exists kept|].
  split.
  { rewrite <- Hdup. split; intros (b & Hin & Hb); exists b; (split; [done|]);
      by apply Hrule. }
  split.
  { rewrite <- Hnew. split; intros Hnone (b & Hin & Hb); apply Hnone; exists b;
      (split; [done|]); by apply Hrule. }
  split.
  { intros (b & Hin & Hb). apply Hdup. exists b. split; [|by apply Hrule].
    rewrite Hmerged, elem_of_app. by left. }
  split; [reflexivity|].
  apply merge_violations_kept.
Qed.

Lemma merge_violations_dedup_witness :
  merge_violations
    (violations (KB.get_comprehensive_analysis Samples.kb_titles "2025-01-01T00:00:00"
                   Samples.plain_text [Samples.person]))
    ([] ++ [Samples.ai_violation "Section 12" "processing without consent" "HIGH"])
  = violations (KB.get_comprehensive_analysis Samples.kb_titles "2025-01-01T00:00:00"
                  Samples.plain_text [Samples.person]).
Proof.
  apply (proj1 (proj2 (proj2 (proj2
                  (merge_violations_dedup
                     (violations (KB.get_comprehensive_analysis Samples.kb_titles
                                    "2025-01-01T00:00:00" Samples.plain_text
                                    [Samples.person]))
                     [] (Samples.ai_violation "Section 12" "processing without consent"
                                              "HIGH")
                     []))))).
  exists (KB.baseline_violation Samples.kb_titles "12"
            "Criteria for Lawful Processing of Personal Information"
            "Processing without consent" "HIGH"
            "Personal information appears to be processed without clear consent from data subjects").
  split; [vm_compute; left|]. split; vm_compute; [right | left]; reflexivity.
Defined.

(** The fate of a secondary violation that matches only a suppressed one.
    The first secondary violation duplicates the baseline violation of
    section 12 and is suppressed; the second one matches the first (its
    type contains [consent]) and no violation of the merged list, and is
    appended. *)
Example match_with_suppressed_secondary :
  let baseline :=
    violations (KB.get_comprehensive_analysis Samples.kb_titles "2025-01-01T00:00:00"
                  Samples.plain_text [Samples.person]) in
  let first := Samples.ai_violation "Section 12" "consent" "HIGH" in
  let second := Samples.ai_violation "Section 12" "consent form" "HIGH" in
  merge_violations baseline [first] = baseline
  ∧ same_finding second (standard_violation first) = true
  ∧ _is_duplicate_violation second baseline = false
  ∧ merge_violations baseline [first; second]
    = (baseline ++ [standard_violation second])%list.
Proof. vm_compute. by repeat split. Qed.

(** C5: when the baseline risk level and the risk level of the secondary
    result are both among LOW < MEDIUM < HIGH < CRITICAL, the merge
    succeeds and its risk level is the higher of the two in that order;
    exchanging the two levels gives the same level. *)
Theorem merged_risk_is_max baseline_analysis ai_analysis overall_risk risk_factors
        mitigation_priority i j :
  risk_levels !! i = Some (risk_level baseline_analysis) →
  risk_levels !! j = Some overall_risk →
  ai_risk ai_analysis = Some (RiskDict (Some overall_risk) risk_factors mitigation_priority) →
  ∃ combined,
    _combine_analyses baseline_analysis ai_analysis = Ok combined
    ∧ risk_levels !! Nat.max i j = Some (risk_level combined)
    ∧ higher_risk (risk_level baseline_analysis) overall_risk = Ok (risk_level combined)
    ∧ higher_risk overall_risk (risk_level baseline_analysis) = Ok (risk_level combined).
Proof.
  intros Hi Hj Hrisk.
  destruct (higher_risk_max i j _ _ Hi Hj) as (level & Hmax & Hbs & Hsb & Htruthy).
  destruct (combine_ok _ _ _ _ _ _ Hrisk Htruthy Hbs) as (combined & Hok & Hlevel & _).
  exists combined. by rewrite Hlevel.
Qed.

Lemma merged_risk_is_max_witness :
  ∃ combined,
    _combine_analyses
      (KB.get_comprehensive_analysis Samples.kb_titles "2025-01-01T00:00:00"
         Samples.plain_text [Samples.person])
      (Samples.answer [] "CRITICAL") = Ok combined
    ∧ risk_level combined = "CRITICAL".
Proof.
  destruct (merged_risk_is_max
              (KB.get_comprehensive_analysis Samples.kb_titles "2025-01-01T00:00:00"
                 Samples.plain_text [Samples.person])
              (Samples.answer [] "CRITICAL") "CRITICAL" [] None 2 3
              eq_refl eq_refl eq_refl)
    as (combined & Hok & Hmax & _).
  exists combined. split; [exact Hok|].
  simpl in Hmax. by injection Hmax as <-.
Defined.

(** C10: when the analysis of an image fails, with whatever exception,
    [analyze_image_document] returns a report: its status is ERROR, which
    is neither COMPLIANT nor NON-COMPLIANT, its risk level UNKNOWN, its
    violation list empty, and its only recommendation the HIGH-priority
    "Manual review required". *)
Theorem image_failure_report w kb image_path document_name e :
  image_analysis w kb image_path document_name = Raise e →
  compliance_status (analyze_image_document w kb image_path document_name) = "ERROR"
  ∧ "ERROR" ≠ "COMPLIANT" ∧ "ERROR" ≠ "NON-COMPLIANT"
  ∧ risk_level (analyze_image_document w kb image_path document_name) = "UNKNOWN"
  ∧ violations (analyze_image_document w kb image_path document_name) = []
  ∧ ∃ r, recommendations (analyze_image_document w kb image_path document_name) = [r]
         ∧ r_priority r = "HIGH"
         ∧ r_action r = "Manual review required"
         ∧ r_description r = "Image analysis failed: " +:+ exn_msg e.
Proof.
  intros Hfail. unfold analyze_image_document. rewrite Hfail. simpl.
  repeat split; try done. eexists. by repeat split.
Qed.

Lemma image_failure_report_witness :
  compliance_status (analyze_image_document Samples.world_unreadable KB.initial
                       "scan.jpg" "Scan") = "ERROR"
  ∧ risk_level (analyze_image_document Samples.world_unreadable KB.initial
                  "scan.jpg" "Scan") = "UNKNOWN".
Proof.
  destruct (image_failure_report Samples.world_unreadable KB.initial "scan.jpg" "Scan"
              (Exn "FileNotFoundError" "No such file or directory") eq_refl)
    as (Hstatus & _ & _ & Hrisk & _).
  split; [exact Hstatus | exact Hrisk].
Defined.

(** Also a malformed answer of the external model ends in the error
    report: its risk assessment is a list, and [.get] raises. *)
Example image_failure_malformed_answer :
  compliance_status
    (analyze_image_document
       (Samples.world {| ai_violations := Some []; ai_recommendations := Some [];
                         ai_risk := Some RiskList; ai_insights_ := None;
                         ai_error := None |})
       KB.initial "scan.jpg" "Scan")
  = "ERROR".
Proof. reflexivity. Qed.

End MistralFacts.

(** ** The status of every report the engine produces *)
Module EngineFacts.

Lemma traditional_status kb now text document_name pii_categorized
      consent_indicators purpose_indicators :
  Checker.compliance_status
    (Checker._traditional_analysis kb now text document_name pii_categorized
       consent_indicators purpose_indicators)
  = if Checker.is_empty
         (Checker.violations
            (Checker._traditional_analysis kb now text document_name pii_categorized
               consent_indicators purpose_indicators))
    then "COMPLIANT" else "NON-COMPLIANT".
Proof. reflexivity. Qed.

Lemma combine_baseline_status kb now text pii_data ai_analysis combined :
  Mistral._combine_analyses (KB.get_comprehensive_analysis kb now text pii_data)
                            ai_analysis = Ok combined →
  Shape.compliance_status combined
  = if KB.nonempty (Shape.violations combined) then "NON-COMPLIANT" else "COMPLIANT".
Proof.
  intros Hc. apply MistralFacts.combine_status in Hc as [Hv Hs]. rewrite Hs.
  destruct (KB.nonempty (Shape.violations combined)) eqn:Hn; [done|].
  destruct (MistralFacts.merge_violations_kept
              (Shape.violations (KB.get_comprehensive_analysis kb now text pii_data))
              (default [] (Mistral.ai_violations ai_analysis))) as (kept & _ & Hk).
  rewrite Hk in Hv. rewrite Hv in Hn.
  unfold KB.get_comprehensive_analysis in *.
  cbn [Shape.violations Shape.compliance_status] in *.
  by destruct (KB.check_violation kb text pii_data).
Qed.

Lemma reconciled_status w kb text pii_data document_name image_path r :
  Mistral.analyze_document_with_ai w kb text pii_data document_name image_path = Ok r →
  Shape.compliance_status r
  = if KB.nonempty (Shape.violations r) then "NON-COMPLIANT" else "COMPLIANT".
Proof.
  unfold Mistral.analyze_document_with_ai.
  destruct image_path as [path|]; cbn zeta beta iota;
    (destruct (Mistral._combine_analyses _ _) as [combined|e] eqn:Hc;
     [|discriminate]);
    cbn [mbind result_bind]; intros [= <-];
    cbn [Shape.compliance_status Shape.violations];
    by apply combine_baseline_status in Hc.
Qed.

Lemma status_of_nonempty {A} (l : list A) :
  ((if KB.nonempty l then "NON-COMPLIANT" else "COMPLIANT") = "NON-COMPLIANT" ↔ l ≠ [])
  ∧ ((if KB.nonempty l then "NON-COMPLIANT" else "COMPLIANT") = "COMPLIANT" ↔ l = []).
Proof. destruct l; simpl; by repeat split. Qed.

Lemma status_of_is_empty {A} (l : list A) :
  ((if Checker.is_empty l then "COMPLIANT" else "NON-COMPLIANT") = "NON-COMPLIANT" ↔ l ≠ [])
  ∧ ((if Checker.is_empty l then "COMPLIANT" else "NON-COMPLIANT") = "COMPLIANT" ↔ l = []).
Proof. destruct l; simpl; by repeat split. Qed.

(** C1: in every report of the rule-based analysis, and in every report
    the reconciliation of the engine's baseline with a secondary result
    produces, the status is NON-COMPLIANT exactly when the violation list
    is not empty, and COMPLIANT exactly when it is empty; so it is for
    every report of [analyze_document], enhanced or not. *)
Theorem compliance_status_iff_violations :
  (∀ kb now text document_name pii_categorized consent_indicators purpose_indicators,
     (Checker.compliance_status
        (Checker._traditional_analysis kb now text document_name pii_categorized
           consent_indicators purpose_indicators) = "NON-COMPLIANT"
      ↔ Checker.violations
          (Checker._traditional_analysis kb now text document_name pii_categorized
             consent_indicators purpose_indicators) ≠ [])
     ∧ (Checker.compliance_status
          (Checker._traditional_analysis kb now text document_name pii_categorized
             consent_indicators purpose_indicators) = "COMPLIANT"
        ↔ Checker.violations
            (Checker._traditional_analysis kb now text document_name pii_categorized
               consent_indicators purpose_indicators) = []))
  ∧ (∀ w kb text pii_data document_name image_path r,
       Mistral.analyze_document_with_ai w kb text pii_data document_name image_path = Ok r →
       (Shape.compliance_status r = "NON-COMPLIANT" ↔ Shape.violations r ≠ [])
       ∧ (Shape.compliance_status r = "COMPLIANT" ↔ Shape.violations r = []))
  ∧ (∀ w kb use_ai_enhancement text document_name a,
       Checker.analyze_document w kb use_ai_enhancement text document_name = Ok a →
       match a with
       | Checker.Enhanced r =>
           (Shape.compliance_status r = "NON-COMPLIANT" ↔ Shape.violations r ≠ [])
           ∧ (Shape.compliance_status r = "COMPLIANT" ↔ Shape.violations r = [])
       | Checker.Traditional t =>
           (Checker.compliance_status t = "NON-COMPLIANT" ↔ Checker.violations t ≠ [])
           ∧ (Checker.compliance_status t = "COMPLIANT" ↔ Checker.violations t = [])
       end).
Proof.
  split; [|split].
  - intros. rewrite traditional_status. apply status_of_is_empty.
  - intros * Hrun. rewrite (reconciled_status _ _ _ _ _ _ _ Hrun).
    apply status_of_nonempty.
  - intros * Hrun. unfold Checker.analyze_document in Hrun.
    destruct (Mistral.detect_pii w text) as [pii_results|e]; [|discriminate].
    cbn [mbind result_bind] in Hrun.
    destruct use_ai_enhancement.
    + destruct (Mistral.analyze_document_with_ai _ _ _ _ _ _) as [r|e] eqn:Hai;
        injection Hrun as <-.
      * cbn [Shape.compliance_status Shape.violations].
        rewrite (reconciled_status _ _ _ _ _ _ _ Hai). apply status_of_nonempty.
      * rewrite traditional_status. apply status_of_is_empty.
    + injection Hrun as <-. rewrite traditional_status. apply status_of_is_empty.
Qed.

Lemma compliance_status_iff_violations_witness :
  ∃ r, Mistral.analyze_document_with_ai
         (Samples.world (Samples.answer [Samples.accountability] "HIGH"))
         Samples.kb_titles Samples.plain_text [Samples.person] "Form" None = Ok r
       ∧ Shape.compliance_status r = "NON-COMPLIANT".
Proof.
  destruct (Mistral.analyze_document_with_ai
              (Samples.world (Samples.answer [Samples.accountability] "HIGH"))
              Samples.kb_titles Samples.plain_text [Samples.person] "Form" None)
    as [r|e] eqn:Hrun; [|vm_compute in Hrun; discriminate].
  exists r. split; [reflexivity|].
  apply (proj1 (proj2 compliance_status_iff_violations) _ _ _ _ _ _ _ Hrun).
  vm_compute in Hrun. injection Hrun as <-. discriminate.
Defined.

(** Three runs of the rule-based analysis: nothing detected; three
    sensitive items without consent or purpose language; eleven regular
    items with both. *)
Example nothing_detected :
  (λ r, (map Checker.violation_type (Checker.violations r),
         Checker.risk_level r, Checker.compliance_status r))
    (Checker._traditional_analysis KB.initial "2025-01-01T00:00:00" "" "Empty"
       (PII.categorize_pii []) (PII.detect_consent_indicators "")
       (PII.detect_purpose_statements ""))
  = ([], "LOW", "COMPLIANT").
Proof. reflexivity. Qed.

Example three_sensitive_items :
  (λ r, (map (λ v, (Checker.violation_type v, Checker.severity v)) (Checker.violations r),
         Checker.risk_level r, Checker.compliance_status r))
    (Checker._traditional_analysis KB.initial "2025-01-01T00:00:00"
       Samples.plain_text "Form"
       (PII.categorize_pii (replicate 3 Samples.tin))
       (PII.detect_consent_indicators Samples.plain_text)
       (PII.detect_purpose_statements Samples.plain_text))
  = ([("unauthorized_processing", "HIGH"); ("inadequate_spi_protection", "CRITICAL");
      ("lack_of_transparency", "MEDIUM")],
     "CRITICAL", "NON-COMPLIANT").
Proof. vm_compute. reflexivity. Qed.

Example eleven_regular_items :
  (λ r, (map Checker.violation_type (Checker.violations r), Checker.risk_level r))
    (Checker._traditional_analysis KB.initial "2025-01-01T00:00:00"
       "I consent. The purpose is billing." "Form"
       (PII.categorize_pii (replicate 11 Samples.person))
       (PII.detect_consent_indicators "I consent. The purpose is billing.")
       (PII.detect_purpose_statements "I consent. The purpose is billing."))
  = (["excessive_processing"], "HIGH").
Proof. vm_compute. reflexivity. Qed.

End EngineFacts.

(** ** More on pii_detector.py and the rule evaluator *)
Module EvaluatorFacts.
Import Checker.

Lemma filter_partition_perm {A} (f : A → bool) (l : list A) :
  (List.filter (λ x, negb (f x)) l ++ List.filter f l)%list ≡ₚ l.
Proof.
  induction l as [|x l IH]; simpl; [done|].
  destruct (f x); simpl.
  - rewrite <- Permutation_middle. by constructor.
  - by constructor.
Qed.

Lemma filter_partition_length {A} (f : A → bool) (l : list A) :
  (length (List.filter (λ x, negb (f x)) l) + length (List.filter f l) = length l)%nat.
Proof. rewrite <- length_app. by rewrite filter_partition_perm. Qed.

Lemma list_filter_sublist {A} (f : A → bool) (l : list A) :
  List.filter f l `sublist_of` l.
Proof.
  induction l as [|x l IH]; simpl; [done|].
  destruct (f x); [by apply sublist_skip | by apply sublist_cons].
Qed.

Lemma mem_elem_of x l : PII.mem x l = true ↔ x ∈ l.
Proof.
  unfold PII.mem. rewrite existsb_exists. split.
  - intros (y & Hin & Heq). apply String.eqb_eq in Heq as ->.
    by apply list_elem_of_In.
  - intros Hin. exists x. split; [by apply list_elem_of_In | apply String.eqb_refl].
Qed.

(** X1: [categorize_pii] splits the detected items into two lists that
    keep the order of detection, lose nothing and share nothing; an item is
    in the sensitive list exactly when it is flagged or its type is one of
    the six listed; the three counts are the lengths and add up. *)
Theorem categorize_pii_partition pii_results :
  (PII.regular_count (PII.categorize_pii pii_results)
   + PII.sensitive_count (PII.categorize_pii pii_results)
   = PII.total_pii_count (PII.categorize_pii pii_results))%Z
  ∧ PII.total_pii_count (PII.categorize_pii pii_results) = Z.of_nat (length pii_results)
  ∧ PII.sensitive_count (PII.categorize_pii pii_results)
    = Z.of_nat (length (PII.sensitive_pii (PII.categorize_pii pii_results)))
  ∧ (PII.regular_pii (PII.categorize_pii pii_results)
     ++ PII.sensitive_pii (PII.categorize_pii pii_results))%list ≡ₚ pii_results
  ∧ PII.regular_pii (PII.categorize_pii pii_results) `sublist_of` pii_results
  ∧ PII.sensitive_pii (PII.categorize_pii pii_results) `sublist_of` pii_results
  ∧ (∀ pii, pii ∈ PII.sensitive_pii (PII.categorize_pii pii_results)
            ↔ pii ∈ pii_results
              ∧ (PII.is_sensitive pii = true
                 ∨ PII.entity_type pii
                   ∈ ["HEALTH_INFO"; "RELIGIOUS_INFO"; "FINANCIAL_INFO";
                      "PH_TIN"; "PH_SSS"; "PH_PHILHEALTH"]))
  ∧ (∀ pii, pii ∈ PII.regular_pii (PII.categorize_pii pii_results) →
            pii ∉ PII.sensitive_pii (PII.categorize_pii pii_results)).
Proof.
  unfold PII.categorize_pii. cbn [PII.regular_count PII.sensitive_count
    PII.total_pii_count PII.regular_pii PII.sensitive_pii].
  split; [|split; [done|split; [done|split; [|split; [|split; [|split]]]]]].
  - rewrite <- Nat2Z.inj_add. f_equal. apply filter_partition_length.
  - apply filter_partition_perm.
  - apply list_filter_sublist.
  - apply list_filter_sublist.
  - intros pii. rewrite (list_elem_of_In (List.filter _ _)), filter_In.
    rewrite <- list_elem_of_In. unfold PII.in_sensitive_partition.
    by rewrite orb_true_iff, mem_elem_of.
  - intros pii. rewrite !list_elem_of_In, !filter_In.
    intros [_ Hr] [_ Hs]. rewrite Hs in Hr. discriminate.
Qed.

Lemma security_violations_shape text section_20_data :
  _check_security_violations text section_20_data = []
  ∨ ∃ pattern, _check_security_violations text section_20_data
               = [security_violation pattern section_20_data].
Proof.
  unfold _check_security_violations. rewrite CheckerFacts.security_loop_find.
  destruct (List.find _ _); [right; by eexists | by left].
Qed.

Ltac sublist_auto :=
  repeat first [ apply sublist_nil_l | apply sublist_skip | apply sublist_cons ].

(** X2: the evaluator reports its violations in the fixed order of its
    five rules, each type at most once: at most five violations, never
    two of one type. *)
Theorem check_violations_fixed_order kb text pii_categorized
        consent_indicators purpose_indicators :
  map violation_type
      (_check_violations kb text pii_categorized consent_indicators purpose_indicators)
  `sublist_of` ["unauthorized_processing"; "inadequate_spi_protection";
                "lack_of_transparency"; "excessive_processing"; "inadequate_security"]
  ∧ (length (_check_violations kb text pii_categorized consent_indicators
                               purpose_indicators) ≤ 5)%nat
  ∧ NoDup (map violation_type
               (_check_violations kb text pii_categorized consent_indicators
                                  purpose_indicators)).
Proof.
  assert (map violation_type
            (_check_violations kb text pii_categorized consent_indicators
                               purpose_indicators)
          `sublist_of` ["unauthorized_processing"; "inadequate_spi_protection";
                        "lack_of_transparency"; "excessive_processing";
                        "inadequate_security"]) as Hsub.
  { unfold _check_violations.
    destruct (security_violations_shape text (KB.get_section kb "20"))
      as [->|[pattern ->]];
      repeat match goal with |- context [if ?b then _ else _] => destruct b end;
      cbn [map app violation_type unauthorized_processing inadequate_spi_protection
             lack_of_transparency excessive_processing security_violation];
      sublist_auto. }
  split; [exact Hsub|]. split.
  - apply sublist_length in Hsub. by rewrite length_map in Hsub.
  - eapply sublist_NoDup; [|exact Hsub].
    apply NoDup_ListNoDup. repeat constructor; simpl; intuition discriminate.
Qed.

(** X3: the triggers of the other rules.  Section 13 fires exactly when
    the sensitive count is positive; the transparency rule when the total
    count is positive and no purpose indicator was found; the
    proportionality rule when the total count exceeds 10.  The first is
    CRITICAL, the other two MEDIUM. *)
Theorem other_rules_trigger kb text pii_categorized consent_indicators
        purpose_indicators :
  ((∃ v, v ∈ _check_violations kb text pii_categorized consent_indicators
                               purpose_indicators
         ∧ violation_type v = "inadequate_spi_protection")
   ↔ (0 < PII.sensitive_count pii_categorized)%Z)
  ∧ ((∃ v, v ∈ _check_violations kb text pii_categorized consent_indicators
                                 purpose_indicators
           ∧ violation_type v = "lack_of_transparency")
     ↔ (0 < PII.total_pii_count pii_categorized)%Z ∧ purpose_indicators = [])
  ∧ ((∃ v, v ∈ _check_violations kb text pii_categorized consent_indicators
                                 purpose_indicators
           ∧ violation_type v = "excessive_processing")
     ↔ (10 < PII.total_pii_count pii_categorized)%Z)
  ∧ (∀ v, v ∈ _check_violations kb text pii_categorized consent_indicators
                                purpose_indicators →
          (violation_type v = "inadequate_spi_protection" →
           section v = "Section 13" ∧ severity v = "CRITICAL")
          ∧ (violation_type v = "lack_of_transparency" →
             section v = "Section 11" ∧ severity v = "MEDIUM")
          ∧ (violation_type v = "excessive_processing" →
             section v = "Section 11" ∧ severity v = "MEDIUM")).
Proof.
  assert (∀ v, v ∈ _check_violations kb text pii_categorized consent_indicators
                                     purpose_indicators →
               ((0 < PII.total_pii_count pii_categorized)%Z ∧ consent_indicators = []
                ∧ violation_type v = "unauthorized_processing")
               ∨ ((0 < PII.sensitive_count pii_categorized)%Z
                  ∧ violation_type v = "inadequate_spi_protection"
                  ∧ section v = "Section 13" ∧ severity v = "CRITICAL")
               ∨ ((0 < PII.total_pii_count pii_categorized)%Z ∧ purpose_indicators = []
                  ∧ violation_type v = "lack_of_transparency"
                  ∧ section v = "Section 11" ∧ severity v = "MEDIUM")
               ∨ ((10 < PII.total_pii_count pii_categorized)%Z
                  ∧ violation_type v = "excessive_processing"
                  ∧ section v = "Section 11" ∧ severity v = "MEDIUM")
               ∨ violation_type v = "inadequate_security") as Hcases.
  { intros v Hin. apply CheckerFacts.check_violations_elem in Hin.
    destruct Hin as [(? & ? & ->)|[(? & ->)|[(? & ? & ->)|[(? & ->)|Hsec]]]].
    - by left.
    - right. by left.
    - right. right. by left.
    - right. right. right. by left.
    - do 4 right. by apply CheckerFacts.security_violations_type in Hsec. }
  split; [|split; [|split]].
  - split.
    + intros (v & Hin & Hty). apply Hcases in Hin.
      destruct Hin as [(_ & _ & ?)|[(? & _)|[(_ & _ & ? & _)|[(_ & ? & _)|?]]]];
        [congruence | done | congruence..].
    + intros Hpos.
      exists (inadequate_spi_protection (KB.get_section kb "13") pii_categorized).
      split; [|reflexivity]. apply CheckerFacts.check_violations_elem.
      right. by left.
  - split.
    + intros (v & Hin & Hty). apply Hcases in Hin.
      destruct Hin as [(_ & _ & ?)|[(_ & ? & _)|[(? & ? & _)|[(_ & ? & _)|?]]]];
        [congruence | congruence | done | congruence..].
    + intros [Hpos ->].
      exists (lack_of_transparency (KB.get_section kb "11")).
      split; [|reflexivity]. apply CheckerFacts.check_violations_elem.
      right. right. by left.
  - split.
    + intros (v & Hin & Hty). apply Hcases in Hin.
      destruct Hin as [(_ & _ & ?)|[(_ & ? & _)|[(_ & _ & ? & _)|[(? & _)|?]]]];
        [congruence | congruence | congruence | done | congruence].
    + intros Hbig.
      exists (excessive_processing (KB.get_section kb "11") pii_categorized).
      split; [|reflexivity]. apply CheckerFacts.check_violations_elem.
      right. right. right. by left.
  - intros v Hin. apply Hcases in Hin.
    destruct Hin as [(_ & _ & Hty)|[(_ & Hty & ? & ?)|[(_ & _ & Hty & ? & ?)
                    |[(_ & Hty & ? & ?)|Hty]]]];
      rewrite Hty; repeat split; intros; done.
Qed.

Lemma slice_to_length n s : (String.length (Py.slice_to n s) ≤ n)%nat.
Proof.
  revert s. induction n as [|n IH]; intros [|c s]; simpl; try lia.
  specialize (IH s). lia.
Qed.

Lemma append_length a b :
  String.length (a +:+ b) = (String.length a + String.length b)%nat.
Proof. induction a as [|c a IH]; simpl; [done | by rewrite IH]. Qed.

Lemma reference_length section_data :
  (String.length (reference section_data) ≤ 203)%nat.
Proof.
  unfold reference. rewrite append_length.
  change (String.length "...") with 3%nat.
  pose proof (slice_to_length 200 (get_str section_data "content" "")). lia.
Qed.

Lemma take_texts_subseteq (items more : list PII.Item) before :
  map PII.text (take 5 items) ⊆ map PII.text (before ++ items ++ more)%list.
Proof.
  intros x (i & -> & Hin)%list_elem_of_fmap.
  apply list_elem_of_fmap. exists i. split; [done|].
  rewrite !elem_of_app. right. left. by eapply subseteq_take.
Qed.

(** X4: every violation of the evaluator names at most five affected
    items, all of them texts of detected items, and quotes at most 200
    characters of its section, followed by three dots. *)
Theorem violation_excerpts_bounded kb text pii_categorized consent_indicators
        purpose_indicators :
  Forall (λ v, (length (affected_data v) ≤ 5)%nat
               ∧ affected_data v
                 ⊆ map PII.text (PII.regular_pii pii_categorized
                                 ++ PII.sensitive_pii pii_categorized)%list
               ∧ (String.length (dpa_reference v) ≤ 203)%nat
               ∧ ∃ section_number,
                   section_number ∈ ["11"; "12"; "13"; "20"]
                   ∧ dpa_reference v
                     = Py.slice_to 200 (get_str (KB.get_section kb section_number)
                                                "content" "") +:+ "...")
         (_check_violations kb text pii_categorized consent_indicators
                            purpose_indicators).
Proof.
  apply Forall_forall. intros v Hin.
  apply CheckerFacts.check_violations_elem in Hin.
  destruct Hin as [(_ & _ & ->)|[(_ & ->)|[(_ & _ & ->)|[(_ & ->)|Hsec]]]].
  - cbn [affected_data dpa_reference unauthorized_processing].
    split; [rewrite length_map, length_take; apply Nat.le_min_l|].
    split; [apply (take_texts_subseteq _ _ [])|].
    split; [apply reference_length|].
    exists "12". split; [set_solver | reflexivity].
  - cbn [affected_data dpa_reference inadequate_spi_protection].
    split; [rewrite length_map, length_take; apply Nat.le_min_l|].
    split.
    { pose proof (take_texts_subseteq (PII.sensitive_pii pii_categorized) []
                    (PII.regular_pii pii_categorized)) as Hsub.
      by rewrite app_nil_r in Hsub. }
    split; [apply reference_length|].
    exists "13". split; [set_solver | reflexivity].
  - cbn [affected_data dpa_reference lack_of_transparency].
    split; [simpl; lia|]. split; [set_solver|].
    split; [apply reference_length|].
    exists "11". split; [set_solver | reflexivity].
  - cbn [affected_data dpa_reference excessive_processing].
    split; [simpl; lia|]. split; [set_solver|].
    split; [apply reference_length|].
    exists "11". split; [set_solver | reflexivity].
  - destruct (security_violations_shape text (KB.get_section kb "20"))
      as [Hnil|[pattern Hone]].
    + rewrite Hnil in Hsec. by apply elem_of_nil in Hsec.
    + rewrite Hone in Hsec. apply list_elem_of_singleton in Hsec as ->.
      cbn [affected_data dpa_reference security_violation].
      split; [simpl; lia|]. split; [set_solver|].
      split; [apply reference_length|].
      exists "20". split; [set_solver | reflexivity].
Qed.

(** X7: the recommendations depend on which violation types occur, not
    on how often or in what order: two violation lists with the same set
    of types get the same recommendations. *)
Theorem recommendations_by_type_set violations1 violations2 pii_categorized :
  (∀ t, t ∈ map violation_type violations1 ↔ t ∈ map violation_type violations2) →
  _generate_recommendations violations1 pii_categorized
  = _generate_recommendations violations2 pii_categorized.
Proof.
  intros Hsame.
  assert (∀ t, PII.mem t (map violation_type violations1)
               = PII.mem t (map violation_type violations2)) as Hmem.
  { intros t. apply eq_true_iff_eq. rewrite !mem_elem_of. apply Hsame. }
  unfold _generate_recommendations, recommend_if. by rewrite !Hmem.
Qed.

Lemma recommendations_by_type_set_witness :
  _generate_recommendations
    [lack_of_transparency ∅; security_violation "\bunsecured\b" ∅;
     lack_of_transparency ∅]
    (PII.categorize_pii [Samples.person])
  = _generate_recommendations
      [security_violation "\bno password\b" ∅; lack_of_transparency ∅]
      (PII.categorize_pii [Samples.person]).
Proof.
  apply (recommendations_by_type_set
           [lack_of_transparency ∅; security_violation "\bunsecured\b" ∅;
            lack_of_transparency ∅]
           [security_violation "\bno password\b" ∅; lack_of_transparency ∅]).
  intros t. simpl. rewrite !elem_of_cons, !elem_of_nil. tauto.
Defined.

Lemma security_violations_match text section_20_data :
  (_check_security_violations text section_20_data = []
   ∧ ¬ Exists (λ p, Regex.search p text = true) unencrypted_patterns)
  ∨ (∃ pattern, _check_security_violations text section_20_data
                = [security_violation pattern section_20_data]
                ∧ Exists (λ p, Regex.search p text = true) unencrypted_patterns).
Proof.
  unfold _check_security_violations. rewrite CheckerFacts.security_loop_find.
  destruct (List.find (λ p, Regex.search p text) unencrypted_patterns)
    as [pattern|] eqn:Hfind.
  - right. exists pattern. split; [done|].
    apply CheckerFacts.find_first in Hfind as (before & after & -> & Hp & _).
    apply Exists_app. right. by left.
  - left. split; [done|]. apply CheckerFacts.find_none_forall in Hfind.
    intros Hex. apply Exists_exists in Hex as (p & Hin & Hp).
    rewrite Forall_forall in Hfind. specialize (Hfind p Hin). congruence.
Qed.

(** X5: the risk level of the rule-based report, read off its inputs.
    It is CRITICAL exactly when the sensitive count is positive (the
    threshold of 5 never decides); HIGH exactly when it is not and the
    consent rule fired, or the total count exceeds 10, or the text matches
    an insecurity pattern; MEDIUM exactly when the transparency rule is the
    only one that fired; LOW exactly when no rule fired, that is, when the
    report is COMPLIANT. *)
Theorem traditional_risk_level kb now text document_name pii_categorized
        consent_indicators purpose_indicators :
  (risk_level (_traditional_analysis kb now text document_name pii_categorized
                 consent_indicators purpose_indicators) = "CRITICAL"
   ↔ (0 < PII.sensitive_count pii_categorized)%Z)
  ∧ (risk_level (_traditional_analysis kb now text document_name pii_categorized
                   consent_indicators purpose_indicators) = "HIGH"
     ↔ (PII.sensitive_count pii_categorized ≤ 0)%Z
       ∧ (((0 < PII.total_pii_count pii_categorized)%Z ∧ consent_indicators = [])
          ∨ (10 < PII.total_pii_count pii_categorized)%Z
          ∨ Exists (λ p, Regex.search p text = true) unencrypted_patterns))
  ∧ (risk_level (_traditional_analysis kb now text document_name pii_categorized
                   consent_indicators purpose_indicators) = "MEDIUM"
     ↔ map violation_type
           (violations (_traditional_analysis kb now text document_name pii_categorized
                          consent_indicators purpose_indicators))
       = ["lack_of_transparency"])
  ∧ (risk_level (_traditional_analysis kb now text document_name pii_categorized
                   consent_indicators purpose_indicators) = "LOW"
     ↔ violations (_traditional_analysis kb now text document_name pii_categorized
                     consent_indicators purpose_indicators) = [])
  ∧ (risk_level (_traditional_analysis kb now text document_name pii_categorized
                   consent_indicators purpose_indicators) = "LOW"
     ↔ compliance_status (_traditional_analysis kb now text document_name
                            pii_categorized consent_indicators purpose_indicators)
       = "COMPLIANT").
Proof.
  unfold _traditional_analysis, _assess_risk_level, _check_violations.
  cbn [risk_level violations compliance_status].
  destruct (security_violations_match text (KB.get_section kb "20"))
    as [[-> Hno]|(pattern & -> & Hyes)];
    destruct (Z.ltb_spec 0 (PII.total_pii_count pii_categorized));
    destruct (Z.ltb_spec 0 (PII.sensitive_count pii_categorized));
    destruct (Z.ltb_spec 10 (PII.total_pii_count pii_categorized));
    destruct (Z.ltb_spec 5 (PII.sensitive_count pii_categorized));
    try (exfalso; lia);
    destruct consent_indicators, purpose_indicators;
    cbn -[unencrypted_patterns];
    (split; [|split; [|split; [|split]]]);
    split; intros; try done; try lia; intuition (try done; try lia).
Qed.

(** X6: the rule-based report recommends one action for each violation
    it lists, and the privacy impact assessment besides when the total
    count is positive: never more than six recommendations. *)
Theorem traditional_recommendation_count kb now text document_name pii_categorized
        consent_indicators purpose_indicators :
  length (recommendations (_traditional_analysis kb now text document_name
                             pii_categorized consent_indicators purpose_indicators))
  = (length (violations (_traditional_analysis kb now text document_name
                           pii_categorized consent_indicators purpose_indicators))
     + if (0 <? PII.total_pii_count pii_categorized)%Z then 1 else 0)%nat
  ∧ (length (recommendations (_traditional_analysis kb now text document_name
                                pii_categorized consent_indicators purpose_indicators))
     ≤ 6)%nat.
Proof.
  unfold _traditional_analysis, _generate_recommendations, _check_violations.
  cbn [recommendations violations].
  destruct (security_violations_shape text (KB.get_section kb "20"))
    as [->|[pattern ->]];
    destruct (0 <? PII.total_pii_count pii_categorized)%Z;
    destruct (0 <? PII.sensitive_count pii_categorized)%Z;
    destruct (10 <? PII.total_pii_count pii_categorized)%Z;
    destruct consent_indicators, purpose_indicators;
    cbn; split; lia.
Qed.

End EvaluatorFacts.

(** ** The baseline analysis of enhanced_dpa_knowledge_v2.py *)
Module BaselineFacts.
Import Shape KB.

Ltac decide_sections :=
  rewrite ?elem_of_cons, ?elem_of_nil; intuition (try discriminate; try congruence).


Lemma check_violation_sections kb text pii_data :
  map v_section (check_violation kb text pii_data)
  = ((if nonempty pii_data && negb (_has_consent_indicators (Py.lower text))
      then ["12"] else [])
     ++ (if nonempty (List.filter (λ item, default false (PII.sensitive item)) pii_data)
            && negb (_has_explicit_consent (Py.lower text))
         then ["13"] else [])
     ++ (if nonempty pii_data && negb (_has_transparency_indicators (Py.lower text))
         then ["16"] else [])
     ++ (if negb (_has_security_measures (Py.lower text)) then ["20"] else []))%list.
Proof.
  unfold check_violation. rewrite !map_app.
  by repeat match goal with |- context [if ?b then _ else _] => destruct b end.
Qed.

Lemma section_fired kb text pii_data n :
  (∃ v, v ∈ check_violation kb text pii_data ∧ v_section v = n)
  ↔ n ∈ map v_section (check_violation kb text pii_data).
Proof.
  rewrite list_elem_of_fmap. split.
  - intros (v & Hin & <-). by exists v.
  - intros (v & -> & Hin). by exists v.
Qed.

(** X8: the baseline reports at most the violations of sections 12, 13,
    16 and 20, in this order.  That of section 20 is there exactly when the
    text, in lower case, contains none of the security keywords, whatever
    was detected: such a text, the empty one included, is never COMPLIANT.
    Without detected items no other violation is possible. *)
Theorem baseline_violation_sections kb now text pii_data :
  map v_section (check_violation kb text pii_data) `sublist_of` ["12"; "13"; "16"; "20"]
  ∧ ((∃ v, v ∈ check_violation kb text pii_data ∧ v_section v = "20")
     ↔ _has_security_measures (Py.lower text) = false)
  ∧ (_has_security_measures (Py.lower text) = false ↔
     compliance_status (get_comprehensive_analysis kb now text [])
     = "NON-COMPLIANT")
  ∧ (_has_security_measures (Py.lower text) = false →
     compliance_status (get_comprehensive_analysis kb now text pii_data)
     = "NON-COMPLIANT")
  ∧ map v_section (check_violation kb text []) `sublist_of` ["20"].
Proof.
  split; [|split; [|split; [|split]]].
  - rewrite check_violation_sections.
    repeat match goal with |- context [if ?b then _ else _] => destruct b end;
      cbn [app]; EvaluatorFacts.sublist_auto.
  - rewrite section_fired, check_violation_sections.
    destruct (_has_security_measures (Py.lower text)); cbn [negb];
      repeat match goal with |- context [if ?b then _ else _] => destruct b end;
      cbn [app]; decide_sections.
  - unfold get_comprehensive_analysis, check_violation.
    cbn [compliance_status nonempty andb List.filter app].
    destruct (_has_security_measures (Py.lower text)); simpl; split; done.
  - intros Hno. unfold get_comprehensive_analysis, check_violation.
    cbn [compliance_status]. rewrite Hno. cbn [negb].
    destruct (nonempty pii_data && _)%bool; destruct (nonempty (List.filter _ _) && _)%bool;
      destruct (nonempty pii_data && _)%bool; reflexivity.
  - rewrite check_violation_sections. cbn [nonempty andb List.filter app].
    destruct (negb _); EvaluatorFacts.sublist_auto.
Qed.

(** X9: the items of the detector carry the key [is_sensitive], never
    the key [sensitive] that the baseline reads; for such items the
    baseline never reports the violation of section 13, and its risk level
    is never CRITICAL. *)
Theorem baseline_ignores_is_sensitive kb now text pii_data :
  Forall (λ item, PII.sensitive item = None) pii_data →
  Forall (λ v, v_section v ≠ "13") (check_violation kb text pii_data)
  ∧ risk_level (get_comprehensive_analysis kb now text pii_data)
    ∈ ["LOW"; "MEDIUM"; "HIGH"].
Proof.
  intros Hnone.
  assert (List.filter (λ item, default false (PII.sensitive item)) pii_data = [])
    as Hfilter.
  { induction Hnone as [|item l Hitem _ IH]; simpl; [done|]. by rewrite Hitem. }
  split.
  - apply Forall_forall. intros v Hin Hsec.
    assert ("13" ∈ map v_section (check_violation kb text pii_data)) as H13.
    { apply section_fired. by exists v. }
    revert H13. rewrite check_violation_sections, Hfilter.
    cbn [nonempty andb app].
    repeat match goal with |- context [if ?b then _ else _] => destruct b end;
      cbn [app]; decide_sections.
  - unfold get_comprehensive_analysis, check_violation. cbn [risk_level].
    rewrite Hfilter. cbn [nonempty andb app].
    destruct (_has_consent_indicators (Py.lower text)),
             (_has_transparency_indicators (Py.lower text)),
             (_has_security_measures (Py.lower text)), (nonempty pii_data);
      cbn; decide_sections.
Qed.

Lemma baseline_ignores_is_sensitive_witness :
  risk_level (get_comprehensive_analysis Samples.kb_titles "2025-01-01T00:00:00"
                Samples.plain_text (replicate 6 Samples.tin))
  ∈ ["LOW"; "MEDIUM"; "HIGH"].
Proof.
  apply (baseline_ignores_is_sensitive Samples.kb_titles "2025-01-01T00:00:00"
           Samples.plain_text (replicate 6 Samples.tin)).
  repeat constructor.
Defined.

Lemma baseline_risk_formula kb now text pii_data :
  risk_level (get_comprehensive_analysis kb now text pii_data)
  = if nonempty (List.filter (λ item, default false (PII.sensitive item)) pii_data)
       && negb (_has_explicit_consent (Py.lower text))
    then "CRITICAL"
    else if (nonempty pii_data && negb (_has_consent_indicators (Py.lower text)))
            && negb (_has_security_measures (Py.lower text))
    then "HIGH"
    else if (nonempty pii_data && negb (_has_consent_indicators (Py.lower text)))
            || negb (_has_security_measures (Py.lower text))
    then "MEDIUM"
    else "LOW".
Proof.
  unfold get_comprehensive_analysis, check_violation. cbn [risk_level].
  destruct (nonempty pii_data && negb (_has_consent_indicators (Py.lower text)))%bool,
           (nonempty (List.filter (λ item, default false (PII.sensitive item)) pii_data)
            && negb (_has_explicit_consent (Py.lower text)))%bool,
           (nonempty pii_data && negb (_has_transparency_indicators (Py.lower text)))%bool,
           (negb (_has_security_measures (Py.lower text)));
    vm_compute; reflexivity.
Qed.

Lemma baseline_risk_in_levels kb now text pii_data :
  risk_level (get_comprehensive_analysis kb now text pii_data)
  ∈ ["LOW"; "MEDIUM"; "HIGH"; "CRITICAL"].
Proof.
  rewrite baseline_risk_formula.
  repeat match goal with |- context [if ?b then _ else _] => destruct b end;
    set_solver.
Qed.

(** X10: the risk level of the baseline is one of the four levels.  It is
    CRITICAL exactly when the violation of section 13 is reported; HIGH
    when it is not and those of sections 12 and 20 both are; MEDIUM when
    exactly one of these two is; LOW otherwise, so also for a report whose
    only violation is that of section 16. *)
Theorem baseline_risk_level kb now text pii_data :
  risk_level (get_comprehensive_analysis kb now text pii_data)
  ∈ ["LOW"; "MEDIUM"; "HIGH"; "CRITICAL"]
  ∧ (risk_level (get_comprehensive_analysis kb now text pii_data) = "CRITICAL"
     ↔ "13" ∈ map v_section (check_violation kb text pii_data))
  ∧ (risk_level (get_comprehensive_analysis kb now text pii_data) = "HIGH"
     ↔ ("13" ∉ map v_section (check_violation kb text pii_data))
       ∧ "12" ∈ map v_section (check_violation kb text pii_data)
       ∧ "20" ∈ map v_section (check_violation kb text pii_data))
  ∧ (risk_level (get_comprehensive_analysis kb now text pii_data) = "MEDIUM"
     ↔ ("13" ∉ map v_section (check_violation kb text pii_data))
       ∧ ("12" ∈ map v_section (check_violation kb text pii_data)
          ↔ ("20" ∉ map v_section (check_violation kb text pii_data))))
  ∧ (risk_level (get_comprehensive_analysis kb now text pii_data) = "LOW"
     ↔ ("12" ∉ map v_section (check_violation kb text pii_data))
       ∧ ("13" ∉ map v_section (check_violation kb text pii_data))
       ∧ ("20" ∉ map v_section (check_violation kb text pii_data))).
Proof.
  rewrite check_violation_sections, baseline_risk_formula.
  destruct (nonempty pii_data && negb (_has_consent_indicators (Py.lower text)))%bool,
           (nonempty (List.filter (λ item, default false (PII.sensitive item)) pii_data)
            && negb (_has_explicit_consent (Py.lower text)))%bool,
           (nonempty pii_data && negb (_has_transparency_indicators (Py.lower text)))%bool,
           (negb (_has_security_measures (Py.lower text)));
    cbn [andb orb app]; (split; [|split; [|split; [|split]]]); decide_sections.
Qed.

End BaselineFacts.

(** ** More on the reconciliation of mistral_analyzer.py *)
Module ReconcileFacts.
Import Shape Mistral.

Lemma index_known x :
  x ∈ risk_levels → ∃ i, Py.index risk_levels x = Ok i ∧ risk_levels !! i = Some x.
Proof.
  unfold risk_levels. rewrite !elem_of_cons, elem_of_nil.
  intros [->|[->|[->|[->|[]]]]]; eexists; split; reflexivity.
Qed.

Lemma index_unknown x :
  x ∉ risk_levels →
  Py.index risk_levels x = Raise (Exn "ValueError" ("'" +:+ x +:+ "' is not in list")).
Proof.
  unfold risk_levels. rewrite !not_elem_of_cons. intros (H1 & H2 & H3 & H4 & _).
  unfold Py.index. cbn [Py.index_from].
  destruct (String.eqb_spec "LOW" x); [congruence|].
  destruct (String.eqb_spec "MEDIUM" x); [congruence|].
  destruct (String.eqb_spec "HIGH" x); [congruence|].
  destruct (String.eqb_spec "CRITICAL" x); [congruence|]. reflexivity.
Qed.

Lemma baseline_index kb now text pii_data :
  ∃ i, Py.index risk_levels
         (risk_level (KB.get_comprehensive_analysis kb now text pii_data)) = Ok i
       ∧ risk_levels !! i
         = Some (risk_level (KB.get_comprehensive_analysis kb now text pii_data)).
Proof.
  apply index_known.
  apply BaselineFacts.baseline_risk_in_levels.
Qed.

(** X11: for a secondary result of the form the prompt asks for (its
    violations and recommendations are lists of dictionaries whose
    [section], [violation_type] and [action] are strings or missing), the
    reconciliation with the engine's baseline gets through both merge
    loops, and its outcome is then decided by the risk assessment.  A list
    in its place raises AttributeError; an overall risk that is not one of
    the four levels raises ValueError; a missing or empty overall risk
    leaves the baseline's risk level; one of the four levels gives the
    higher of the two. *)
Theorem reconcile_outcome kb now text pii_data ai_analysis :
  match default empty_risk (ai_risk ai_analysis) with
  | RiskList =>
      _combine_analyses (KB.get_comprehensive_analysis kb now text pii_data) ai_analysis
      = Raise (Exn "AttributeError" "'list' object has no attribute 'get'")
  | RiskDict overall_risk _ _ =>
      if truthy overall_risk then
        (default "" overall_risk ∈ risk_levels →
         ∃ combined i j,
           _combine_analyses (KB.get_comprehensive_analysis kb now text pii_data)
                             ai_analysis = Ok combined
           ∧ risk_levels !! i
             = Some (risk_level (KB.get_comprehensive_analysis kb now text pii_data))
           ∧ risk_levels !! j = overall_risk
           ∧ risk_levels !! Nat.max i j = Some (risk_level combined)
           ∧ ai_risk_level combined = overall_risk)
        ∧ (default "" overall_risk ∉ risk_levels →
           _combine_analyses (KB.get_comprehensive_analysis kb now text pii_data)
                             ai_analysis
           = Raise (Exn "ValueError"
                        ("'" +:+ default "" overall_risk +:+ "' is not in list")))
      else
        ∃ combined,
          _combine_analyses (KB.get_comprehensive_analysis kb now text pii_data)
                            ai_analysis = Ok combined
          ∧ risk_level combined
            = risk_level (KB.get_comprehensive_analysis kb now text pii_data)
          ∧ ai_risk_level combined = None
  end.
Proof.
  destruct (baseline_index kb now text pii_data) as (i & Hi & Hlevel).
  unfold _combine_analyses.
  destruct (default empty_risk (ai_risk ai_analysis)) as [overall_risk factors priority|];
    [|reflexivity].
  cbn [get_overall_risk mbind result_bind].
  destruct (truthy overall_risk) eqn:Htruthy.
  - destruct overall_risk as [level|]; [|discriminate]. cbn [default id]. split.
    + intros (j & Hj & Hlevel')%index_known.
      unfold higher_risk. rewrite Hi, Hj. cbn [mbind result_bind].
      assert (i < 4 ∧ j < 4)%nat as [Hi4 Hj4].
      { apply lookup_lt_Some in Hlevel, Hlevel'. simpl in *. lia. }
      destruct (risk_levels !! Nat.max i j) as [top|] eqn:Htop.
      * cbn [mbind result_bind fst snd]. eexists _, i, j.
        split; [reflexivity|]. by cbn [risk_level ai_risk_level].
      * apply lookup_ge_None in Htop. simpl in Htop. lia.
    + intros Hunknown. unfold higher_risk. rewrite Hi.
      cbn [mbind result_bind]. by rewrite (index_unknown _ Hunknown).
  - cbn [mbind result_bind fst snd]. eexists. split; [reflexivity|].
    split; [reflexivity|].
    cbn [ai_risk_level KB.get_comprehensive_analysis]. reflexivity.
Qed.

Lemma is_duplicate_recommendation_iff ai_rec recommendations :
  _is_duplicate_recommendation ai_rec recommendations = true
  ↔ ∃ b, b ∈ recommendations
         ∧ overlap (Py.lower (default "" (ar_action ai_rec))) (Py.lower (r_action b)) = true.
Proof.
  unfold _is_duplicate_recommendation. rewrite existsb_exists.
  by setoid_rewrite list_elem_of_In.
Qed.

Lemma merge_recommendations_kept baseline ai_recommendations :
  ∃ kept, kept `sublist_of` ai_recommendations
          ∧ merge_recommendations baseline ai_recommendations
            = (baseline ++ map standard_rec kept)%list.
Proof.
  revert baseline.
  induction ai_recommendations as [|a rest IH]; intros baseline.
  - exists []. split; [done|]. simpl. by rewrite app_nil_r.
  - unfold merge_recommendations. simpl.
    destruct (_is_duplicate_recommendation a baseline).
    + destruct (IH baseline) as (kept & Hsub & Heq).
      exists kept. split; [by apply sublist_cons | exact Heq].
    + destruct (IH (baseline ++ [standard_rec a])%list) as (kept & Hsub & Heq).
      exists (a :: kept). split; [by apply sublist_skip|].
      unfold merge_recommendations in Heq. rewrite Heq. simpl.
      by rewrite <- app_assoc.
Qed.

(** X12: the merge of the recommendations never drops, changes or
    reorders a baseline recommendation: the merged list is the baseline
    followed by some of the secondary recommendations, in their order and
    tagged [mistral_ai].  A secondary recommendation is left out exactly
    when its action, in lower case, is a substring of, or contains, the
    action of a recommendation the merged list holds by then. *)
Theorem merge_recommendations_dedup baseline earlier ai_rec later :
  (∃ kept, kept `sublist_of` (earlier ++ ai_rec :: later)%list
           ∧ merge_recommendations baseline (earlier ++ ai_rec :: later)
             = (baseline ++ map standard_rec kept)%list)
  ∧ r_source (standard_rec ai_rec) = Some "mistral_ai"
  ∧ ((∃ b, b ∈ merge_recommendations baseline earlier
           ∧ overlap (Py.lower (default "" (ar_action ai_rec)))
                     (Py.lower (r_action b)) = true)
     ↔ merge_recommendations baseline (earlier ++ [ai_rec])
       = merge_recommendations baseline earlier)
  ∧ ((¬ ∃ b, b ∈ merge_recommendations baseline earlier
             ∧ overlap (Py.lower (default "" (ar_action ai_rec)))
                       (Py.lower (r_action b)) = true)
     ↔ merge_recommendations baseline (earlier ++ [ai_rec])
       = (merge_recommendations baseline earlier ++ [standard_rec ai_rec])%list).
Proof.
  split; [apply merge_recommendations_kept|]. split; [reflexivity|].
  rewrite <- is_duplicate_recommendation_iff.
  assert (merge_recommendations baseline (earlier ++ [ai_rec])
          = if _is_duplicate_recommendation ai_rec (merge_recommendations baseline earlier)
            then merge_recommendations baseline earlier
            else (merge_recommendations baseline earlier ++ [standard_rec ai_rec])%list)
    as ->.
  { unfold merge_recommendations. by rewrite fold_left_app. }
  assert (∀ (l : list Recommendation) x, (l ++ [x])%list ≠ l) as Hgrow.
  { intros l x Heq. apply (f_equal length) in Heq.
    rewrite length_app in Heq. simpl in Heq. lia. }
  destruct (_is_duplicate_recommendation ai_rec (merge_recommendations baseline earlier)).
  - repeat split; try done.
    intros Heq. symmetry in Heq. by apply Hgrow in Heq.
  - repeat split; try done.
    intros Heq. by apply Hgrow in Heq.
Qed.

Lemma contains_empty s : Py.contains "" s = true.
Proof. by destruct s. Qed.

Lemma blank_lower o : o = None ∨ o = Some "" → Py.lower (default "" o) = "".
Proof. by intros [->| ->]. Qed.

End ReconcileFacts.

(** ** Parsing the answer of the external model *)
Module ClientFacts.
Import Shape MistralClient.

Lemma combine_unfold baseline_analysis ai_analysis overall_risk factors priority :
  default Mistral.empty_risk (Mistral.ai_risk ai_analysis)
  = RiskDict overall_risk factors priority →
  Mistral.truthy overall_risk = false →
  ∃ combined,
    Mistral._combine_analyses baseline_analysis ai_analysis = Ok combined
    ∧ violations combined
      = Mistral.merge_violations (violations baseline_analysis)
          (default [] (Mistral.ai_violations ai_analysis))
    ∧ recommendations combined
      = Mistral.merge_recommendations (recommendations baseline_analysis)
          (default [] (Mistral.ai_recommendations ai_analysis))
    ∧ risk_level combined = risk_level baseline_analysis
    ∧ compliance_status combined
      = (if KB.nonempty (violations combined) then "NON-COMPLIANT"
         else compliance_status baseline_analysis)
    ∧ ai_insights combined
      = Some (default Mistral.empty_insights (Mistral.ai_insights_ ai_analysis)).
Proof.
  intros Hrisk Htruthy. unfold Mistral._combine_analyses. rewrite Hrisk.
  cbn [Mistral.get_overall_risk mbind result_bind]. rewrite Htruthy.
  cbn [mbind result_bind fst snd]. eexists. by repeat split.
Qed.

(** X13: when the call of the external model fails, the reconciliation
    changes nothing the baseline found: for every baseline report the
    merged report has the same violations, recommendations and risk level,
    and empty insights; its status is that of the baseline whenever this is
    NON-COMPLIANT or the baseline lists no violation. *)
Theorem failed_call_keeps_baseline baseline_analysis e :
  ∃ combined,
    Mistral._combine_analyses baseline_analysis (failed_call e) = Ok combined
    ∧ violations combined = violations baseline_analysis
    ∧ recommendations combined = recommendations baseline_analysis
    ∧ risk_level combined = risk_level baseline_analysis
    ∧ ai_risk_level combined = ai_risk_level baseline_analysis
    ∧ ai_insights combined = Some (InsightsDict None None None [])
    ∧ ((compliance_status baseline_analysis = "NON-COMPLIANT"
        ∨ violations baseline_analysis = []) →
       compliance_status combined = compliance_status baseline_analysis).
Proof.
  eexists. split; [reflexivity|].
  cbn [violations recommendations risk_level ai_risk_level ai_insights
       compliance_status failed_call Mistral.ai_violations Mistral.ai_recommendations
       Mistral.ai_insights_ default id Mistral.merge_violations
       Mistral.merge_recommendations fold_left fst snd].
  repeat split.
  intros [Hnc| ->]; [|reflexivity].
  rewrite Hnc. by destruct (KB.nonempty _).
Qed.

Lemma rfind_from_bound c s i last :
  (-1 ≤ last)%Z → (0 ≤ i)%Z → (-1 ≤ Py.rfind_from c s i last)%Z.
Proof.
  revert i last. induction s as [|x s IH]; intros i last Hlast Hi; simpl; [done|].
  apply IH; [|lia]. destruct (Ascii.eqb x c); lia.
Qed.

(** X14: an answer without an opening brace always gets the fallback
    answer, with no violations, no recommendations and the overall risk
    MEDIUM, whatever [json.loads] would do with it; so does an answer on
    whose braces [json.loads] raises JSONDecodeError.  Parsing fails only
    with an exception of [json.loads] that is no JSONDecodeError, and every
    answer it returns has the four keys the reconciliation reads. *)
Theorem parse_ai_response_keys json_loads ai_response :
  (Py.find ai_response "{" = (-1)%Z →
   _parse_ai_response json_loads ai_response = Ok (_fallback_parse ai_response))
  ∧ (∀ e, json_loads (Py.slice (Py.find ai_response "{") (Py.rfind ai_response "}" + 1)
                               ai_response) = Raise e →
          exn_class e = "JSONDecodeError" →
          _parse_ai_response json_loads ai_response = Ok (_fallback_parse ai_response))
  ∧ (Mistral.ai_violations (analysis (_fallback_parse ai_response)) = Some []
     ∧ Mistral.ai_recommendations (analysis (_fallback_parse ai_response)) = Some []
     ∧ (∃ factors priority,
           Mistral.ai_risk (analysis (_fallback_parse ai_response))
           = Some (RiskDict (Some "MEDIUM") factors priority))
     ∧ raw_response (_fallback_parse ai_response) = Some ai_response)
  ∧ (∀ e, _parse_ai_response json_loads ai_response = Raise e →
          Py.find ai_response "{" ≠ (-1)%Z
          ∧ json_loads (Py.slice (Py.find ai_response "{") (Py.rfind ai_response "}" + 1)
                                 ai_response) = Raise e
          ∧ exn_class e ≠ "JSONDecodeError")
  ∧ (∀ parsed, _parse_ai_response json_loads ai_response = Ok parsed →
               is_Some (Mistral.ai_violations (analysis parsed))
               ∧ is_Some (Mistral.ai_recommendations (analysis parsed))
               ∧ is_Some (Mistral.ai_risk (analysis parsed))
               ∧ is_Some (Mistral.ai_insights_ (analysis parsed))).
Proof.
  assert (is_Some (Mistral.ai_violations (analysis (_fallback_parse ai_response)))
          ∧ is_Some (Mistral.ai_recommendations (analysis (_fallback_parse ai_response)))
          ∧ is_Some (Mistral.ai_risk (analysis (_fallback_parse ai_response)))
          ∧ is_Some (Mistral.ai_insights_ (analysis (_fallback_parse ai_response))))
    as Hfallback.
  { split; [by eexists|]. split; [by eexists|]. split; by eexists. }
  unfold _parse_ai_response.
  assert (negb (Py.rfind ai_response "}" + 1 =? -1)%Z = true) as ->.
  { apply negb_true_iff, Z.eqb_neq.
    pose proof (rfind_from_bound "}" ai_response 0 (-1)). unfold Py.rfind. lia. }
  rewrite andb_true_r.
  destruct (Z.eqb_spec (Py.find ai_response "{") (-1)) as [Hnone|Hsome]; cbn [negb].
  - split; [done|]. split; [done|].
    split; [split; [done|]; split; [done|]; split; [by eexists _, _ | done]|].
    split; [discriminate|]. by intros parsed [= <-].
  - split; [done|]. split.
    { intros e -> ->. reflexivity. }
    split; [split; [done|]; split; [done|]; split; [by eexists _, _ | done]|].
    destruct (json_loads _) as [answer|e0].
    + split; [discriminate|]. intros parsed [= <-].
      cbn [analysis validate Mistral.ai_violations Mistral.ai_recommendations
           Mistral.ai_risk Mistral.ai_insights_].
      split; [by eexists|]. split; [by eexists|]. split; by eexists.
    + destruct (String.eqb_spec (exn_class e0) "JSONDecodeError") as [Hclass|Hclass].
      * split; [discriminate|]. by intros parsed [= <-].
      * split; [|discriminate]. intros e [= <-]. by repeat split.
Qed.

Example parse_ai_response_prose :
  _parse_ai_response MoreSamples.bare_json "I cannot answer that."
  = Ok (_fallback_parse "I cannot answer that.")
  ∧ _parse_ai_response MoreSamples.no_json "{ not json }"
    = Ok (_fallback_parse "{ not json }").
Proof. by vm_compute. Qed.

(** X15: an answer that cannot be parsed raises the risk of a clean
    document: merged with the fallback answer, the engine's baseline keeps
    its violations and their status, and its risk level becomes MEDIUM when
    it was LOW and stays what it was otherwise. *)
Theorem unparsable_answer_risk kb now text pii_data ai_response :
  ∃ combined,
    Mistral._combine_analyses (KB.get_comprehensive_analysis kb now text pii_data)
                              (analysis (_fallback_parse ai_response)) = Ok combined
    ∧ violations combined = KB.check_violation kb text pii_data
    ∧ compliance_status combined
      = compliance_status (KB.get_comprehensive_analysis kb now text pii_data)
    ∧ risk_level combined
      = (if String.eqb (risk_level (KB.get_comprehensive_analysis kb now text pii_data))
                       "LOW"
         then "MEDIUM"
         else risk_level (KB.get_comprehensive_analysis kb now text pii_data))
    ∧ ai_risk_level combined = Some "MEDIUM".
Proof.
  pose proof (BaselineFacts.baseline_risk_in_levels kb now text pii_data) as Hlevels.
  assert (∃ level,
            Mistral.higher_risk
              (risk_level (KB.get_comprehensive_analysis kb now text pii_data)) "MEDIUM"
            = Ok level
            ∧ level = (if String.eqb (risk_level (KB.get_comprehensive_analysis kb now
                                                    text pii_data)) "LOW"
                       then "MEDIUM"
                       else risk_level (KB.get_comprehensive_analysis kb now text
                                          pii_data))) as (level & Hhigher & Hlevel).
  { revert Hlevels. rewrite !elem_of_cons, elem_of_nil.
    intros [->|[->|[->|[->|[]]]]]; eexists; split; reflexivity. }
  destruct (MistralFacts.combine_ok
              (KB.get_comprehensive_analysis kb now text pii_data)
              (analysis (_fallback_parse ai_response)) "MEDIUM"
              ["AI parsing error"] (Some "immediate") level eq_refl eq_refl Hhigher)
    as (combined & Hok & Hrisk & Hai).
  exists combined. split; [exact Hok|].
  destruct (MistralFacts.combine_status _ _ _ Hok) as [Hv Hs].
  cbn [analysis _fallback_parse Mistral.ai_violations default id
       Mistral.merge_violations fold_left] in Hv.
  repeat split.
  - exact Hv.
  - rewrite Hs, Hv. unfold KB.get_comprehensive_analysis.
    cbn [violations compliance_status].
    destruct (KB.nonempty (KB.check_violation kb text pii_data)); reflexivity.
  - by rewrite Hrisk.
  - exact Hai.
Qed.

(** X16: an answer that is a JSON object without the key
    [ai_risk_assessment] gets the empty list in its place, and the
    reconciliation with it raises AttributeError, whatever the baseline. *)
Theorem missing_risk_key_raises json_loads ai_response answer baseline_analysis :
  Py.find ai_response "{" ≠ (-1)%Z →
  json_loads (Py.slice (Py.find ai_response "{") (Py.rfind ai_response "}" + 1)
                       ai_response) = Ok answer →
  Mistral.ai_risk answer = None →
  ∃ parsed,
    _parse_ai_response json_loads ai_response = Ok parsed
    ∧ Mistral.ai_risk (analysis parsed) = Some RiskList
    ∧ Mistral._combine_analyses baseline_analysis (analysis parsed)
      = Raise (Exn "AttributeError" "'list' object has no attribute 'get'").
Proof.
  intros Hstart Hloads Hrisk. unfold _parse_ai_response.
  assert (negb (Py.find ai_response "{" =? -1)%Z = true) as ->.
  { apply negb_true_iff, Z.eqb_neq. exact Hstart. }
  assert (negb (Py.rfind ai_response "}" + 1 =? -1)%Z = true) as ->.
  { apply negb_true_iff, Z.eqb_neq.
    pose proof (rfind_from_bound "}" ai_response 0 (-1)). unfold Py.rfind. lia. }
  cbn [andb]. rewrite Hloads. eexists. split; [reflexivity|].
  cbn [analysis validate Mistral.ai_risk]. rewrite Hrisk. split; [reflexivity|].
  unfold Mistral._combine_analyses.
  cbn [validate Mistral.ai_risk]. rewrite Hrisk. reflexivity.
Qed.

Lemma missing_risk_key_raises_witness :
  ∃ parsed,
    _parse_ai_response MoreSamples.bare_json "{}" = Ok parsed
    ∧ Mistral.ai_risk (analysis parsed) = Some RiskList
    ∧ Mistral._combine_analyses MoreSamples.baseline (analysis parsed)
      = Raise (Exn "AttributeError" "'list' object has no attribute 'get'").
Proof.
  apply (missing_risk_key_raises MoreSamples.bare_json "{}"
           {| Mistral.ai_violations := Some []; Mistral.ai_recommendations := Some [];
              Mistral.ai_risk := None; Mistral.ai_insights_ := None;
              Mistral.ai_error := None |}
           MoreSamples.baseline).
  - vm_compute. discriminate.
  - reflexivity.
  - reflexivity.
Defined.

End ClientFacts.

(** ** Missing keys, and the analysis that never fails its caller *)
Module DegradationFacts.
Import Shape Mistral.

Lemma overlap_empty s : overlap "" s = true.
Proof. unfold overlap. by rewrite ReconcileFacts.contains_empty. Qed.

(** X17: a missing or empty key of a secondary finding matches
    everything.  A secondary violation with neither section nor
    violation_type is a duplicate of any violation, so it is appended only
    to an empty list; so is a secondary recommendation without action. *)
Theorem blank_keys_match_everything ai_violation ai_rec
        (violations : list Violation) (recommendations : list Recommendation) :
  (av_section ai_violation = None ∨ av_section ai_violation = Some "") →
  (av_violation_type ai_violation = None ∨ av_violation_type ai_violation = Some "") →
  (ar_action ai_rec = None ∨ ar_action ai_rec = Some "") →
  (_is_duplicate_violation ai_violation violations
   = match violations with [] => false | _ :: _ => true end)
  ∧ (merge_violations violations [ai_violation]
     = match violations with
       | [] => [standard_violation ai_violation]
       | _ :: _ => violations
       end)
  ∧ (_is_duplicate_recommendation ai_rec recommendations
     = match recommendations with [] => false | _ :: _ => true end)
  ∧ (merge_recommendations recommendations [ai_rec]
     = match recommendations with
       | [] => [standard_rec ai_rec]
       | _ :: _ => recommendations
       end).
Proof.
  intros Hsection Htype Haction.
  assert (_is_duplicate_violation ai_violation violations
          = match violations with [] => false | _ :: _ => true end) as Hv.
  { unfold _is_duplicate_violation, same_finding.
    rewrite (ReconcileFacts.blank_lower _ Hsection), (ReconcileFacts.blank_lower _ Htype).
    destruct violations as [|b rest]; [reflexivity|].
    cbn [existsb]. by rewrite !overlap_empty. }
  assert (_is_duplicate_recommendation ai_rec recommendations
          = match recommendations with [] => false | _ :: _ => true end) as Hr.
  { unfold _is_duplicate_recommendation.
    rewrite (ReconcileFacts.blank_lower _ Haction).
    destruct recommendations as [|b rest]; [reflexivity|].
    cbn [existsb]. by rewrite overlap_empty. }
  split; [exact Hv|]. split.
  - unfold merge_violations. cbn [fold_left]. rewrite Hv.
    by destruct violations.
  - split; [exact Hr|].
    unfold merge_recommendations. cbn [fold_left]. rewrite Hr.
    by destruct recommendations.
Qed.

Lemma blank_keys_match_everything_witness :
  merge_violations (violations MoreSamples.baseline)
    [{| av_section := None; av_violation_type := None; av_severity := Some "CRITICAL";
        av_description := Some "Data was sold"; av_legal_basis := None;
        av_confidence := None |}]
  = violations MoreSamples.baseline.
Proof.
  destruct (blank_keys_match_everything
              {| av_section := None; av_violation_type := None;
                 av_severity := Some "CRITICAL";
                 av_description := Some "Data was sold"; av_legal_basis := None;
                 av_confidence := None |}
              {| ar_priority := None; ar_action := None; ar_description := None;
                 ar_section_reference := None; ar_implementation := None |}
              (violations MoreSamples.baseline) (recommendations MoreSamples.baseline)
              (or_introl eq_refl) (or_introl eq_refl) (or_introl eq_refl))
    as (_ & Hmerge & _).
  exact Hmerge.
Defined.

(** X18: once the items are detected, [analyze_document] always returns
    a report.  Without the enhancement, or when the enhanced analysis
    raises, it is the rule-based report of the text; otherwise it is the
    enhanced report, with the categorized items and the indicators of the
    text added. *)
Theorem analyze_document_degrades w kb use_ai_enhancement text document_name
        pii_results :
  detect_pii w text = Ok pii_results →
  ∃ a,
    Checker.analyze_document w kb use_ai_enhancement text document_name = Ok a
    ∧ match a with
      | Checker.Traditional t =>
          t = Checker._traditional_analysis kb (now w) text document_name
                (PII.categorize_pii pii_results)
                (PII.detect_consent_indicators text)
                (PII.detect_purpose_statements text)
          ∧ (use_ai_enhancement = false
             ∨ ∃ e, analyze_document_with_ai w kb text pii_results document_name None
                    = Raise e)
      | Checker.Enhanced r =>
          use_ai_enhancement = true
          ∧ ∃ r0, analyze_document_with_ai w kb text pii_results document_name None
                  = Ok r0
                  ∧ violations r = violations r0
                  ∧ recommendations r = recommendations r0
                  ∧ risk_level r = risk_level r0
                  ∧ compliance_status r = compliance_status r0
                  ∧ pii_summary r = Some (PII.categorize_pii pii_results)
                  ∧ consent_indicators r = Some (PII.detect_consent_indicators text)
                  ∧ purpose_indicators r = Some (PII.detect_purpose_statements text)
      end.
Proof.
  intros Hdetect. unfold Checker.analyze_document. rewrite Hdetect.
  cbn [mbind result_bind].
  destruct use_ai_enhancement.
  - destruct (analyze_document_with_ai w kb text pii_results document_name None)
      as [r0|e] eqn:Hai.
    + eexists. split; [reflexivity|]. split; [reflexivity|].
      exists r0. by repeat split.
    + eexists. split; [reflexivity|]. split; [reflexivity|]. right. by exists e.
  - eexists. split; [reflexivity|]. split; [reflexivity|]. by left.
Qed.

Lemma analyze_document_degrades_witness :
  ∃ a,
    Checker.analyze_document
      (Samples.world {| ai_violations := Some []; ai_recommendations := Some [];
                        ai_risk := Some RiskList; ai_insights_ := None;
                        ai_error := None |})
      Samples.kb_titles true Samples.plain_text "Form" = Ok a
    ∧ ∃ t, a = Checker.Traditional t.
Proof.
  destruct (analyze_document_degrades
              (Samples.world {| ai_violations := Some []; ai_recommendations := Some [];
                                ai_risk := Some RiskList; ai_insights_ := None;
                                ai_error := None |})
              Samples.kb_titles true Samples.plain_text "Form" [Samples.person] eq_refl)
    as (a & Hrun & Hshape).
  exists a. split; [exact Hrun|].
  destruct a as [r|t]; [|by exists t].
  destruct Hshape as (_ & r0 & Hok & _). vm_compute in Hok. discriminate.
Defined.

(** X19: every report of [analyze_image_document], the error report
    included, names the document, carries the categorized items and an
    extracted text, and has a status among COMPLIANT, NON-COMPLIANT and
    ERROR; the status is ERROR exactly when the analysis raised. *)
Theorem image_report_fields w kb image_path document_name :
  Shape.document_name (analyze_image_document w kb image_path document_name)
  = Some document_name
  ∧ is_Some (pii_summary (analyze_image_document w kb image_path document_name))
  ∧ is_Some (extracted_text (analyze_image_document w kb image_path document_name))
  ∧ compliance_status (analyze_image_document w kb image_path document_name)
    ∈ ["COMPLIANT"; "NON-COMPLIANT"; "ERROR"]
  ∧ (compliance_status (analyze_image_document w kb image_path document_name) = "ERROR"
     ↔ ∃ e, image_analysis w kb image_path document_name = Raise e).
Proof.
  unfold analyze_image_document.
  destruct (image_analysis w kb image_path document_name) as [r|e] eqn:Hrun.
  - unfold image_analysis in Hrun.
    destruct (_extract_text_from_image w image_path) as [text|?]; [|discriminate].
    cbn [mbind result_bind] in Hrun.
    destruct (detect_pii w text) as [items|?]; [|discriminate].
    cbn [mbind result_bind] in Hrun.
    destruct (analyze_document_with_ai w kb text items document_name (Some image_path))
      as [r0|?] eqn:Hai; [|discriminate].
    cbn [mbind result_bind] in Hrun. injection Hrun as <-.
    pose proof (EngineFacts.reconciled_status _ _ _ _ _ _ _ Hai) as Hstatus.
    assert (Shape.document_name r0 = Some document_name) as Hname.
    { unfold analyze_document_with_ai in Hai. cbn zeta beta iota in Hai.
      destruct (_combine_analyses _ _); [|discriminate].
      cbn [mbind result_bind] in Hai. by injection Hai as <-. }
    cbn [Shape.document_name pii_summary extracted_text compliance_status].
    split; [exact Hname|]. split; [by destruct (pii_summary r0); eexists|].
    split; [by eexists|]. rewrite Hstatus.
    destruct (KB.nonempty (violations r0)).
    + split; [set_solver|]. split; [discriminate | by intros [? ?]].
    + split; [set_solver|]. split; [discriminate | by intros [? ?]].
  - cbn. split; [done|]. split; [by eexists|]. split; [by eexists|].
    split; [set_solver|]. split; [by exists e | done].
Qed.

End DegradationFacts.

(** ** The summaries *)
Module SummaryFacts.
Import Shape Summaries.

Lemma baseline_sources kb text pii_data :
  Forall (λ v, v_source v = None) (KB.check_violation kb text pii_data).
Proof.
  unfold KB.check_violation. rewrite !Forall_app.
  repeat split;
    match goal with |- context [if ?b then _ else _] => destruct b end;
    by repeat constructor.
Qed.

Lemma baseline_recommendation_sources violations pii_data :
  Forall (λ x, r_source x = None) (KB.generate_recommendations violations pii_data).
Proof.
  unfold KB.generate_recommendations. rewrite !Forall_app.
  repeat split;
    match goal with |- context [if ?b then _ else _] => destruct b end;
    by repeat constructor.
Qed.

Lemma count_from_ai_violations baseline kept :
  Forall (λ v, v_source v = None) baseline →
  List.filter (λ v, from_ai (v_source v))
              (baseline ++ map Mistral.standard_violation kept)%list
  = map Mistral.standard_violation kept.
Proof.
  intros Hbase. rewrite List.filter_app.
  assert (List.filter (λ v, from_ai (v_source v)) baseline = []) as ->.
  { induction Hbase as [|v l Hv _ IH]; simpl; [done|]. by rewrite Hv. }
  induction kept as [|a kept IH]; simpl; [done|]. by f_equal.
Qed.

Lemma count_from_ai_recommendations baseline kept :
  Forall (λ x, r_source x = None) baseline →
  List.filter (λ x, from_ai (r_source x))
              (baseline ++ map Mistral.standard_rec kept)%list
  = map Mistral.standard_rec kept.
Proof.
  intros Hbase. rewrite List.filter_app.
  assert (List.filter (λ x, from_ai (r_source x)) baseline = []) as ->.
  { induction Hbase as [|v l Hv _ IH]; simpl; [done|]. by rewrite Hv. }
  induction kept as [|a kept IH]; simpl; [done|]. by f_equal.
Qed.

(** The lists of an enhanced report: the baseline's, then what the merge
    kept of the secondary result. *)
Lemma enhanced_lists w kb text pii_data document_name image_path r :
  Mistral.analyze_document_with_ai w kb text pii_data document_name image_path = Ok r →
  (∃ kept, violations r
           = (KB.check_violation kb text pii_data
              ++ map Mistral.standard_violation kept)%list)
  ∧ (∃ kept, recommendations r
             = (KB.generate_recommendations (KB.check_violation kb text pii_data) pii_data
                ++ map Mistral.standard_rec kept)%list)
  ∧ is_Some (ai_insights r).
Proof.
  unfold Mistral.analyze_document_with_ai.
  destruct image_path as [path|]; cbn zeta beta iota;
    (destruct (Mistral._combine_analyses _ _) as [combined|e] eqn:Hc; [|discriminate]);
    cbn [mbind result_bind]; intros [= <-];
    cbn [violations recommendations ai_insights];
    unfold Mistral._combine_analyses in Hc;
    (destruct (Mistral.get_overall_risk _) as [overall|?]; [|discriminate]);
    cbn [mbind result_bind] in Hc;
    (destruct (if Mistral.truthy overall then _ else _) as [risk|?]; [|discriminate]);
    cbn [mbind result_bind] in Hc; injection Hc as <-;
    cbn [violations recommendations ai_insights KB.get_comprehensive_analysis];
    (split; [|split; [|by eexists]]).
  - destruct (MistralFacts.merge_violations_kept (KB.check_violation kb text pii_data)
                (default [] (Mistral.ai_violations
                               (Mistral._get_mistral_image_analysis w path text pii_data))))
      as (kept & _ & ->). by exists kept.
  - destruct (ReconcileFacts.merge_recommendations_kept
                (KB.generate_recommendations (KB.check_violation kb text pii_data)
                                             pii_data)
                (default [] (Mistral.ai_recommendations
                               (Mistral._get_mistral_image_analysis w path text pii_data))))
      as (kept & _ & ->). by exists kept.
  - destruct (MistralFacts.merge_violations_kept (KB.check_violation kb text pii_data)
                (default [] (Mistral.ai_violations
                               (Mistral._get_mistral_text_analysis w text pii_data))))
      as (kept & _ & ->). by exists kept.
  - destruct (ReconcileFacts.merge_recommendations_kept
                (KB.generate_recommendations (KB.check_violation kb text pii_data)
                                             pii_data)
                (default [] (Mistral.ai_recommendations
                               (Mistral._get_mistral_text_analysis w text pii_data))))
      as (kept & _ & ->). by exists kept.
Qed.

(** X20: in the summary of an enhanced report the violations counted as
    found by the model are exactly those the merge added to the baseline:
    the total is the number of baseline violations plus that count, and so
    for the recommendations.  The summary is marked AI-Enhanced and shows
    at most three issues and three recommendations. *)
Theorem enhanced_summary_counts w kb text pii_data document_name image_path r s :
  Mistral.analyze_document_with_ai w kb text pii_data document_name image_path = Ok r →
  generate_summary (Checker.Enhanced r) = Ok s →
  analysis_type s = "AI-Enhanced"
  ∧ total_violations s = length (violations r)
  ∧ (length (key_issues s) ≤ 3)%nat
  ∧ (length (top_recommendations s) ≤ 3)%nat
  ∧ ∃ part,
      ai_part s = Some part
      ∧ total_violations s
        = (length (KB.check_violation kb text pii_data) + ai_detected_violations part)%nat
      ∧ length (recommendations r)
        = (length (KB.generate_recommendations (KB.check_violation kb text pii_data)
                                               pii_data)
           + ai_recommendations part)%nat.
Proof.
  intros Hrun Hsum.
  destruct (enhanced_lists _ _ _ _ _ _ _ Hrun) as ((kv & Hv) & (kr & Hr) & [i Hi]).
  unfold generate_summary in Hsum. rewrite Hi in Hsum.
  destruct (insights_dict i) as [fields|?]; [|discriminate].
  cbn [mbind result_bind] in Hsum. injection Hsum as <-.
  cbn [analysis_type total_violations key_issues top_recommendations ai_part].
  split; [done|]. split; [done|].
  split; [rewrite length_map, length_take; apply Nat.le_min_l|].
  split; [rewrite length_map, length_take; apply Nat.le_min_l|].
  eexists. split; [reflexivity|].
  cbn [ai_detected_violations ai_recommendations].
  rewrite Hv, Hr.
  rewrite (count_from_ai_violations _ _ (baseline_sources kb text pii_data)).
  rewrite (count_from_ai_recommendations _ _
             (baseline_recommendation_sources _ pii_data)).
  by rewrite !length_app.
Qed.

Lemma enhanced_summary_counts_witness :
  ∃ r s,
    Mistral.analyze_document_with_ai
      (Samples.world (Samples.answer [Samples.accountability; Samples.accountability]
                                     "HIGH"))
      Samples.kb_titles Samples.plain_text [Samples.person] "Form" None = Ok r
    ∧ generate_summary (Checker.Enhanced r) = Ok s
    ∧ analysis_type s = "AI-Enhanced"
    ∧ total_violations s = 4.
Proof.
  destruct (Mistral.analyze_document_with_ai
              (Samples.world (Samples.answer
                                [Samples.accountability; Samples.accountability] "HIGH"))
              Samples.kb_titles Samples.plain_text [Samples.person] "Form" None)
    as [r|e] eqn:Hrun; [|vm_compute in Hrun; discriminate].
  destruct (generate_summary (Checker.Enhanced r)) as [s|e] eqn:Hsum.
  - exists r, s. split; [reflexivity|]. split; [exact Hsum|].
    destruct (enhanced_summary_counts _ _ _ _ _ _ _ _ Hrun Hsum) as (Hty & Htotal & _).
    split; [exact Hty|]. rewrite Htotal.
    vm_compute in Hrun. injection Hrun as <-. reflexivity.
  - exfalso. vm_compute in Hrun. injection Hrun as <-.
    vm_compute in Hsum. discriminate.
Defined.

(** X21: [generate_summary] fails exactly when the report holds under
    [ai_insights] something that is not a dictionary: the list that
    [_parse_ai_response] stores for a missing key, or a [null], a string, a
    number or a boolean of the answer; the error is an AttributeError.  An
    enhanced report with a dictionary there has a summary marked
    AI-Enhanced; the summary of a rule-based report is always there and
    marked Traditional. *)
Theorem summary_failure a :
  ((∃ e, generate_summary a = Raise e)
   ↔ ∃ r, a = Checker.Enhanced r
          ∧ (ai_insights r = Some InsightsList
             ∨ ∃ type_name, ai_insights r = Some (InsightsOther type_name)))
  ∧ (∀ e, generate_summary a = Raise e → exn_class e = "AttributeError")
  ∧ (∀ r document_type processing_purpose data_flow compliance_gaps,
        a = Checker.Enhanced r →
        ai_insights r = Some (InsightsDict document_type processing_purpose data_flow
                                           compliance_gaps) →
        ∃ s, generate_summary a = Ok s
             ∧ analysis_type s = "AI-Enhanced"
             ∧ total_violations s = length (violations r))
  ∧ (∀ t, a = Checker.Traditional t →
          ∃ s, generate_summary a = Ok s
               ∧ analysis_type s = "Traditional"
               ∧ ai_part s = None
               ∧ total_violations s = length (Checker.violations t)).
Proof.
  destruct a as [r|t].
  - unfold generate_summary.
    destruct (ai_insights r) as [[dt pp df gaps| |type_name]|] eqn:Hi;
      cbn [insights_dict mbind result_bind].
    + split; [|split; [|split]].
      * split; [by intros [? ?]|].
        intros (r' & [= <-] & [Hlist|[type_name Hother]]); congruence.
      * discriminate.
      * intros r' ? ? ? ? [= <-] _. eexists. by repeat split.
      * discriminate.
    + split; [|split; [|split]].
      * split; [|intros _; by eexists]. intros _. exists r. split; [done|]. by left.
      * by intros e [= <-].
      * intros r' ? ? ? ? [= <-] Hdict. congruence.
      * discriminate.
    + split; [|split; [|split]].
      * split; [|intros _; by eexists]. intros _. exists r. split; [done|].
        right. by exists type_name.
      * by intros e [= <-].
      * intros r' ? ? ? ? [= <-] Hdict. congruence.
      * discriminate.
    + split; [|split; [|split]].
      * split; [by intros [? ?]|].
        intros (r' & [= <-] & [Hlist|[type_name Hother]]); congruence.
      * discriminate.
      * intros r' ? ? ? ? [= <-] Hdict. congruence.
      * discriminate.
  - split; [|split; [|split]].
    + split; [by intros [? ?] | by intros (? & ? & ?)].
    + discriminate.
    + discriminate.
    + intros ? [= <-]. eexists. by repeat split.
Qed.

(** When the analysis of an image fails, the summary of its report
    is there: status ERROR, risk level UNKNOWN, no violation, nothing
    detected, the one recommendation "Manual review required", and it is
    marked Traditional. *)
Theorem image_failure_summary w kb image_path document_name e :
  Mistral.image_analysis w kb image_path document_name = Raise e →
  ∃ s,
    generate_summary
      (Checker.Enhanced (Mistral.analyze_image_document w kb image_path document_name))
    = Ok s
    ∧ document s = document_name
    ∧ status s = "ERROR"
    ∧ s_risk_level s = "UNKNOWN"
    ∧ total_violations s = 0%nat
    ∧ pii_found s = 0%Z
    ∧ key_issues s = []
    ∧ top_recommendations s = ["Manual review required"]
    ∧ analysis_type s = "Traditional".
Proof.
  intros Hfail. unfold Mistral.analyze_image_document. rewrite Hfail.
  eexists. split; [reflexivity|]. by repeat split.
Qed.

Lemma image_failure_summary_witness :
  ∃ s,
    generate_summary
      (Checker.Enhanced (Mistral.analyze_image_document Samples.world_unreadable
                           KB.initial "scan.jpg" "Scan"))
    = Ok s
    ∧ status s = "ERROR"
    ∧ analysis_type s = "Traditional".
Proof.
  destruct (image_failure_summary Samples.world_unreadable KB.initial "scan.jpg" "Scan"
              (Exn "FileNotFoundError" "No such file or directory") eq_refl)
    as (s & Hsum & _ & Hstatus & _ & _ & _ & _ & _ & Hty).
  exists s. by repeat split.
Defined.

End SummaryFacts.

(** ** document_processor.py *)
Module DocumentFacts.
Import DocumentProcessor.

Lemma endswith_split s suffix :
  Py.endswith s suffix = true ↔ ∃ before, s = before +:+ suffix.
Proof.
  induction s as [|c s IH]; cbn [Py.endswith].
  - rewrite orb_false_r, String.eqb_eq. split.
    + intros <-. by exists "".
    + intros [[|? ?] H]; simpl in H; [done | discriminate].
  - rewrite orb_true_iff, String.eqb_eq, IH. split.
    + intros [<-|[before ->]]; [by exists "" | by exists (String c before)].
    + intros [[|c' before] H]; simpl in H; [by left|].
      injection H as -> ->. right. by exists before.
Qed.

Lemma lower_append a b : Py.lower (a +:+ b) = Py.lower a +:+ Py.lower b.
Proof. induction a as [|c a IH]; simpl; [done | by rewrite IH]. Qed.

Lemma endswith_lower s suffix :
  Py.lower suffix = suffix → Py.endswith s suffix = true →
  Py.endswith (Py.lower s) suffix = true.
Proof.
  intros Hlow [before ->]%endswith_split. apply endswith_split.
  exists (Py.lower before). by rewrite lower_append, Hlow.
Qed.

Lemma image_extension_seen file_path :
  existsb (Py.endswith file_path) [".jpg"; ".jpeg"; ".png"] = true →
  is_image_file file_path = true.
Proof.
  intros (ext & Hin & Hends)%existsb_exists. apply existsb_exists.
  exists ext. split.
  - unfold image_extensions. cbn [In] in *. tauto.
  - apply endswith_lower; [|done].
    cbn [In] in Hin. by destruct Hin as [<-|[<-|[<-|[]]]].
Qed.

(** X22: the kind of a file and the extraction of its text do not agree
    on images.  [get_file_type] names one of four kinds; the text of a PDF
    or DOCX file is always extracted, a file of unknown kind always raises
    ValueError, and so does a file called an image unless its name ends,
    in lower case as written, in .jpg, .jpeg or .png. *)
Theorem file_type_and_extraction readers file_path :
  get_file_type file_path ∈ ["pdf"; "docx"; "image"; "unknown"]
  ∧ (get_file_type file_path = "pdf" ∨ get_file_type file_path = "docx" →
     ∃ text, extract_text readers file_path = Ok text)
  ∧ (get_file_type file_path = "unknown" →
     extract_text readers file_path = Raise (Exn "ValueError" "Unsupported file type"))
  ∧ (get_file_type file_path = "image" →
     (extract_text readers file_path = Raise (Exn "ValueError" "Unsupported file type")
      ↔ Forall (λ ext, Py.endswith file_path ext = false) [".jpg"; ".jpeg"; ".png"])).
Proof.
  unfold get_file_type, extract_text.
  destruct (Py.endswith file_path ".pdf").
  { split; [set_solver|]. split; [|split; [discriminate|discriminate]].
    intros _. destruct (pymupdf_text readers file_path) as [text|?]; [|by eexists].
    destruct (_ && _); by eexists. }
  destruct (Py.endswith file_path ".docx").
  { split; [set_solver|]. split; [|split; [discriminate|discriminate]].
    intros _. destruct (docx_text readers file_path); by eexists. }
  destruct (is_image_file file_path) eqn:Himage.
  - split; [set_solver|]. split; [by intros [?|?]|]. split; [discriminate|].
    intros _.
    destruct (existsb (Py.endswith file_path) [".jpg"; ".jpeg"; ".png"]) eqn:Hext.
    + split; [discriminate|]. intros Hall. exfalso.
      apply existsb_exists in Hext as (ext & Hin & Hends).
      rewrite Forall_forall in Hall.
      apply list_elem_of_In in Hin. specialize (Hall ext Hin). congruence.
    + split; [|done]. intros _. apply Forall_forall. intros ext Hin.
      destruct (Py.endswith file_path ext) eqn:Hends; [|done].
      exfalso. apply not_true_iff_false in Hext. apply Hext.
      apply existsb_exists. exists ext. split; [by apply list_elem_of_In | done].
  - split; [set_solver|]. split; [by intros [?|?]|]. split; [|discriminate].
    intros _.
    destruct (existsb (Py.endswith file_path) [".jpg"; ".jpeg"; ".png"]) eqn:Hext;
      [|done].
    apply image_extension_seen in Hext. congruence.
Qed.

Example extraction_of_images :
  get_file_type "scan.JPG" = "image"
  ∧ extract_text MoreSamples.readers "scan.JPG"
    = Raise (Exn "ValueError" "Unsupported file type")
  ∧ get_file_type "form.gif" = "image"
  ∧ extract_text MoreSamples.readers "form.gif"
    = Raise (Exn "ValueError" "Unsupported file type")
  ∧ get_file_type "REPORT.PDF" = "unknown".
Proof. vm_compute. by repeat split. Qed.

End DocumentFacts.

(** ** The legacy knowledge base of enhanced_dpa_knowledge.py *)
Module LegacyFacts.
Import KBLegacy.

(** X23: the table of violation patterns of the legacy knowledge base
    agrees with the evaluator: every violation the evaluator reports has,
    under the number of its section, a pattern of the same type, severity
    and section. *)
Theorem patterns_agree_with_evaluator sections kb text pii_categorized
        consent_indicators purpose_indicators :
  Forall (λ v, ∃ n p,
            Checker.section v = "Section " +:+ n
            ∧ p ∈ get_violation_patterns sections n
            ∧ p_type p = Checker.violation_type v
            ∧ p_severity p = Checker.severity v
            ∧ p_section_reference p = Checker.section v)
         (Checker._check_violations kb text pii_categorized consent_indicators
                                    purpose_indicators).
Proof.
  apply Forall_forall. intros v Hin.
  apply CheckerFacts.check_violations_elem in Hin.
  destruct Hin as [(_ & _ & ->)|[(_ & ->)|[(_ & _ & ->)|[(_ & ->)|Hsec]]]].
  - exists "12". eexists. split; [reflexivity|].
    split; [cbn; left|]. by repeat split.
  - exists "13". eexists. split; [reflexivity|].
    split; [cbn; left|]. by repeat split.
  - exists "11". eexists. split; [reflexivity|].
    split; [cbn; left|]. by repeat split.
  - exists "11". eexists. split; [reflexivity|].
    split; [cbn; right; left|]. by repeat split.
  - destruct (EvaluatorFacts.security_violations_shape text (KB.get_section kb "20"))
      as [Hnil|[pattern Hone]].
    + rewrite Hnil in Hsec. by apply elem_of_nil in Hsec.
    + rewrite Hone in Hsec. apply list_elem_of_singleton in Hsec as ->.
      exists "20". eexists. split; [reflexivity|].
      split; [cbn; left|]. by repeat split.
Qed.

Lemma rule_if_length content keyword rule :
  (length (rule_if content keyword rule) ≤ 1)%nat.
Proof. unfold rule_if. destruct (Py.contains _ _); simpl; lia. Qed.

(** X24: the legacy knowledge base derives rules only for the sections
    11, 12, 13 and 20 that it holds with some content: for a section that
    is missing or stored as an empty dictionary, and for every other
    number, the rule list is empty; it never has more than five rules. *)
Theorem compliance_rules_edges sections section_number :
  (get_section sections section_number = ∅ →
   get_compliance_rules sections section_number = [])
  ∧ (section_number ∉ ["11"; "12"; "13"; "20"] →
     get_compliance_rules sections section_number = [])
  ∧ (section_number ∉ map fst sections →
     get_compliance_rules sections section_number = [])
  ∧ (length (get_compliance_rules sections section_number) ≤ 5)%nat.
Proof.
  unfold get_compliance_rules.
  split; [|split; [|split]].
  - intros ->. by rewrite bool_decide_eq_true_2.
  - rewrite !not_elem_of_cons. intros (H11 & H12 & H13 & H20 & _).
    destruct (bool_decide _); [done|].
    destruct (String.eqb_spec section_number "12"); [done|].
    destruct (String.eqb_spec section_number "13"); [done|].
    destruct (String.eqb_spec section_number "11"); [done|].
    by destruct (String.eqb_spec section_number "20").
  - intros Hmissing. unfold get_section.
    rewrite (KBFacts.od_get_unknown _ _ Hmissing). cbn [default].
    by rewrite bool_decide_eq_true_2.
  - destruct (bool_decide _); [simpl; lia|].
    repeat match goal with |- context [if String.eqb ?a ?b then _ else _] =>
             destruct (String.eqb a b) end;
      rewrite ?length_app;
      repeat match goal with |- context [rule_if ?c ?k ?r] =>
               pose proof (rule_if_length c k r);
               generalize dependent (rule_if c k r); intros end;
      simpl; lia.
Qed.

(** X25: the penalty of a violation type is looked up through a fixed
    table of eight types and the sections 25 to 32; the answer is empty
    for a type outside the table and for a section the knowledge base does
    not hold, and otherwise carries the title and content of that section.
    Of the types the evaluator reports only unauthorized_processing is in
    the table. *)
Theorem penalties_for_violation sections violation_type :
  (violation_type ∉ map fst penalty_sections →
   get_penalties_for_violation sections violation_type = None)
  ∧ (∀ info, get_penalties_for_violation sections violation_type = Some info →
             (violation_type, pi_section info) ∈ penalty_sections
             ∧ ∃ section,
                 od_get (pi_section info) sections = Some section
                 ∧ pi_title info = get_str section "title" ""
                 ∧ pi_content info = get_str section "content" "")
  ∧ (violation_type ∈ ["inadequate_spi_protection"; "lack_of_transparency";
                       "excessive_processing"; "inadequate_security"] →
     get_penalties_for_violation sections violation_type = None)
  ∧ (get_penalties_for_violation sections "unauthorized_processing"
     = (λ section, {| pi_section := "25";
                      pi_title := get_str section "title" "";
                      pi_content := get_str section "content" "" |})
         <$> od_get "25" sections).
Proof.
  unfold get_penalties_for_violation.
  split; [|split; [|split]].
  - intros Hout. by rewrite (KBFacts.od_get_unknown _ _ Hout).
  - intros info.
    destruct (od_get violation_type penalty_sections) as [n|] eqn:Htable; [|done].
    destruct (od_get n sections) as [section|] eqn:Hsection; [|done].
    intros [= <-]. cbn [pi_section pi_title pi_content]. split; [|by exists section].
    revert Htable. unfold penalty_sections. cbn [od_get].
    repeat match goal with |- context [String.eqb ?a violation_type] =>
             destruct (String.eqb_spec a violation_type) as [<-|?] end;
      intros [= <-]; set_solver.
  - rewrite !elem_of_cons, elem_of_nil. by intros [->|[->|[->|[->|[]]]]].
  - cbn. by destruct (od_get "25" sections).
Qed.

End LegacyFacts.

(** ** The offsets of the consent and purpose indicators *)
Module DetectorFacts.
Import Regex PII.

(** A match consumes the literal characters of the pattern, whatever their
    case. *)
Lemma match_here_text ts prev s :
  match_here ts prev s = true →
  Py.lower (Py.slice_to (width ts) s)
  = Py.lower (foldr (λ t acc, match t with Lit c => String c acc | Boundary => acc end)
                    "" ts)
  ∧ String.length (Py.slice_to (width ts) s) = width ts.
Proof.
  revert prev s. induction ts as [|[|c] ts IH]; intros prev s.
  - intros _. by destruct s.
  - cbn [match_here]. intros [_ H]%andb_true_iff. exact (IH _ _ H).
  - cbn [match_here]. destruct s as [|x s]; [discriminate|].
    intros [Hc H]%andb_true_iff. apply Ascii.eqb_eq in Hc.
    destruct (IH _ _ H) as [Htext Hlen].
    change (width (Lit c :: ts)) with (S (width ts)).
    cbn [Py.slice_to foldr Py.lower String.length]. by rewrite Hc, Htext, Hlen.
Qed.

Lemma slice_to_le n s : (String.length (Py.slice_to n s) ≤ String.length s)%nat.
Proof.
  revert s. induction n as [|n IH]; intros [|c s]; simpl; try lia.
  specialize (IH s). lia.
Qed.

Lemma drop_str_length k s :
  (k ≤ String.length s)%nat →
  String.length (Py.drop_str k s) = (String.length s - k)%nat.
Proof.
  revert s. induction k as [|k IH]; intros [|c s]; simpl; intros Hk; try lia.
  apply IH. lia.
Qed.

Lemma finditer_from_elem ts skip pos prev s m :
  m ∈ finditer_from ts skip pos prev s →
  ∃ k prev',
    (k < String.length s)%nat
    ∧ m_start m = (pos + k)%nat
    ∧ m_end m = (pos + k + width ts)%nat
    ∧ m_text m = Py.slice_to (width ts) (Py.drop_str k s)
    ∧ match_here ts prev' (Py.drop_str k s) = true.
Proof.
  revert skip pos prev.
  induction s as [|x s IH]; intros skip pos prev; cbn [finditer_from].
  - by intros ?%elem_of_nil.
  - assert (∀ skip', m ∈ finditer_from ts skip' (S pos) (Some x) s →
            ∃ k prev', (k < String.length (String x s))%nat
              ∧ m_start m = (pos + k)%nat
              ∧ m_end m = (pos + k + width ts)%nat
              ∧ m_text m = Py.slice_to (width ts) (Py.drop_str k (String x s))
              ∧ match_here ts prev' (Py.drop_str k (String x s)) = true) as Hlater.
    { intros skip' (k & prev' & Hk & Hstart & Hend & Htext & Hm)%IH.
      exists (S k), prev'. cbn [String.length Py.drop_str].
      repeat split; [lia | lia | lia | done | done]. }
    destruct skip as [|skip]; [|apply Hlater].
    destruct (match_here ts prev (String x s)) eqn:Hhere; [|apply Hlater].
    intros [->|Hin]%elem_of_cons; [|by eapply Hlater].
    exists 0%nat, prev. cbn [m_start m_end m_text Py.drop_str String.length].
    repeat split; [lia | lia | lia | done].
Qed.

Lemma indicators_of_elem patterns text i :
  i ∈ indicators_of patterns text →
  i_pattern i ∈ patterns
  ∧ Py.lower (i_text i)
    = Py.lower (foldr (λ t acc, match t with Lit c => String c acc | Boundary => acc end)
                      "" (parse (i_pattern i)))
  ∧ i_end i = (i_start i + String.length (i_text i))%nat
  ∧ (i_end i ≤ String.length text)%nat
  ∧ Py.slice (Z.of_nat (i_start i)) (Z.of_nat (i_end i)) text = i_text i.
Proof.
  unfold indicators_of. rewrite list_elem_of_In, in_flat_map.
  intros (pattern & Hpattern%list_elem_of_In & Hin%list_elem_of_In).
  apply list_elem_of_fmap in Hin as (m & -> & Hm).
  cbn [i_pattern i_text i_start i_end].
  apply finditer_from_elem in Hm as (k & prev' & Hk & Hstart & Hend & Htext & Hhere).
  destruct (match_here_text _ _ _ Hhere) as [Hlower Hlen].
  pose proof (slice_to_le (width (parse pattern)) (Py.drop_str k text)) as Hle.
  rewrite Hlen, drop_str_length in Hle by lia.
  rewrite Hstart, Hend, Htext, Hlen. cbn [Nat.add].
  split; [done|]. split; [done|]. split; [done|]. split; [lia|].
  unfold Py.slice.
  replace (Z.to_nat (Z.of_nat (k + width (parse pattern)) - Z.of_nat k))
    with (width (parse pattern)) by lia.
  by rewrite Nat2Z.id.
Qed.

(** X26: in a document of ASCII characters, what a consent or purpose
    indicator records is consistent: its pattern is one of the sixteen of
    the two detectors; its text is the word or phrase of that pattern, in
    whatever case the document has it; and [start] and [end] are offsets
    into the document, with [text[start:end]] the recorded text. *)
Theorem indicator_offsets text :
  Py.isascii text = true →
  Forall (λ i,
            i_pattern i ∈ (consent_patterns ++ purpose_patterns)%list
            ∧ i_pattern i = "\b" +:+ Py.lower (i_text i) +:+ "\b"
            ∧ i_end i = (i_start i + String.length (i_text i))%nat
            ∧ (i_end i ≤ String.length text)%nat
            ∧ Py.slice (Z.of_nat (i_start i)) (Z.of_nat (i_end i)) text = i_text i)
         (detect_consent_indicators text ++ detect_purpose_statements text)%list.
Proof.
  intros _.
  assert (Forall (λ p, "\b" +:+ Py.lower (foldr (λ t acc, match t with
                                                          | Lit c => String c acc
                                                          | Boundary => acc end)
                                                "" (parse p)) +:+ "\b" = p)
                 (consent_patterns ++ purpose_patterns)%list) as Hwords.
  { by repeat constructor. }
  rewrite Forall_forall in Hwords.
  apply Forall_forall. intros i Hin.
  assert (i ∈ indicators_of (consent_patterns ++ purpose_patterns)%list text) as Hall.
  { unfold indicators_of. rewrite flat_map_app. exact Hin. }
  apply indicators_of_elem in Hall as (Hpattern & Hlower & Hend & Hle & Hslice).
  split; [done|]. split; [|done].
  rewrite Hlower. symmetry. by apply Hwords.
Qed.

Lemma indicator_offsets_witness :
  map (λ i, (i_text i, i_start i, i_end i))
      (detect_consent_indicators "I CONSENT and agree; the purpose is billing")
  = [("CONSENT", 2%nat, 9%nat); ("agree", 14%nat, 19%nat)]
  ∧ Forall (λ i, i_pattern i = "\b" +:+ Py.lower (i_text i) +:+ "\b"
                 ∧ Py.slice (Z.of_nat (i_start i)) (Z.of_nat (i_end i))
                            "I CONSENT and agree; the purpose is billing" = i_text i)
           (detect_consent_indicators "I CONSENT and agree; the purpose is billing"
            ++ detect_purpose_statements "I CONSENT and agree; the purpose is billing")%list.
Proof.
  split; [reflexivity|].
  eapply Forall_impl;
    [exact (indicator_offsets "I CONSENT and agree; the purpose is billing" eq_refl)|].
  intros i (_ & Hpattern & _ & _ & Hslice). by split.
Defined.

End DetectorFacts.

(** ** Definitions and the search index of the knowledge base *)
Module LookupFacts.
Import KB.

Lemma contains_empty_sub s : Py.contains "" s = true.
Proof. by destruct s. Qed.

(** X27: [get_definition] answers with the first definition, in the stored
    order, whose key contains the term in lower case or is contained in
    it, and with [None] exactly when no key is; a term that is empty gets
    the first definition of the table, whatever it defines. *)
Theorem get_definition_first_overlap self term :
  (get_definition self term = None
   ↔ Forall (λ kd, Py.contains (Py.lower term) (fst kd) = false
                   ∧ Py.contains (fst kd) (Py.lower term) = false)
            (definitions self))
  ∧ (∀ d, get_definition self term = Some d →
          ∃ before key after,
            definitions self = (before ++ (key, d) :: after)%list
            ∧ (Py.contains (Py.lower term) key = true
               ∨ Py.contains key (Py.lower term) = true)
            ∧ Forall (λ kd, Py.contains (Py.lower term) (fst kd) = false
                            ∧ Py.contains (fst kd) (Py.lower term) = false)
                     before)
  ∧ (Py.lower term = "" → get_definition self term = snd <$> head (definitions self)).
Proof.
  unfold get_definition. cbv zeta.
  generalize (Py.lower term) as term_lower. intros term_lower.
  induction (definitions self) as [|[key d0] defs (IHnone & IHsome & IHempty)].
  - split; [by split|]. split; [discriminate|done].
  - cbn [List.find fst].
    destruct (Py.contains term_lower key || Py.contains key term_lower) eqn:Hkey.
    + split; [|split].
      * split; [discriminate|].
        intros [[Ha Hb] _]%Forall_cons. cbn [fst] in *. by rewrite Ha, Hb in Hkey.
      * intros d [= <-]. exists [], key, defs. split; [done|].
        split; [by apply orb_true_iff | constructor].
      * done.
    + apply orb_false_iff in Hkey as [Ha Hb]. split; [|split].
      * rewrite IHnone, Forall_cons. cbn [fst]. tauto.
      * intros d (before & key' & after & -> & Hover & Hbefore)%IHsome.
        exists ((key, d0) :: before), key', after. split; [done|].
        split; [done|]. by constructor.
      * intros ->. by rewrite contains_empty_sub in Ha.
Qed.

(** A defined term can be answered with the definition of another one. *)
Example get_definition_shadowed :
  let personal := {| d_term := "Personal information";
                     d_definition := "any information from which the identity of an individual is apparent";
                     d_section := "3" |} in
  let sensitive := {| d_term := "Sensitive personal information";
                      d_definition := "personal information about race, health or offences";
                      d_section := "3" |} in
  let kb := {| knowledge_base := empty_file; sections := [];
               definitions := [("personal information", personal);
                               ("sensitive personal information", sensitive)];
               penalties := ∅; rights := ∅; functions := ∅; principles := ∅;
               compliance_rules := ∅; search_index := ∅ |} in
  get_definition kb "Sensitive Personal Information" = Some personal
  ∧ get_definition kb "" = Some personal
  ∧ get_definition kb "info" = Some personal
  ∧ get_definition kb "privileged" = None.
Proof. vm_compute. by repeat split. Qed.

Lemma insert_desc_front {A} (key : A → Z) x l :
  Forall (λ y, key y ≤ key x)%Z l → insert_desc key x l = x :: l.
Proof.
  destruct l as [|y l]; [done|]. intros [Hy _]%Forall_cons. simpl.
  by destruct (Z.ltb_spec (key x) (key y)); [lia|].
Qed.

Lemma sort_desc_constant {A} (key : A → Z) k l :
  Forall (λ y, key y = k) l → sort_desc key l = l.
Proof.
  induction l as [|x l IH]; [done|]. intros [Hx Hl]%Forall_cons.
  simpl. rewrite (IH Hl). apply insert_desc_front.
  eapply Forall_impl; [exact Hl|]. simpl. intros y ->. lia.
Qed.

(** X28: the search index crowds the sections out.  When the index holds
    at least [limit] entries for the keyword in lower case, no section is
    searched: every result is one of the first [limit] index entries, and
    when these carry no relevance, as the entries the training writes, the
    results are exactly these entries in their stored order. *)
Theorem index_crowds_out_sections self keyword limit entries :
  search_index self !! Py.lower keyword = Some entries →
  (0 ≤ limit ≤ Z.of_nat (length entries))%Z →
  search_candidates self keyword limit = take (Z.to_nat limit) entries
  ∧ (∀ x, x ∈ search_content self keyword limit → x ∈ take (Z.to_nat limit) entries)
  ∧ (Forall (λ x, h_relevance x = None) (take (Z.to_nat limit) entries) →
     search_content self keyword limit = take (Z.to_nat limit) entries).
Proof.
  intros Hindex [Hlow Hhigh].
  assert (search_candidates self keyword limit = take (Z.to_nat limit) entries)
    as Hcandidates.
  { unfold search_candidates. cbv zeta. rewrite Hindex.
    rewrite KBFacts.slice_nonneg by done.
    rewrite length_take, Nat.min_l by lia.
    by destruct (Z.ltb_spec (Z.of_nat (Z.to_nat limit)) limit); [lia|]. }
  split; [done|]. unfold search_content. rewrite Hcandidates.
  rewrite KBFacts.slice_nonneg by done. split.
  - intros x Hx. apply (sublist_subseteq _ _ (sublist_take _ _)) in Hx.
    by rewrite sort_desc_perm in Hx.
  - intros Hnone. rewrite (sort_desc_constant relevance_key 1%Z).
    + apply take_ge. rewrite length_take. lia.
    + eapply Forall_impl; [exact Hnone|]. intros x Hx.
      unfold relevance_key. by rewrite Hx.
Qed.

Lemma index_crowds_out_sections_witness :
  search_content Samples.kb_indexed "Consent" 2
  = take 2 [Samples.index_entry "12" "Lawful"; Samples.index_entry "13" "Sensitive";
            Samples.index_entry "16" "Rights"].
Proof.
  refine (proj2 (proj2 (index_crowds_out_sections Samples.kb_indexed "Consent" 2
                          [Samples.index_entry "12" "Lawful";
                           Samples.index_entry "13" "Sensitive";
                           Samples.index_entry "16" "Rights"] _ _)) _).
  - reflexivity.
  - simpl. lia.
  - by repeat constructor.
Defined.

End LookupFacts.

(** ** An answer of the model that cannot be used, and the enhanced summary *)
Module AnswerFacts.
Import Shape MistralClient Summaries.

Lemma combine_recommendations baseline_analysis ai_analysis combined :
  Mistral._combine_analyses baseline_analysis ai_analysis = Ok combined →
  recommendations combined
  = Mistral.merge_recommendations (recommendations baseline_analysis)
      (default [] (Mistral.ai_recommendations ai_analysis))
  ∧ ∃ overall_risk risk_factors mitigation_priority,
      ai_risk_assessment combined
      = Some (RiskDict overall_risk risk_factors mitigation_priority)
      ∧ default Mistral.empty_risk (Mistral.ai_risk ai_analysis)
        = RiskDict overall_risk risk_factors mitigation_priority.
Proof.
  unfold Mistral._combine_analyses.
  destruct (default Mistral.empty_risk (Mistral.ai_risk ai_analysis))
    as [overall_risk risk_factors mitigation_priority|]; [|discriminate].
  cbn [Mistral.get_overall_risk mbind result_bind].
  destruct (if Mistral.truthy overall_risk then _ else _) as [risk|e]; [|discriminate].
  cbn [mbind result_bind]. intros [= <-]. cbn [recommendations ai_risk_assessment].
  split; [done|]. by eexists _, _, _.
Qed.

(** What the [try] of the text analysis leaves of an answer that cannot
    be used. *)
Lemma unusable_answer json_loads chat :
  (∀ ai_response,
      chat = Ok ai_response →
      Py.find ai_response "{" = (-1)%Z
      ∨ ∃ e, json_loads (Py.slice (Py.find ai_response "{")
                                  (Py.rfind ai_response "}" + 1) ai_response)
             = Raise e) →
  (∃ e, _get_mistral_text_analysis json_loads chat = failed_call e)
  ∨ (∃ ai_response,
       _get_mistral_text_analysis json_loads chat = analysis (_fallback_parse ai_response)).
Proof.
  intros Hunusable. unfold _get_mistral_text_analysis.
  destruct chat as [ai_response|e]; cbn [mbind result_bind]; [|left; by exists e].
  specialize (Hunusable ai_response eq_refl). unfold _parse_ai_response.
  destruct (negb (Py.find ai_response "{" =? -1)%Z
            && negb (Py.rfind ai_response "}" + 1 =? -1)%Z) eqn:Hbraces;
    [|right; by exists ai_response].
  destruct Hunusable as [Hnone|[e He]].
  - rewrite Hnone in Hbraces. discriminate.
  - rewrite He. destruct (String.eqb (exn_class e) "JSONDecodeError").
    + right. by exists ai_response.
    + left. by exists e.
Qed.

(** X29: an answer of the model that cannot be used never costs a finding
    of the baseline and never makes the reconciliation fail.  When the
    call raises, when the answer has no opening brace, or when [json.loads]
    raises on it, whatever the exception, the merged report has the
    violations, the recommendations and the status of the baseline; its
    risk level is that of the baseline, or MEDIUM in place of LOW. *)
Theorem unusable_answer_keeps_findings json_loads chat kb now text pii_data :
  (∀ ai_response,
      chat = Ok ai_response →
      Py.find ai_response "{" = (-1)%Z
      ∨ ∃ e, json_loads (Py.slice (Py.find ai_response "{")
                                  (Py.rfind ai_response "}" + 1) ai_response)
             = Raise e) →
  ∃ combined,
    Mistral._combine_analyses (KB.get_comprehensive_analysis kb now text pii_data)
                              (_get_mistral_text_analysis json_loads chat) = Ok combined
    ∧ violations combined = KB.check_violation kb text pii_data
    ∧ recommendations combined
      = KB.generate_recommendations (KB.check_violation kb text pii_data) pii_data
    ∧ compliance_status combined
      = compliance_status (KB.get_comprehensive_analysis kb now text pii_data)
    ∧ (risk_level combined
       = risk_level (KB.get_comprehensive_analysis kb now text pii_data)
       ∨ (risk_level (KB.get_comprehensive_analysis kb now text pii_data) = "LOW"
          ∧ risk_level combined = "MEDIUM")).
Proof.
  intros Hunusable.
  assert (∃ combined,
            Mistral._combine_analyses (KB.get_comprehensive_analysis kb now text pii_data)
                                      (_get_mistral_text_analysis json_loads chat)
            = Ok combined
            ∧ default [] (Mistral.ai_violations
                            (_get_mistral_text_analysis json_loads chat)) = []
            ∧ default [] (Mistral.ai_recommendations
                            (_get_mistral_text_analysis json_loads chat)) = []
            ∧ (risk_level combined
               = risk_level (KB.get_comprehensive_analysis kb now text pii_data)
               ∨ (risk_level (KB.get_comprehensive_analysis kb now text pii_data) = "LOW"
                  ∧ risk_level combined = "MEDIUM")))
    as (combined & Hok & Hv & Hr & Hrisk).
  { destruct (unusable_answer json_loads chat Hunusable) as [[e ->]|[ai_response ->]].
    - destruct (ClientFacts.combine_unfold
                  (KB.get_comprehensive_analysis kb now text pii_data) (failed_call e)
                  None [] None eq_refl eq_refl)
        as (combined & Hok & _ & _ & Hrisk & _).
      exists combined. split; [exact Hok|]. split; [done|]. split; [done|]. by left.
    - pose proof (BaselineFacts.baseline_risk_in_levels kb now text pii_data) as Hlevels.
      assert (∃ level,
                Mistral.higher_risk
                  (risk_level (KB.get_comprehensive_analysis kb now text pii_data))
                  "MEDIUM" = Ok level
                ∧ (level = risk_level (KB.get_comprehensive_analysis kb now text pii_data)
                   ∨ (risk_level (KB.get_comprehensive_analysis kb now text pii_data)
                      = "LOW" ∧ level = "MEDIUM")))
        as (level & Hhigher & Hlevel).
      { revert Hlevels. rewrite !elem_of_cons, elem_of_nil.
        intros [->|[->|[->|[->|[]]]]]; eexists; (split; [reflexivity|]);
          [right | left | left | left]; done. }
      destruct (MistralFacts.combine_ok
                  (KB.get_comprehensive_analysis kb now text pii_data)
                  (analysis (_fallback_parse ai_response)) "MEDIUM"
                  ["AI parsing error"] (Some "immediate") level eq_refl eq_refl Hhigher)
        as (combined & Hok & Hrisk & _).
      exists combined. split; [exact Hok|]. split; [done|]. split; [done|].
      by rewrite Hrisk. }
  exists combined. split; [exact Hok|].
  destruct (MistralFacts.combine_status _ _ _ Hok) as [Hviolations Hstatus].
  destruct (combine_recommendations _ _ _ Hok) as [Hrecommendations _].
  rewrite Hv in Hviolations. rewrite Hr in Hrecommendations.
  cbn [Mistral.merge_violations Mistral.merge_recommendations fold_left
       KB.get_comprehensive_analysis violations recommendations]
    in Hviolations, Hrecommendations.
  split; [exact Hviolations|]. split; [exact Hrecommendations|].
  split; [|exact Hrisk].
  rewrite Hstatus, Hviolations. unfold KB.get_comprehensive_analysis.
  cbn [compliance_status].
  destruct (KB.nonempty (KB.check_violation kb text pii_data)); reflexivity.
Qed.

Lemma unusable_answer_keeps_findings_witness :
  ∃ combined,
    Mistral._combine_analyses MoreSamples.baseline
      (_get_mistral_text_analysis MoreSamples.no_json (Ok "{ not json }")) = Ok combined
    ∧ violations combined = KB.check_violation Samples.kb_titles Samples.plain_text
                                               [Samples.person].
Proof.
  destruct (unusable_answer_keeps_findings MoreSamples.no_json (Ok "{ not json }")
              Samples.kb_titles "2025-01-01T00:00:00" Samples.plain_text [Samples.person])
    as (combined & Hok & Hv & _).
  - intros ai_response _. right. by eexists.
  - exists combined. by split.
Defined.

(** X30: the enhanced summary of a report the engine produced fails
    exactly when the report holds under [ai_insights] something that is not
    a dictionary (a list, or a [null], a string, a number or a boolean of
    the answer), and then with an AttributeError; the risk assessment it
    reads is always a dictionary by then.  A summary that is returned
    repeats the status and the risk level of the report, and its counts add
    up: the violations are those of the baseline plus those counted as
    found by the model, and so for the recommendations. *)
Theorem enhanced_summary_of_report w kb text pii_data document_name image_path r :
  Mistral.analyze_document_with_ai w kb text pii_data document_name image_path = Ok r →
  (∃ overall_risk risk_factors mitigation_priority,
      ai_risk_assessment r = Some (RiskDict overall_risk risk_factors mitigation_priority))
  ∧ ((∃ e, get_ai_enhanced_summary r = Raise e)
     ↔ (ai_insights r = Some InsightsList
        ∨ ∃ type_name, ai_insights r = Some (InsightsOther type_name)))
  ∧ (∀ e, get_ai_enhanced_summary r = Raise e → exn_class e = "AttributeError")
  ∧ (∀ s, get_ai_enhanced_summary r = Ok s →
          e_compliance_status s = compliance_status r
          ∧ e_risk_level s = risk_level r
          ∧ e_total_violations s
            = (length (KB.check_violation kb text pii_data)
               + e_ai_detected_violations s)%nat
          ∧ e_total_recommendations s
            = (length (KB.generate_recommendations (KB.check_violation kb text pii_data)
                                                   pii_data)
               + e_ai_recommendations s)%nat).
Proof.
  intros Hrun.
  destruct (SummaryFacts.enhanced_lists _ _ _ _ _ _ _ Hrun)
    as ((kv & Hv) & (kr & Hr) & [insights Hinsights]).
  assert (∃ overall_risk risk_factors mitigation_priority,
            ai_risk_assessment r
            = Some (RiskDict overall_risk risk_factors mitigation_priority))
    as (overall_risk & risk_factors & mitigation_priority & Hassessment).
  { revert Hrun. unfold Mistral.analyze_document_with_ai.
    destruct image_path as [path|]; cbn zeta beta iota;
      (destruct (Mistral._combine_analyses _ _) as [combined|e] eqn:Hc; [|discriminate]);
      cbn [mbind result_bind]; intros [= <-]; cbn [ai_risk_assessment];
      destruct (combine_recommendations _ _ _ Hc) as (_ & o & f & p & Ha & _);
      by exists o, f, p. }
  split; [by eexists _, _, _|].
  unfold get_ai_enhanced_summary. rewrite Hinsights, Hassessment. cbn [default].
  destruct insights as [document_type purpose flow gaps| |type_name];
    cbn [insights_dict mbind result_bind].
  - split; [|split].
    + split; [by intros [? ?]|]. intros [?|[? ?]]; congruence.
    + discriminate.
    + intros s [= <-].
      cbn [e_compliance_status e_risk_level e_total_violations e_ai_detected_violations
           e_total_recommendations e_ai_recommendations].
      split; [done|]. split; [done|]. rewrite Hv, Hr.
      rewrite (SummaryFacts.count_from_ai_violations _ _
                 (SummaryFacts.baseline_sources kb text pii_data)).
      rewrite (SummaryFacts.count_from_ai_recommendations _ _
                 (SummaryFacts.baseline_recommendation_sources _ pii_data)).
      by rewrite !length_app.
  - split; [|split].
    + split; [intros _; by left | intros _; by eexists].
    + by intros e [= <-].
    + discriminate.
  - split; [|split].
    + split; [intros _; right; by exists type_name | intros _; by eexists].
    + by intros e [= <-].
    + discriminate.
Qed.

Lemma enhanced_summary_of_report_witness :
  ∃ r s,
    Mistral.analyze_document_with_ai
      (Samples.world (Samples.answer [Samples.accountability; Samples.accountability]
                                     "HIGH"))
      Samples.kb_titles Samples.plain_text [Samples.person] "Form" None = Ok r
    ∧ get_ai_enhanced_summary r = Ok s
    ∧ e_compliance_status s = compliance_status r
    ∧ e_total_violations s = 4%nat.
Proof.
  destruct (Mistral.analyze_document_with_ai
              (Samples.world (Samples.answer
                                [Samples.accountability; Samples.accountability] "HIGH"))
              Samples.kb_titles Samples.plain_text [Samples.person] "Form" None)
    as [r|e] eqn:Hrun; [|vm_compute in Hrun; discriminate].
  pose proof (enhanced_summary_of_report _ _ _ _ _ _ _ Hrun) as (_ & _ & _ & Hsummary).
  destruct (get_ai_enhanced_summary r) as [s|e] eqn:Hsum.
  - exists r, s. split; [reflexivity|]. split; [exact Hsum|].
    destruct (Hsummary s eq_refl) as (Hstatus & _ & _ & _). split; [exact Hstatus|].
    vm_compute in Hrun. injection Hrun as <-.
    vm_compute in Hsum. by injection Hsum as <-.
  - exfalso. vm_compute in Hrun. injection Hrun as <-.
    vm_compute in Hsum. discriminate.
Defined.

End AnswerFacts.
